(** * The search job compiler of [internal/search/job/job.go]

    A shallow embedding of the query compiler ([ToSearchJob], [jobMode],
    [toAndJob], [toOrJob], [toPatternExpressionJob], [ToEvaluateJob],
    [FromExpandedPlan]) and the properties of the job trees it builds.

    Go packages become modules ([result], [query], [search], ...), Go
    structs become records, a Go [error] result becomes [Res], and the one
    piece of shared mutable state the compiler touches, the [SearchInputs]
    reached through the [*Args] pointer, is threaded explicitly by the
    monad [M].  The [database.DB] argument is only passed along by the Go
    code and never consulted, so it is left out. *)

From stdpp Require Import base strings gmap list.
From Stdlib Require Import Ascii ZArith Lia DecimalString Sorted.
From Stdlib Require OrderedTypeEx.

#[local] Set Warnings "-register-all".

Open Scope string_scope.
Open Scope list_scope.
Open Scope Z_scope.

(** ** Errors *)

(** A Go [error] value; only its presence matters to the compiler. *)
Definition error : Type := string.

(** A Go [(T, error)] result pair. *)
Inductive Res (A : Type) : Type :=
  | Ok (a : A)
  | Err (e : error).
Arguments Ok {A} a.
Arguments Err {A} e.

#[global] Instance Res_ret : MRet Res := fun A a => Ok a.
#[global] Instance Res_bind : MBind Res :=
  fun A B k m => match m with Ok a => k a | Err e => Err e end.

Definition isOk {A} (r : Res A) : bool :=
  match r with Ok _ => true | Err _ => false end.

(** ** Package [result]: sets of result types *)

Module result.

(** Modelled from the spec: package [result] is not under src/.  [job.go]
    combines result types with Go's bitwise [|] and compares them with
    [0], so [Types] is a bit set; the spec lists the types (file/path,
    symbol, commit, diff, repo) and asks for "at least one" of several
    types where the code calls [Has] on a union, so [Has] tests for a
    common bit. *)
Definition Types : Type := Z.

Definition TypeRepo : Types := Z.shiftl 1 0.
Definition TypeSymbol : Types := Z.shiftl 1 1.
Definition TypeFile : Types := Z.shiftl 1 2.
Definition TypePath : Types := Z.shiftl 1 3.
Definition TypeDiff : Types := Z.shiftl 1 4.
Definition TypeCommit : Types := Z.shiftl 1 5.

Definition Has (r t : Types) : bool := negb (Z.eqb (Z.land r t) 0).
Definition With (r t : Types) : Types := Z.lor r t.
Definition Without (r t : Types) : Types := Z.ldiff r t.

End result.

(** ** Package [query]: the parse tree *)

Module query.

(** Modelled from the spec: the enumerations of package [query] are not
    under src/; their values are the constants [job.go] names, with the
    pattern types the spec lists (literal, regex, structural). *)
Inductive operatorKind : Type := Or | And | Concat.

Inductive SearchType : Type :=
  | SearchTypeRegex
  | SearchTypeLiteral
  | SearchTypeStructural.

Inductive YesNoOnly : Type := Yes | No | Only | Invalid.

Inductive RepoVisibility : Type := Any | Private | Public.

(** The fields of [query.Parameter] that [job.go] reads (the record
    cannot take the Go name, a reserved word here). *)
Record Parameter_ : Type := {
  Field : string;
  Value : string;
  Negated : bool;
}.

(** Modelled from the spec: the node types of package [query] are not
    under src/.  The spec gives the parse tree as a tagged recursive
    type (Pattern | And | Or | Parameter); the type switch of
    [toPatternExpressionJob] names the three node types and the operator
    kinds. *)
Inductive Node : Type :=
  | NParameter (p : Parameter_)
  | NPattern (value : string) (negated : bool)
  | NOperator (kind : operatorKind) (operands : list Node).

Definition Q : Type := list Node.

(** [query.Basic]: parameters plus an optional pattern expression
    ([Pattern] is [nil] for a query without pattern). *)
Record Basic : Type := {
  Parameters : list Parameter_;
  Pattern : option Node;
}.

(** [query.Plan]: a disjunction of basic queries. *)
Definition Plan : Type := list Basic.

(** Modelled from the spec: [Basic.MapPattern] is not under src/; each
    operand of an operator is compiled as the same basic query with the
    operand as its pattern. *)
Definition MapPattern (b : Basic) (pattern : Node) : Basic :=
  {| Parameters := Parameters b; Pattern := Some pattern |}.

(** All nodes of a tree, parents before children, left to right. *)
Fixpoint nodesOf (n : Node) : list Node :=
  n :: match n with
       | NOperator _ operands => flat_map nodesOf operands
       | _ => []
       end.

Definition allNodes (nodes : Q) : list Node := flat_map nodesOf nodes.

(** All parameters of a tree, left to right. *)
Definition parametersOf (nodes : Q) : list Parameter_ :=
  omap (fun n => match n with NParameter p => Some p | _ => None end)
       (allNodes nodes).

(** Modelled from the spec: [query.VisitParameter] is not under src/; it
    calls the callback on every parameter of the query ("every query
    field").  The callback of [job.go] updates a captured variable, here
    the accumulator [s]. *)
Definition VisitParameter {S : Type} (nodes : Q)
    (f : string -> string -> bool -> S -> S) (s : S) : S :=
  fold_left (fun s p => f (Field p) (Value p) (Negated p) s)
            (parametersOf nodes) s.

(** Modelled from the spec: [query.ForAll] is not under src/; it holds
    when the predicate holds of every node of the query. *)
Definition ForAll (nodes : Q) (fn : Node -> bool) : bool :=
  forallb fn (allNodes nodes).

#[global] Instance SearchType_eq_dec : EqDecision SearchType.
Proof. solve_decision. Defined.
#[global] Instance YesNoOnly_eq_dec : EqDecision YesNoOnly.
Proof. solve_decision. Defined.
#[global] Instance RepoVisibility_eq_dec : EqDecision RepoVisibility.
Proof. solve_decision. Defined.

End query.

(** ** Package [schema] *)

Module Settings.
(** The two settings [toRepoOptions] reads; both are [*bool] in Go. *)
Record t : Type := {
  SearchIncludeForks : option bool;
  SearchIncludeArchived : option bool;
}.
End Settings.

(** ** Package [featureflag] *)

Module featureflag.
(** Modelled from the spec: package [featureflag] is not under src/.  The
    feature flags of a request are a map from flag names to booleans,
    [nil] when they are not available; [GetBoolOr] is the value of a flag,
    or the default when the flag is not set. *)
Definition FlagSet : Type := option (gmap string bool).

Definition GetBoolOr (flags : gmap string bool) (flag : string)
    (defaultVal : bool) : bool :=
  default defaultVal (flags !! flag).
End featureflag.

(** ** Package [search] *)

Module search.
(** Modelled from the spec: the enumerations of package [search] are not
    under src/; their values are the constants [job.go] names and the
    two protocol modes. *)
Inductive Protocol : Type := Streaming | Batch.
Inductive IndexedRequestType : Type := TextRequest | SymbolRequest.
(** [DefaultMode] is the zero value of [GlobalSearchMode]. *)
Inductive GlobalSearchMode : Type :=
  | DefaultMode
  | ZoektGlobalSearch
  | SkipUnindexed.

Record Features : Type := { ContentBasedLangFilters : bool }.

#[global] Instance Protocol_eq_dec : EqDecision Protocol.
Proof. solve_decision. Defined.
End search.

Module TextPatternInfo.
(** The fields of [search.TextPatternInfo] that [job.go] reads or
    writes. *)
Record t : Type := {
  Pattern : string;
  IsStructuralPat : bool;
  FileMatchLimit : Z;
  Select : list string;
  Index : query.YesNoOnly;
}.
End TextPatternInfo.

Module RepoOptions.
Record t : Type := {
  RepoFilters : list string;
  MinusRepoFilters : list string;
  Dependencies : list string;
  CaseSensitiveRepoFilters : bool;
  SearchContextSpec : string;
  OnlyForks : bool;
  NoForks : bool;
  OnlyArchived : bool;
  NoArchived : bool;
  Visibility : query.RepoVisibility;
  CommitAfter : string;
  Query : query.Q;
}.

(** The Go zero value [search.RepoOptions{}]. *)
Definition zero : t :=
  {| RepoFilters := []; MinusRepoFilters := []; Dependencies := [];
     CaseSensitiveRepoFilters := false; SearchContextSpec := "";
     OnlyForks := false; NoForks := false; OnlyArchived := false;
     NoArchived := false; Visibility := query.Any; CommitAfter := "";
     Query := [] |}.
End RepoOptions.

(** ** Package [run] *)

Module SearchInputs.
(** The fields of [run.SearchInputs] that the compiler reads or
    writes. *)
Record t : Type := {
  PatternType : query.SearchType;
  Protocol : search.Protocol;
  Features : featureflag.FlagSet;
  UserSettings : Settings.t;
  OnSourcegraphDotCom : bool;
}.

(** The assignment [inputs.PatternType = st]. *)
Definition setPatternType (inputs : t) (st : query.SearchType) : t :=
  {| PatternType := st;
     Protocol := Protocol inputs;
     Features := Features inputs;
     UserSettings := UserSettings inputs;
     OnSourcegraphDotCom := OnSourcegraphDotCom inputs |}.
End SearchInputs.

(** ** [strings.SplitN(s, "@", 2)] *)

Fixpoint cutAt (s : string) : option (string * string) :=
  match s with
  | EmptyString => None
  | String c rest =>
      if Ascii.eqb c "@"%char then Some (EmptyString, rest)
      else match cutAt rest with
           | Some (before, after) => Some (String c before, after)
           | None => None
           end
  end.

Definition SplitN_at_2 (s : string) : list string :=
  match cutAt s with
  | Some (before, after) => [before; after]
  | None => [s]
  end.

(** ** The collaborators of the compiler

    [job.go] calls into packages [query], [search], [zoektutil],
    [searchrepos], [searchcontexts], [commit], [authz], [filter] and
    [regexp] whose sources are not part of this development.  What the
    compiler consumes of them is collected in the class [Env]; methods
    carry their receiver type as a prefix ([q.Timeout()] is
    [Q_Timeout q]).  Every definition and theorem below holds for all
    environments. *)

(** Handles of services and the query representations of the backends;
    the compiler stores them in jobs and never looks inside. *)
Class Backends : Type := {
  ZoektStreamer : Type;            (* zoekt.Streamer *)
  EndpointMap : Type;              (* *endpoint.Map *)
  ZoektQuery : Type;               (* zoekt query.Q *)
  GlobalZoektQuery : Type;         (* *zoektutil.GlobalZoektQuery *)
  GitQuery : Type;                 (* gitprotocol.Node *)
}.

Class Env {backends : Backends} : Type := {
  (** package [query]: field names *)
  FieldDefault : string;
  FieldCase : string;
  FieldRepo : string;
  FieldContext : string;
  FieldType : string;
  FieldIndex : string;
  FieldCount : string;
  FieldTimeout : string;
  FieldFork : string;
  FieldArchived : string;
  FieldVisibility : string;
  FieldRepoHasFile : string;
  FieldRepoHasCommitAfter : string;
  FieldPatternType : string;
  FieldSelect : string;
  FieldFile : string;
  FieldLang : string;
  (** package [query]: accessors of a parse tree *)
  ToBasicQuery : query.Q -> Res query.Basic;
  ToNodes : list query.Parameter_ -> query.Q;
  Q_MaxResults : query.Q -> Z -> Z;
  Q_StringValues : query.Q -> string -> list string;
  Q_StringValue : query.Q -> string -> string;
  Q_Timeout : query.Q -> option Z;
  Q_Count : query.Q -> option Z;
  Q_Repositories : query.Q -> list string * list string;
  Q_Fork : query.Q -> option query.YesNoOnly;
  Q_Archived : query.Q -> option query.YesNoOnly;
  Q_Dependencies : query.Q -> list string;
  Q_IsCaseSensitive : query.Q -> bool;
  ParseVisibility : string -> query.RepoVisibility;
  ContainsRefGlobs : query.Q -> bool;
  Basic_PatternString : query.Basic -> string;
  Basic_Exists : query.Basic -> string -> bool;
  Basic_Index : query.Basic -> query.YesNoOnly;
  Basic_ToParseTree : query.Basic -> query.Q;
  (** package [search] *)
  ComputeResultTypes :
    list string -> string -> query.SearchType -> result.Types;
  ToTextPatternInfo :
    query.Basic -> result.Types -> search.Protocol -> TextPatternInfo.t;
  QueryToZoektQuery :
    TextPatternInfo.t -> search.Features -> search.IndexedRequestType ->
    Res ZoektQuery;
  TimeoutDuration : query.Basic -> Z;
  SearchInputs_DefaultLimit : SearchInputs.t -> Z;
  (** package [zoektutil] *)
  DefaultGlobalQueryScope : RepoOptions.t -> Res ZoektQuery;
  NewGlobalZoektQuery : ZoektQuery -> ZoektQuery -> bool -> GlobalZoektQuery;
  (** packages [searchrepos], [searchcontexts], [commit] *)
  ExactlyOneRepo : list string -> bool;
  IsGlobalSearchContextSpec : string -> bool;
  QueryToGitQuery : query.Q -> bool -> GitQuery;
  (** [authz.SubRepoEnabled(authz.DefaultSubRepoPermsChecker)]: whether
      sub-repository permission enforcement is active for the instance *)
  SubRepoEnabled : bool;
  (** [filter.SelectPathFromString], its error dropped as in the code *)
  SelectPathFromString : string -> list string;
  (** whether [regexp.Compile] accepts the expression *)
  regexp_Compile_ok : string -> bool;
}.

Section Compiler.

Context {backends : Backends} {env : Env}.

Import query search.

(** ** Jobs *)

(** [type Args struct] *)
Record Args : Type := {
  SearchInputs : SearchInputs.t;   (* behind a pointer: shared, mutable *)
  Zoekt : ZoektStreamer;
  SearcherURLs : EndpointMap;
}.

(** [search.ZoektParameters]; [Query] may be [nil]. *)
Inductive ZoektParameters : Type :=
  | mkZoektParameters (Query : option ZoektQuery) (Typ : IndexedRequestType)
      (FileMatchLimit : Z) (Select : list string) (Zoekt : ZoektStreamer).

(** [search.SearcherParameters] *)
Inductive SearcherParameters : Type :=
  | mkSearcherParameters (SearcherURLs : EndpointMap)
      (PatternInfo : TextPatternInfo.t) (UseFullDeadline : bool).

(** Modelled from the spec: the combinator jobs and their constructors
    ([NewParallelJob], [NewPriorityJob], [NewAndJob], [NewOrJob],
    [NewLimitJob], [NewTimeoutJob], [NewSelectJob], [NewFilterJob],
    [NewAlertJob], [NewNoopJob]) and the leaf job types of the backend
    packages are not under src/.  The spec's data model gives the
    variants Parallel{children}, And{children}, Or{children},
    Priority{required, optional}, Limit{n, child}, Timeout{duration,
    child}, Select{projection, child}, Filter{predicate, child},
    Alert{child} and Noop; each constructor function builds the node of
    its name.  A leaf carries the fields that [job.go] sets in its struct
    literal, in the order of the literal; the [Gitserver] field of
    [CommitSearch] holds the process-wide default client and is left
    out. *)
Inductive Job : Type :=
  (* zoektutil.GlobalSearch *)
  | GlobalSearch (GlobalZoektQuery_ : GlobalZoektQuery)
      (ZoektArgs : ZoektParameters) (RepoOptions_ : RepoOptions.t)
  (* symbol.RepoUniverseSymbolSearch *)
  | RepoUniverseSymbolSearch (GlobalZoektQuery_ : GlobalZoektQuery)
      (ZoektArgs : ZoektParameters) (PatternInfo : TextPatternInfo.t)
      (Limit : Z) (RepoOptions_ : RepoOptions.t)
  (* zoektutil.ZoektRepoSubsetSearch *)
  | ZoektRepoSubsetSearch (Query : ZoektQuery) (Typ : IndexedRequestType)
      (FileMatchLimit : Z) (Select : list string) (Zoekt : ZoektStreamer)
  (* searcher.Searcher *)
  | Searcher (PatternInfo : TextPatternInfo.t) (Indexed : bool)
      (SearcherURLs : EndpointMap) (UseFullDeadline : bool)
  (* zoektutil.ZoektSymbolSearch *)
  | ZoektSymbolSearch (Query : ZoektQuery) (FileMatchLimit : Z)
      (Select : list string) (Zoekt : ZoektStreamer)
  (* searcher.SymbolSearcher *)
  | SymbolSearcher (PatternInfo : TextPatternInfo.t) (Limit : Z)
  (* commit.CommitSearch *)
  | CommitSearch (Query : GitQuery) (RepoOpts : RepoOptions.t) (Diff : bool)
      (HasTimeFilter : bool) (Limit : Z) (IncludeModifiedFiles : bool)
  (* structural.StructuralSearch *)
  | StructuralSearch (ZoektArgs : ZoektParameters)
      (SearcherArgs : SearcherParameters) (NotSearcherOnly : bool)
      (UseIndex : YesNoOnly) (ContainsRefGlobs_ : bool)
      (RepoOpts : RepoOptions.t)
  (* run.RepoSearch *)
  | RepoSearch (Zoekt : ZoektStreamer) (SearcherURLs : EndpointMap)
      (RepoOptions_ : RepoOptions.t) (Features : search.Features)
      (UseFullDeadline : bool) (Query : Q) (PatternInfo : TextPatternInfo.t)
      (Mode : GlobalSearchMode)
  (* searchrepos.ComputeExcludedRepos *)
  | ComputeExcludedRepos (Options : RepoOptions.t)
  (* repoPagerJob *)
  | repoPagerJob (child : Job) (repoOptions : RepoOptions.t)
      (useIndex : YesNoOnly) (containsRefGlobs : bool) (zoekt : ZoektStreamer)
  (* combinators *)
  | ParallelJob (children : list Job)
  | PriorityJob (required optional : Job)
  | AndJob (children : list Job)
  | OrJob (children : list Job)
  | LimitJob (limit : Z) (child : Job)
  | TimeoutJob (timeout : Z) (child : Job)
  | SelectJob (path : list string) (child : Job)
  | FilterJob (child : Job)
  | AlertJob (inputs : SearchInputs.t) (child : Job)
  | NoopJob.

Definition NewParallelJob (children : list Job) : Job := ParallelJob children.
Definition NewPriorityJob (required optional : Job) : Job :=
  PriorityJob required optional.
Definition NewAndJob (children : list Job) : Job := AndJob children.
Definition NewOrJob (children : list Job) : Job := OrJob children.
Definition NewLimitJob (limit : Z) (child : Job) : Job := LimitJob limit child.
Definition NewTimeoutJob (timeout : Z) (child : Job) : Job :=
  TimeoutJob timeout child.
Definition NewSelectJob (path : list string) (child : Job) : Job :=
  SelectJob path child.
Definition NewFilterJob (child : Job) : Job := FilterJob child.
Definition NewAlertJob (inputs : SearchInputs.t) (child : Job) : Job :=
  AlertJob inputs child.
Definition NewNoopJob : Job := NoopJob.

(** ** The compiler monad

    A compiler function receives the [*Args] pointer, may overwrite the
    [SearchInputs] behind it, and returns a job or an error.  A write made
    before an error is still visible to the caller, so the final store is
    returned on both outcomes. *)

Definition M (A : Type) : Type := Args -> Res A * Args.

#[global] Instance M_ret : MRet M := fun A a jargs => (Ok a, jargs).
#[global] Instance M_bind : MBind M :=
  fun A B k m jargs =>
    match m jargs with
    | (Ok a, jargs') => k a jargs'
    | (Err e, jargs') => (Err e, jargs')
    end.

(** Reading the store behind the pointer. *)
Definition getArgs : M Args := fun jargs => (Ok jargs, jargs).

(** The assignment [jargs.SearchInputs.PatternType = st]. *)
Definition setPatternType (jargs : Args) (st : SearchType) : Args :=
  {| SearchInputs := SearchInputs.setPatternType (SearchInputs jargs) st;
     Zoekt := Zoekt jargs;
     SearcherURLs := SearcherURLs jargs |}.

(** ** [toFeatures]

    The metric increment and the log line of the [nil] case are effects on
    the process's telemetry and are not modelled. *)
Definition toFeatures (flags : featureflag.FlagSet) : search.Features :=
  let flags := match flags with None => ∅ | Some flags => flags end in
  {| ContentBasedLangFilters :=
       featureflag.GetBoolOr flags "search-content-based-lang-detection"
         false |}.

(** ** [toRepoOptions] *)
Definition toRepoOptions (q : Q) (userSettings : Settings.t) : RepoOptions.t :=
  let '(repoFilters, minusRepoFilters) := Q_Repositories q in
  let settingForks :=
    match Settings.SearchIncludeForks userSettings with
    | Some v => v | None => false end in
  let settingArchived :=
    match Settings.SearchIncludeArchived userSettings with
    | Some v => v | None => false end in
  let fork := No in
  let fork :=
    if ExactlyOneRepo repoFilters || settingForks then Yes else fork in
  let fork := match Q_Fork q with Some setFork => setFork | None => fork end in
  let archived := No in
  let archived :=
    if ExactlyOneRepo repoFilters || settingArchived then Yes else archived in
  let archived :=
    match Q_Archived q with
    | Some setArchived => setArchived
    | None => archived
    end in
  let visibilityStr := Q_StringValue q FieldVisibility in
  let visibility := ParseVisibility visibilityStr in
  let commitAfter := Q_StringValue q FieldRepoHasCommitAfter in
  let searchContextSpec := Q_StringValue q FieldContext in
  {| RepoOptions.RepoFilters := repoFilters;
     RepoOptions.MinusRepoFilters := minusRepoFilters;
     RepoOptions.Dependencies := Q_Dependencies q;
     RepoOptions.CaseSensitiveRepoFilters := false;
     RepoOptions.SearchContextSpec := searchContextSpec;
     RepoOptions.OnlyForks := bool_decide (fork = Only);
     RepoOptions.NoForks := bool_decide (fork = No);
     RepoOptions.OnlyArchived := bool_decide (archived = Only);
     RepoOptions.NoArchived := bool_decide (archived = No);
     RepoOptions.Visibility := visibility;
     RepoOptions.CommitAfter := commitAfter;
     RepoOptions.Query := q |}.

(** ** [jobMode] *)

(** The predicate that the closure [isGlobalSearch] passes to
    [query.ForAll]. *)
Definition globalSearchNode (node : Node) : bool :=
  match node with
  | NParameter n =>
      if String.eqb (Field n) FieldContext then
        IsGlobalSearchContextSpec (Value n)
      else if String.eqb (Field n) FieldRepo then
        (* We allow -repo: in global search. *)
        Negated n
      else if String.eqb (Field n) FieldRepoHasFile then false
      else true
  | _ => true
  end.

Definition jobMode (b : Basic) (resultTypes : result.Types) (st : SearchType)
    (onSourcegraphDotCom : bool) : bool * bool * bool :=
  let isGlobalSearch :=
    if bool_decide (st = SearchTypeStructural) then false
    else ForAll (Basic_ToParseTree b) globalSearchNode in
  let hasGlobalSearchResultType :=
    result.Has resultTypes
      (Z.lor (Z.lor result.TypeFile result.TypePath) result.TypeSymbol) in
  let isIndexedSearch := negb (bool_decide (Basic_Index b = No)) in
  let noPattern := String.eqb (Basic_PatternString b) "" in
  let noFile := negb (Basic_Exists b FieldFile) in
  let noLang := negb (Basic_Exists b FieldLang) in
  let isEmpty := noPattern && noFile && noLang in
  let repoUniverseSearch :=
    isGlobalSearch && isIndexedSearch && hasGlobalSearchResultType
    && negb isEmpty in
  let skipRepoSubsetSearch :=
    isEmpty || (repoUniverseSearch && onSourcegraphDotCom) in
  let onlyRunSearcher := repoUniverseSearch && negb onSourcegraphDotCom in
  (repoUniverseSearch, skipRepoSubsetSearch, onlyRunSearcher).

(** ** [ToSearchJob] *)

(** The two slices [requiredJobs] and [optionalJobs]. *)
Definition Buckets : Type := list Job * list Job.

(** The closure [addJob]. *)
Definition addJob (required : bool) (job : Job) (bs : Buckets) : Buckets :=
  if required then (bs.1 ++ [job], bs.2) else (bs.1, bs.2 ++ [job]).

(** The map literal of the closure [valid]; it is only asked for
    membership. *)
Definition fieldAllowlist : gset string :=
  {[ FieldRepo; FieldContext; FieldType; FieldDefault; FieldIndex;
     FieldCount; FieldTimeout; FieldFork; FieldArchived; FieldVisibility;
     FieldCase; FieldRepoHasFile; FieldRepoHasCommitAfter; FieldPatternType;
     FieldSelect ]}.

(** The closure [valid]: don't run a repo search if the search contains
    fields that aren't on the allowlist. *)
Definition valid (q : Q) : bool :=
  let exists_ := true in
  VisitParameter q
    (fun field _ _ exists_ =>
       if bool_decide (field ∈ fieldAllowlist) then exists_ else false)
    exists_.

(** The closure [addPatternAsRepoFilter]. *)
Definition addPatternAsRepoFilter (q : Q) (pattern : string)
    (opts : RepoOptions.t) : RepoOptions.t * bool :=
  if String.eqb pattern "" then (opts, true)
  else
    let withFilter (filter : string) : RepoOptions.t :=
      {| RepoOptions.RepoFilters := RepoOptions.RepoFilters opts ++ [filter];
         RepoOptions.MinusRepoFilters := RepoOptions.MinusRepoFilters opts;
         RepoOptions.Dependencies := RepoOptions.Dependencies opts;
         RepoOptions.CaseSensitiveRepoFilters := Q_IsCaseSensitive q;
         RepoOptions.SearchContextSpec := RepoOptions.SearchContextSpec opts;
         RepoOptions.OnlyForks := RepoOptions.OnlyForks opts;
         RepoOptions.NoForks := RepoOptions.NoForks opts;
         RepoOptions.OnlyArchived := RepoOptions.OnlyArchived opts;
         RepoOptions.NoArchived := RepoOptions.NoArchived opts;
         RepoOptions.Visibility := RepoOptions.Visibility opts;
         RepoOptions.CommitAfter := RepoOptions.CommitAfter opts;
         RepoOptions.Query := RepoOptions.Query opts |} in
    let patternPrefix := SplitN_at_2 pattern in
    if bool_decide (length patternPrefix = 1%nat) then
      (* No "@" in pattern? We're good. *)
      (withFilter pattern, true)
    else
      let prefix := nth 0 patternPrefix "" in
      if negb (String.eqb prefix "") then
        if negb (regexp_Compile_ok prefix) then (RepoOptions.zero, false)
        else (withFilter prefix, true)
      else (RepoOptions.zero, false).

Section Blocks.

(** The local variables of [ToSearchJob] that its job-building block
    reads. *)
Variables (jargs : Args) (q : Q) (b : Basic).
Variables (maxResults : Z) (resultTypes : result.Types).
Variables (patternInfo : TextPatternInfo.t) (useFullDeadline : bool).
Variables (features : search.Features) (repoOptions : RepoOptions.t).
Variables (repoUniverseSearch skipRepoSubsetSearch onlyRunSearcher : bool).

(** [if repoUniverseSearch { ... }] *)
Definition universeSearchJobs (bs : Buckets) : Res Buckets :=
  if repoUniverseSearch then
    defaultScope ← DefaultGlobalQueryScope repoOptions;
    let includePrivate :=
      bool_decide (RepoOptions.Visibility repoOptions = Private)
      || bool_decide (RepoOptions.Visibility repoOptions = Any) in
    bs ← (if result.Has resultTypes (Z.lor result.TypeFile result.TypePath) then
            let typ := TextRequest in
            zoektQuery ← QueryToZoektQuery patternInfo features typ;
            let globalZoektQuery :=
              NewGlobalZoektQuery zoektQuery defaultScope includePrivate in
            let zoektArgs :=
              mkZoektParameters None typ
                (TextPatternInfo.FileMatchLimit patternInfo)
                (TextPatternInfo.Select patternInfo) (Zoekt jargs) in
            mret (addJob true
                    (GlobalSearch globalZoektQuery zoektArgs repoOptions) bs)
          else mret bs);
    if result.Has resultTypes result.TypeSymbol then
      let typ := SymbolRequest in
      zoektQuery ← QueryToZoektQuery patternInfo features typ;
      let globalZoektQuery :=
        NewGlobalZoektQuery zoektQuery defaultScope includePrivate in
      let zoektArgs :=
        mkZoektParameters None typ
          (TextPatternInfo.FileMatchLimit patternInfo)
          (TextPatternInfo.Select patternInfo) (Zoekt jargs) in
      mret (addJob true
              (RepoUniverseSymbolSearch globalZoektQuery zoektArgs patternInfo
                 maxResults repoOptions) bs)
    else mret bs
  else mret bs.

(** [if resultTypes.Has(result.TypeFile|result.TypePath) &&
    !skipRepoSubsetSearch { ... }] *)
Definition textSearchJobs (bs : Buckets) : Res Buckets :=
  if result.Has resultTypes (Z.lor result.TypeFile result.TypePath)
     && negb skipRepoSubsetSearch then
    let typ := TextRequest in
    textSearchJobs ←
      (if negb onlyRunSearcher then
         zoektQuery ← QueryToZoektQuery patternInfo features typ;
         mret [ZoektRepoSubsetSearch zoektQuery typ
                 (TextPatternInfo.FileMatchLimit patternInfo)
                 (TextPatternInfo.Select patternInfo) (Zoekt jargs)]
       else mret []);
    let textSearchJobs :=
      textSearchJobs
        ++ [Searcher patternInfo false (SearcherURLs jargs) useFullDeadline] in
    mret (addJob true
            (repoPagerJob (NewParallelJob textSearchJobs) repoOptions
               (TextPatternInfo.Index patternInfo) (ContainsRefGlobs q)
               (Zoekt jargs)) bs)
  else mret bs.

(** [if resultTypes.Has(result.TypeSymbol) && patternInfo.Pattern != "" &&
    !skipRepoSubsetSearch { ... }] *)
Definition symbolSearchJobs (bs : Buckets) : Res Buckets :=
  if result.Has resultTypes result.TypeSymbol
     && negb (String.eqb (TextPatternInfo.Pattern patternInfo) "")
     && negb skipRepoSubsetSearch then
    let typ := SymbolRequest in
    symbolSearchJobs ←
      (if negb onlyRunSearcher then
         zoektQuery ← QueryToZoektQuery patternInfo features typ;
         mret [ZoektSymbolSearch zoektQuery
                 (TextPatternInfo.FileMatchLimit patternInfo)
                 (TextPatternInfo.Select patternInfo) (Zoekt jargs)]
       else mret []);
    let symbolSearchJobs :=
      symbolSearchJobs ++ [SymbolSearcher patternInfo maxResults] in
    let required :=
      useFullDeadline
      || Z.eqb (result.Without resultTypes result.TypeSymbol) 0 in
    mret (addJob required
            (repoPagerJob (NewParallelJob symbolSearchJobs) repoOptions
               (TextPatternInfo.Index patternInfo) (ContainsRefGlobs q)
               (Zoekt jargs)) bs)
  else mret bs.

(** [if resultTypes.Has(result.TypeCommit) ||
    resultTypes.Has(result.TypeDiff) { ... }] *)
Definition commitSearchJobs (bs : Buckets) : Buckets :=
  if result.Has resultTypes result.TypeCommit
     || result.Has resultTypes result.TypeDiff then
    let diff := result.Has resultTypes result.TypeDiff in
    let required :=
      if useFullDeadline then true
      else if diff then Z.eqb (result.Without resultTypes result.TypeDiff) 0
      else Z.eqb (result.Without resultTypes result.TypeCommit) 0 in
    addJob required
      (CommitSearch (QueryToGitQuery q diff) repoOptions diff
         (Basic_Exists b "after" || Basic_Exists b "before")
         (TextPatternInfo.FileMatchLimit patternInfo) SubRepoEnabled) bs
  else bs.

(** [if jargs.SearchInputs.PatternType == query.SearchTypeStructural &&
    patternInfo.Pattern != "" { ... }] *)
Definition structuralSearchJobs (bs : Buckets) : Res Buckets :=
  if bool_decide
       (SearchInputs.PatternType (SearchInputs jargs) = SearchTypeStructural)
     && negb (String.eqb (TextPatternInfo.Pattern patternInfo) "") then
    let typ := TextRequest in
    zoektQuery ← QueryToZoektQuery patternInfo features typ;
    let zoektArgs :=
      mkZoektParameters (Some zoektQuery) typ
        (TextPatternInfo.FileMatchLimit patternInfo)
        (TextPatternInfo.Select patternInfo) (Zoekt jargs) in
    let searcherArgs :=
      mkSearcherParameters (SearcherURLs jargs) patternInfo useFullDeadline in
    mret (addJob true
            (StructuralSearch zoektArgs searcherArgs (negb onlyRunSearcher)
               (TextPatternInfo.Index patternInfo) (ContainsRefGlobs q)
               repoOptions) bs)
  else mret bs.

(** [if resultTypes.Has(result.TypeRepo) { ... }] *)
Definition repoSearchJobs (bs : Buckets) : Buckets :=
  if result.Has resultTypes result.TypeRepo then
    if valid q then
      let '(repoOptions, ok) :=
        addPatternAsRepoFilter q (TextPatternInfo.Pattern patternInfo)
          repoOptions in
      if ok then
        let mode := DefaultMode in
        let mode := if repoUniverseSearch then ZoektGlobalSearch else mode in
        let mode := if skipRepoSubsetSearch then SkipUnindexed else mode in
        addJob true
          (RepoSearch (Zoekt jargs) (SearcherURLs jargs) repoOptions features
             useFullDeadline q patternInfo mode) bs
      else bs
    else bs
  else bs.

End Blocks.

(** The assignment [patternInfo.IsStructuralPat = false]. *)
Definition clearStructuralPat (patternInfo : TextPatternInfo.t)
    : TextPatternInfo.t :=
  {| TextPatternInfo.Pattern := TextPatternInfo.Pattern patternInfo;
     TextPatternInfo.IsStructuralPat := false;
     TextPatternInfo.FileMatchLimit :=
       TextPatternInfo.FileMatchLimit patternInfo;
     TextPatternInfo.Select := TextPatternInfo.Select patternInfo;
     TextPatternInfo.Index := TextPatternInfo.Index patternInfo |}.

(** The result types and the pattern info that [ToSearchJob] computes
    from the basic query, before the fallback. *)
Definition computedResultTypes (jargs : Args) (q : Q) (b : Basic)
    : result.Types :=
  let types := Q_StringValues q FieldType in
  ComputeResultTypes types (Basic_PatternString b)
    (SearchInputs.PatternType (SearchInputs jargs)).

Definition computedPatternInfo (jargs : Args) (q : Q) (b : Basic)
    : TextPatternInfo.t :=
  ToTextPatternInfo b (computedResultTypes jargs q b)
    (SearchInputs.Protocol (SearchInputs jargs)).

(** [useFullDeadline]: searcher to use full deadline if timeout: set or we
    are streaming. *)
Definition computedUseFullDeadline (jargs : Args) (q : Q) : bool :=
  bool_decide (Q_Timeout q <> None) || bool_decide (Q_Count q <> None)
  || bool_decide (SearchInputs.Protocol (SearchInputs jargs) = Streaming).

(** [if patternInfo.Pattern == "" { ... }]: fallback to basic search for
    searching repos and files if the structural search pattern is empty.
    The first component is the store after the assignment to
    [jargs.SearchInputs.PatternType]. *)
Definition emptyPatternFallback (jargs : Args)
    (patternInfo : TextPatternInfo.t) : Args * TextPatternInfo.t :=
  if String.eqb (TextPatternInfo.Pattern patternInfo) "" then
    (setPatternType jargs SearchTypeLiteral, clearStructuralPat patternInfo)
  else (jargs, patternInfo).

(** The part of [ToSearchJob] that fills the two slices: the strategy
    flags, the job-building block, and the unconditional
    [ComputeExcludedRepos] job.  [jargs] is the store after the fallback
    above. *)
Definition searchJobs (jargs : Args) (q : Q) (b : Basic) (maxResults : Z)
    (resultTypes : result.Types) (patternInfo : TextPatternInfo.t)
    : Res Buckets :=
  let useFullDeadline := computedUseFullDeadline jargs q in
  let features := toFeatures (SearchInputs.Features (SearchInputs jargs)) in
  let repoOptions :=
    toRepoOptions q (SearchInputs.UserSettings (SearchInputs jargs)) in
  let '(repoUniverseSearch, skipRepoSubsetSearch, onlyRunSearcher) :=
    jobMode b resultTypes
      (SearchInputs.PatternType (SearchInputs jargs))
      (SearchInputs.OnSourcegraphDotCom (SearchInputs jargs)) in
  bs ← universeSearchJobs jargs maxResults resultTypes patternInfo features
         repoOptions repoUniverseSearch ([], []);
  bs ← textSearchJobs jargs q resultTypes patternInfo useFullDeadline
         features repoOptions skipRepoSubsetSearch onlyRunSearcher bs;
  bs ← symbolSearchJobs jargs q maxResults resultTypes patternInfo
         useFullDeadline features repoOptions skipRepoSubsetSearch
         onlyRunSearcher bs;
  let bs :=
    commitSearchJobs q b resultTypes patternInfo useFullDeadline repoOptions
      bs in
  bs ← structuralSearchJobs jargs q patternInfo useFullDeadline features
         repoOptions onlyRunSearcher bs;
  let bs :=
    repoSearchJobs jargs q resultTypes patternInfo useFullDeadline features
      repoOptions repoUniverseSearch skipRepoSubsetSearch bs in
  mret (addJob true (ComputeExcludedRepos repoOptions) bs).

Definition ToSearchJob (q : Q) : M Job := fun jargs =>
  let maxResults :=
    Q_MaxResults q (SearchInputs_DefaultLimit (SearchInputs jargs)) in
  match ToBasicQuery q with
  | Err err => (Err err, jargs)
  | Ok b =>
      let resultTypes := computedResultTypes jargs q b in
      let patternInfo := computedPatternInfo jargs q b in
      let '(jargs, patternInfo) := emptyPatternFallback jargs patternInfo in
      match searchJobs jargs q b maxResults resultTypes patternInfo with
      | Err err => (Err err, jargs)
      | Ok (requiredJobs, optionalJobs) =>
          let job :=
            NewPriorityJob (NewParallelJob requiredJobs)
              (NewParallelJob optionalJobs) in
          let job := if SubRepoEnabled then NewFilterJob job else job in
          (Ok job, jargs)
      end
  end.

(** ** [toAndJob], [toOrJob], [toPatternExpressionJob]

    The three Go functions are mutually recursive through the operands of
    the pattern expression.  [compilePattern parameters term] is
    [toPatternExpressionJob] at the basic query with these parameters and
    the pattern [term], by structural recursion on [term]; the loops of
    [toAndJob] and [toOrJob] are [andOperands] and [orOperands]. *)

Definition maxTryCount : Z := 40000.

Section Operands.

(** [toPatternExpressionJob(args, q.MapPattern(queryOperand), db)] *)
Variable compile : Node -> M Job.

(** The loop of [toAndJob]: an error of an operand ends the loop. *)
Fixpoint andOperands (queryOperands : list Node) : M (list Job) :=
  match queryOperands with
  | [] => mret []
  | queryOperand :: rest =>
      operand ← compile queryOperand;
      operands ← andOperands rest;
      mret (NewLimitJob maxTryCount operand :: operands)
  end.

(** The loop of [toOrJob]. *)
Fixpoint orOperands (queryOperands : list Node) : M (list Job) :=
  match queryOperands with
  | [] => mret []
  | term :: rest =>
      operand ← compile term;
      operands ← orOperands rest;
      mret (operand :: operands)
  end.

End Operands.

Fixpoint compilePattern (parameters : list Parameter_) (term : Node)
    {struct term} : M Job :=
  let q := {| Parameters := parameters; Pattern := Some term |} in
  match term with
  | NOperator kind operands =>
      if bool_decide (length operands = 0%nat) then mret NewNoopJob
      else
        match kind with
        | And =>
            operands ← andOperands (compilePattern parameters) operands;
            mret (NewAndJob operands)
        | Or =>
            operands ← orOperands (compilePattern parameters) operands;
            mret (NewOrJob operands)
        | Concat => ToSearchJob (Basic_ToParseTree q)
        end
  | NPattern _ _ => ToSearchJob (Basic_ToParseTree q)
  | NParameter _ =>
      (* evaluatePatternExpression does not process Parameter nodes. *)
      mret NewNoopJob
  end.

(** A failed type assertion or a [nil] pattern: the Go code panics or
    falls through to its final [errors.Errorf]; both are an error here. *)
Definition unrecognized {A : Type} : M A :=
  fun args => (Err "unrecognized type in evaluatePatternExpression", args).

Definition toPatternExpressionJob (q : Basic) : M Job :=
  match Pattern q with
  | Some term => compilePattern (Parameters q) term
  | None => unrecognized
  end.

Definition toAndJob (q : Basic) : M Job :=
  match Pattern q with
  | Some (NOperator _ queryOperands) =>
      operands ←
        andOperands (fun queryOperand =>
                       toPatternExpressionJob (MapPattern q queryOperand))
                    queryOperands;
      mret (NewAndJob operands)
  | _ => unrecognized
  end.

Definition toOrJob (q : Basic) : M Job :=
  match Pattern q with
  | Some (NOperator _ queryOperands) =>
      operands ←
        orOperands (fun term => toPatternExpressionJob (MapPattern q term))
                   queryOperands;
      mret (NewOrJob operands)
  | _ => unrecognized
  end.

(** ** [ToEvaluateJob] and [FromExpandedPlan] *)

Definition ToEvaluateJob (q : Basic) : M Job :=
  args ← getArgs;
  let maxResults :=
    Q_MaxResults (Basic_ToParseTree q)
      (SearchInputs_DefaultLimit (SearchInputs args)) in
  let timeout := TimeoutDuration q in
  job ← match Pattern q with
        | None => ToSearchJob (ToNodes (Parameters q))
        | Some _ => toPatternExpressionJob q
        end;
  let v := Q_StringValue (Basic_ToParseTree q) FieldSelect in
  let job :=
    if negb (String.eqb v "") then
      (* Invariant: select already validated *)
      let sp := SelectPathFromString v in
      NewSelectJob sp job
    else job in
  mret (NewTimeoutJob timeout (NewLimitJob maxResults job)).

(** The loop of [FromExpandedPlan]. *)
Fixpoint planChildren (plan : Plan) : M (list Job) :=
  match plan with
  | [] => mret []
  | q :: rest =>
      child ← ToEvaluateJob q;
      children ← planChildren rest;
      mret (child :: children)
  end.

(** [NewAlertJob] receives the [SearchInputs] pointer, so the alert job
    sees the inputs as the compilation left them. *)
Definition FromExpandedPlan (plan : Plan) : M Job :=
  children ← planChildren plan;
  args ← getArgs;
  mret (NewAlertJob (SearchInputs args) (NewOrJob children)).

(** ** Observations on job trees *)

(** The two slices behind a job built by [ToSearchJob]: the children of
    the two [Parallel] nodes under the [Priority] node, below the
    authorization filter when there is one. *)
Definition bucketsOf (job : Job) : option Buckets :=
  match job with
  | PriorityJob (ParallelJob required) (ParallelJob optional)
  | FilterJob (PriorityJob (ParallelJob required) (ParallelJob optional)) =>
      Some (required, optional)
  | _ => None
  end.

(** The number of [ComputeExcludedRepos] jobs in a tree. *)
Fixpoint countExcludedRepos (job : Job) : nat :=
  let sum := fix sum (jobs : list Job) : nat :=
    match jobs with
    | [] => 0%nat
    | j :: rest => (countExcludedRepos j + sum rest)%nat
    end in
  match job with
  | ComputeExcludedRepos _ => 1%nat
  | repoPagerJob child _ _ _ _ => countExcludedRepos child
  | ParallelJob children | AndJob children | OrJob children => sum children
  | PriorityJob required optional =>
      (countExcludedRepos required + countExcludedRepos optional)%nat
  | LimitJob _ child | TimeoutJob _ child | SelectJob _ child
  | FilterJob child | AlertJob _ child => countExcludedRepos child
  | _ => 0%nat
  end.

(** The pattern infos carried by the jobs of a tree. *)
Fixpoint patternInfosOf (job : Job) : list TextPatternInfo.t :=
  match job with
  | RepoUniverseSymbolSearch _ _ p _ _ | Searcher p _ _ _
  | SymbolSearcher p _ | RepoSearch _ _ _ _ _ _ p _ => [p]
  | StructuralSearch _ (mkSearcherParameters _ p _) _ _ _ _ => [p]
  | repoPagerJob child _ _ _ _ => patternInfosOf child
  | ParallelJob children | AndJob children | OrJob children =>
      flat_map patternInfosOf children
  | PriorityJob required optional =>
      patternInfosOf required ++ patternInfosOf optional
  | LimitJob _ child | TimeoutJob _ child | SelectJob _ child
  | FilterJob child | AlertJob _ child => patternInfosOf child
  | _ => []
  end.

Definition isRepoSearch (job : Job) : bool :=
  match job with RepoSearch _ _ _ _ _ _ _ _ => true | _ => false end.

Definition isStructuralSearch (job : Job) : bool :=
  match job with StructuralSearch _ _ _ _ _ _ => true | _ => false end.

Definition isComputeExcludedRepos (job : Job) : bool :=
  match job with ComputeExcludedRepos _ => true | _ => false end.

Definition isSymbolSearcher (job : Job) : bool :=
  match job with SymbolSearcher _ _ => true | _ => false end.

(** The repo-pager job of the symbol block: its parallel child ends in a
    [SymbolSearcher]. *)
Definition isSymbolPagerJob (job : Job) : bool :=
  match job with
  | repoPagerJob (ParallelJob children) _ _ _ _ =>
      existsb isSymbolSearcher children
  | _ => false
  end.

(** The result type a commit or diff job serves. *)
Definition commitJobType (job : Job) : option result.Types :=
  match job with
  | CommitSearch _ _ diff _ _ _ =>
      Some (if diff then result.TypeDiff else result.TypeCommit)
  | _ => None
  end.

(** The result type served by the two jobs whose bucket [ToSearchJob]
    computes: the symbol repo-pager job and the commit or diff job. *)
Definition gatedResultType (job : Job) : option result.Types :=
  if isSymbolPagerJob job then Some result.TypeSymbol else commitJobType job.

(** What holds of every job [ToSearchJob] appends to [requiredJobs]
    before the final [ComputeExcludedRepos] job, for the store [jargs]
    after the fallback, the result types and the pattern info of the
    query. *)
Definition requiredJobInv (jargs : Args) (q : Q) (resultTypes : result.Types)
    (patternInfo : TextPatternInfo.t) (job : Job) : Prop :=
  (forall t, gatedResultType job = Some t ->
     computedUseFullDeadline jargs q = true
     \/ result.Without resultTypes t = 0)
  /\ (isRepoSearch job = true ->
      result.Has resultTypes result.TypeRepo = true /\ valid q = true)
  /\ (isStructuralSearch job = true ->
      SearchInputs.PatternType (SearchInputs jargs) = SearchTypeStructural
      /\ TextPatternInfo.Pattern patternInfo <> "")
  /\ countExcludedRepos job = 0%nat
  /\ Forall (fun p => p = patternInfo) (patternInfosOf job).

(** What holds of every job [ToSearchJob] appends to [optionalJobs]. *)
Definition optionalJobInv (jargs : Args) (q : Q) (resultTypes : result.Types)
    (patternInfo : TextPatternInfo.t) (job : Job) : Prop :=
  (exists t, gatedResultType job = Some t
     /\ computedUseFullDeadline jargs q = false
     /\ result.Without resultTypes t <> 0)
  /\ isRepoSearch job = false
  /\ isStructuralSearch job = false
  /\ countExcludedRepos job = 0%nat
  /\ Forall (fun p => p = patternInfo) (patternInfosOf job).

(** The combinator shape of a tree: the kind of every node and the order
    of its children, without the parameters of the jobs. *)
Inductive Shape : Type :=
  | ShapeOf (kind : string) (children : list Shape).

Fixpoint shapeOf (job : Job) : Shape :=
  match job with
  | GlobalSearch _ _ _ => ShapeOf "GlobalSearch" []
  | RepoUniverseSymbolSearch _ _ _ _ _ => ShapeOf "RepoUniverseSymbolSearch" []
  | ZoektRepoSubsetSearch _ _ _ _ _ => ShapeOf "ZoektRepoSubsetSearch" []
  | Searcher _ _ _ _ => ShapeOf "Searcher" []
  | ZoektSymbolSearch _ _ _ _ => ShapeOf "ZoektSymbolSearch" []
  | SymbolSearcher _ _ => ShapeOf "SymbolSearcher" []
  | CommitSearch _ _ _ _ _ _ => ShapeOf "CommitSearch" []
  | StructuralSearch _ _ _ _ _ _ => ShapeOf "StructuralSearch" []
  | RepoSearch _ _ _ _ _ _ _ _ => ShapeOf "RepoSearch" []
  | ComputeExcludedRepos _ => ShapeOf "ComputeExcludedRepos" []
  | repoPagerJob child _ _ _ _ => ShapeOf "repoPager" [shapeOf child]
  | ParallelJob children => ShapeOf "Parallel" (map shapeOf children)
  | PriorityJob required optional =>
      ShapeOf "Priority" [shapeOf required; shapeOf optional]
  | AndJob children => ShapeOf "And" (map shapeOf children)
  | OrJob children => ShapeOf "Or" (map shapeOf children)
  | LimitJob _ child => ShapeOf "Limit" [shapeOf child]
  | TimeoutJob _ child => ShapeOf "Timeout" [shapeOf child]
  | SelectJob _ child => ShapeOf "Select" [shapeOf child]
  | FilterJob child => ShapeOf "Filter" [shapeOf child]
  | AlertJob _ child => ShapeOf "Alert" [shapeOf child]
  | NoopJob => ShapeOf "Noop" []
  end.

(** The shape of a result, for reading off a run. *)
Definition shapeOfRun (run : Res Job * Args) : option Shape :=
  match run.1 with Ok job => Some (shapeOf job) | Err _ => None end.

(** The shape of the tree a compilation returns, or its error. *)
Definition shapeOfResult (r : Res Job) : Res Shape :=
  match r with Ok job => Ok (shapeOf job) | Err e => Err e end.

(** The shapes of the jobs a compilation returns, or its error. *)
Definition shapesOfResult (r : Res (list Job)) : Res (list Shape) :=
  match r with Ok jobs => Ok (map shapeOf jobs) | Err e => Err e end.

(** The shapes of the jobs in the two slices, or the error. *)
Definition shapesOfSlices (r : Res Buckets)
    : Res (list Shape * list Shape) :=
  match r with
  | Ok bs => Ok (map shapeOf bs.1, map shapeOf bs.2)
  | Err e => Err e
  end.

(** The arguments with other service handles: the same search inputs,
    another index client and other searcher endpoints. *)
Definition withHandles (args : Args) (zoekt : ZoektStreamer)
    (searcherURLs : EndpointMap) : Args :=
  {| SearchInputs := SearchInputs args;
     Zoekt := zoekt;
     SearcherURLs := searcherURLs |}.

(** A compiler function whose result has the same shape, and which
    leaves the same search inputs, whatever the service handles of its
    arguments are. *)
Definition shapeIgnoresHandles (m : M Job) : Prop :=
  forall args zoekt searcherURLs,
    shapeOfResult (m args).1
    = shapeOfResult (m (withHandles args zoekt searcherURLs)).1
    /\ (m (withHandles args zoekt searcherURLs)).2
       = withHandles (m args).2 zoekt searcherURLs.

Definition shapesIgnoreHandles (m : M (list Job)) : Prop :=
  forall args zoekt searcherURLs,
    shapesOfResult (m args).1
    = shapesOfResult (m (withHandles args zoekt searcherURLs)).1
    /\ (m (withHandles args zoekt searcherURLs)).2
       = withHandles (m args).2 zoekt searcherURLs.

(** Operands compiled one after the other, each from the store its
    predecessor left: the jobs and the final store of a loop that met no
    error. *)
Inductive Compiled (compile : Node -> M Job)
    : list Node -> Args -> list Job -> Args -> Prop :=
  | Compiled_nil args : Compiled compile [] args [] args
  | Compiled_cons operand rest args job args1 jobs args2 :
      compile operand args = (Ok job, args1) ->
      Compiled compile rest args1 jobs args2 ->
      Compiled compile (operand :: rest) args (job :: jobs) args2.

(** A parameter that scopes the search to some repositories, in the order
    of the switch of [jobMode]: a [context:] other than the global one, a
    [repo:] that is not negated, a [repohasfile:]. *)
Definition repoScoping (n : Parameter_) : bool :=
  if String.eqb (Field n) FieldContext then
    negb (IsGlobalSearchContextSpec (Value n))
  else if String.eqb (Field n) FieldRepo then negb (Negated n)
  else String.eqb (Field n) FieldRepoHasFile.

Definition noRepoScopingFilters (b : Basic) : Prop :=
  forall n, In n (parametersOf (Basic_ToParseTree b)) -> repoScoping n = false.

(** The wrappers [ToEvaluateJob] and [ToSearchJob] decide on. *)
Definition selectWrapper (q : Basic) (job : Job) : Job :=
  let v := Q_StringValue (Basic_ToParseTree q) FieldSelect in
  if negb (String.eqb v "") then NewSelectJob (SelectPathFromString v) job
  else job.

Definition filterWrapper (job : Job) : Job :=
  if SubRepoEnabled then NewFilterJob job else job.

Definition isSelectJob (job : Job) : bool :=
  match job with SelectJob _ _ => true | _ => false end.

(** A basic query that [ToEvaluateJob] compiles by one call of
    [ToSearchJob]: it has no pattern, or its pattern is a pattern leaf or
    a concatenation with operands. *)
Definition singleSearch (q : Basic) : bool :=
  match Pattern q with
  | None | Some (NPattern _ _) | Some (NOperator Concat (_ :: _)) => true
  | _ => false
  end.

(** The trees [toPatternExpressionJob] and [ToSearchJob] build: a
    priority node over the two slices, under the authorization filter
    when enforcement is active; a no-op; an [And] of limited operands; an
    [Or] of operands. *)
Inductive CompiledTree : Job -> Prop :=
  | CompiledTree_search required optional :
      CompiledTree
        (filterWrapper
           (NewPriorityJob (NewParallelJob required)
              (NewParallelJob optional)))
  | CompiledTree_noop : CompiledTree NewNoopJob
  | CompiledTree_and operands :
      Forall CompiledTree operands ->
      CompiledTree (NewAndJob (map (NewLimitJob maxTryCount) operands))
  | CompiledTree_or operands :
      Forall CompiledTree operands ->
      CompiledTree (NewOrJob operands).

(** A compiler function whose only write to the store is the assignment
    of the literal pattern type. *)
Definition writesOnlyLiteral {A : Type} (m : M A) : Prop :=
  forall args,
    (m args).2 = args \/ (m args).2 = setPatternType args SearchTypeLiteral.

(** ** The claims as the specification words them, where the code
    departs from them *)

(** "A job is required if the query has an explicit timeout/count or if
    its result type is the only type requested; otherwise it is
    optional", for the jobs of a compiled query that serve a result
    type. *)
Definition optionalExactlyWithoutDeadlineAndNotSole (q : Q) (jargs : Args)
    : Prop :=
  forall b job jargs' required optional j t,
    ToBasicQuery q = Ok b ->
    ToSearchJob q jargs = (Ok job, jargs') ->
    bucketsOf job = Some (required, optional) ->
    In j (required ++ optional) ->
    gatedResultType j = Some t ->
    (In j optional <->
     Q_Timeout q = None /\ Q_Count q = None
     /\ result.Without (computedResultTypes jargs q b) t <> 0).

(** "For all queries with no repository-scoping filters, globally
    searchable result types, and indexed mode not disabled:
    index-universe search strategy is selected." *)
Definition universeSearchWheneverUnscoped (b : Basic)
    (resultTypes : result.Types) (st : SearchType) (dotCom : bool) : Prop :=
  noRepoScopingFilters b ->
  (result.Has resultTypes result.TypeFile = true
   \/ result.Has resultTypes result.TypePath = true
   \/ result.Has resultTypes result.TypeSymbol = true) ->
  Basic_Index b <> No ->
  (jobMode b resultTypes st dotCom).1.1 = true.

(** "Each operand of an AND is compiled independently and wrapped in a
    [Limit]": every operand under the [And] node is what
    [toPatternExpressionJob] returns for that operand alone, from the
    arguments [toAndJob] was called with. *)
Definition andOperandsCompiledIndependently (q : Basic) (args : Args)
    : Prop :=
  forall queryOperands job args',
    Pattern q = Some (NOperator And queryOperands) ->
    toAndJob q args = (Ok job, args') ->
    exists operands,
      job = NewAndJob (map (NewLimitJob maxTryCount) operands)
      /\ Forall2
           (fun queryOperand operand =>
              (toPatternExpressionJob (MapPattern q queryOperand) args).1
              = Ok operand)
           queryOperands operands.

(** "Otherwise repo-type results are skipped": when a field outside the
    allow-list occurs in a query that asks for repository results, no
    repo-search job is added and the compilation still succeeds. *)
Definition offListCompilationSucceeds (q : Q) (jargs : Args) : Prop :=
  forall b p,
    ToBasicQuery q = Ok b ->
    result.Has (computedResultTypes jargs q b) result.TypeRepo = true ->
    In p (parametersOf q) ->
    Field p ∉ fieldAllowlist ->
    exists job jargs' required optional,
      ToSearchJob q jargs = (Ok job, jargs')
      /\ bucketsOf job = Some (required, optional)
      /\ Forall (fun j => isRepoSearch j = false) (required ++ optional).

(** "Empty pattern sets fall back silently to a degraded (non-structural)
    mode rather than failing": [ToSearchJob] returns no error for a
    structural search whose computed pattern is empty. *)
Definition emptyStructuralPatternNeverFails (q : Q) (jargs : Args) : Prop :=
  forall b,
    ToBasicQuery q = Ok b ->
    SearchInputs.PatternType (SearchInputs jargs) = SearchTypeStructural ->
    TextPatternInfo.Pattern (computedPatternInfo jargs q b) = "" ->
    isOk (ToSearchJob q jargs).1 = true.

(** "The finished tree is wrapped, outermost-in:
    Alert(Timeout(Limit(projection?(AuthzFilter?(tree)))))". *)
Definition wrappedAsAlertTimeoutLimit (job : Job) : bool :=
  match job with
  | AlertJob _ (TimeoutJob _ (LimitJob _ _)) => true
  | _ => false
  end.

(** "Timeout(Limit(projection?(AuthzFilter?(tree)))) ... AuthzFilter is
    added only when sub-repository permission enforcement is active", for
    the job [ToEvaluateJob] returns: directly under the [Limit] job, or
    under the [Select] job when there is one, stands the authorization
    filter exactly when enforcement is active. *)
Definition filterUnderLimitWhenEnforced (job : Job) : bool :=
  match job with
  | TimeoutJob _ (LimitJob _ inner) =>
      let inner :=
        match inner with SelectJob _ child => child | _ => inner end in
      Bool.eqb match inner with FilterJob _ => true | _ => false end
        SubRepoEnabled
  | _ => false
  end.

End Compiler.

(** ** The unindexed matcher service ([cmd/searcher])

    Only the test of the service is part of this development, with the
    helpers that print and check the matches it gets back. *)

Module protocol.

(** A line match and a file match, as the test prints them
    ([path:line:text]). *)
Record LineMatch : Type := { LineNumber : Z; Preview : string }.
Record FileMatch : Type := { Path : string; LineMatches : list LineMatch }.

End protocol.

(** ** A concrete environment

    Simple stand-ins for the collaborators, used to run the compiler on
    concrete queries.  They look only at the top-level parameters of a
    query. *)

Module Sample.

Import query search.

Definition paramsOf (q : Q) : list Parameter_ :=
  omap (fun n => match n with NParameter p => Some p | _ => None end) q.

Definition patternsOf (q : Q) : list Node :=
  List.filter (fun n => match n with NParameter _ => false | _ => true end) q.

Definition valuesOf (field : string) (ps : list Parameter_) : list string :=
  map Value (List.filter (fun p => String.eqb (Field p) field) ps).

Definition firstValue (field : string) (ps : list Parameter_) : string :=
  nth 0 (valuesOf field ps) "".

Definition hasField (field : string) (ps : list Parameter_) : bool :=
  bool_decide (valuesOf field ps <> []).

Fixpoint parseDigits (s : string) (acc : Z) : Z :=
  match s with
  | EmptyString => acc
  | String c rest =>
      parseDigits rest (10 * acc + (Z.of_nat (nat_of_ascii c) - 48))
  end.

Definition parseYesNoOnly (s : string) : YesNoOnly :=
  if String.eqb s "yes" then Yes
  else if String.eqb s "no" then No
  else if String.eqb s "only" then Only
  else Invalid.

Definition optValue {A} (field : string) (parse : string -> A) (q : Q)
    : option A :=
  match valuesOf field (paramsOf q) with
  | v :: _ => Some (parse v)
  | [] => None
  end.

Definition toBasicQuery (q : Q) : Res Basic :=
  match patternsOf q with
  | [] => Ok {| Parameters := paramsOf q; Pattern := None |}
  | [pattern] => Ok {| Parameters := paramsOf q; Pattern := Some pattern |}
  | _ => Err "expected at most one pattern expression"
  end.

Fixpoint patternString (n : Node) : string :=
  match n with
  | NPattern v _ => v
  | NOperator _ operands =>
      foldr (fun o s => patternString o +:+ s) "" operands
  | NParameter _ => ""
  end.

Definition patternStringOf (b : Basic) : string :=
  match Pattern b with Some n => patternString n | None => "" end.

Definition typeFromString (t : string) : result.Types :=
  if String.eqb t "repo" then result.TypeRepo
  else if String.eqb t "symbol" then result.TypeSymbol
  else if String.eqb t "file" then result.TypeFile
  else if String.eqb t "path" then result.TypePath
  else if String.eqb t "diff" then result.TypeDiff
  else if String.eqb t "commit" then result.TypeCommit
  else 0.

(** No [type:] gives file, path and repo results; a structural search
    with a pattern has a result type of its own. *)
Definition computeResultTypes (types : list string) (pattern : string)
    (st : SearchType) : result.Types :=
  if bool_decide (st = SearchTypeStructural) && negb (String.eqb pattern "")
  then Z.shiftl 1 6
  else match types with
       | [] => Z.lor (Z.lor result.TypeFile result.TypePath) result.TypeRepo
       | _ => foldl (fun rts t => result.With rts (typeFromString t)) 0 types
       end.

Definition indexOf (ps : list Parameter_) : YesNoOnly :=
  match valuesOf "index" ps with
  | v :: _ => parseYesNoOnly v
  | [] => Yes
  end.

Definition toTextPatternInfo (b : Basic) (resultTypes : result.Types)
    (p : Protocol) : TextPatternInfo.t :=
  {| TextPatternInfo.Pattern := patternStringOf b;
     TextPatternInfo.IsStructuralPat :=
       bool_decide ("structural" ∈ valuesOf "patterntype" (Parameters b));
     TextPatternInfo.FileMatchLimit :=
       match valuesOf "count" (Parameters b) with
       | v :: _ => parseDigits v 0
       | [] => match p with Batch => 30 | Streaming => 500 end
       end;
     TextPatternInfo.Select := valuesOf "select" (Parameters b);
     TextPatternInfo.Index := indexOf (Parameters b) |}.

(** A regular expression is accepted when its parentheses balance. *)
Fixpoint balanced (s : string) (depth : nat) : bool :=
  match s with
  | EmptyString => bool_decide (depth = 0%nat)
  | String c rest =>
      if Ascii.eqb c "("%char then balanced rest (S depth)
      else if Ascii.eqb c ")"%char then
        match depth with O => false | S d => balanced rest d end
      else balanced rest depth
  end.

#[export] Instance backends : Backends := {|
  ZoektStreamer := unit;
  EndpointMap := unit;
  ZoektQuery := string;
  GlobalZoektQuery := string * string * bool;
  GitQuery := string;
|}.

#[export] Instance env (subRepoEnabled : bool) : Env := {|
  FieldDefault := "";
  FieldCase := "case";
  FieldRepo := "repo";
  FieldContext := "context";
  FieldType := "type";
  FieldIndex := "index";
  FieldCount := "count";
  FieldTimeout := "timeout";
  FieldFork := "fork";
  FieldArchived := "archived";
  FieldVisibility := "visibility";
  FieldRepoHasFile := "repohasfile";
  FieldRepoHasCommitAfter := "repohascommitafter";
  FieldPatternType := "patterntype";
  FieldSelect := "select";
  FieldFile := "file";
  FieldLang := "lang";
  ToBasicQuery := toBasicQuery;
  ToNodes := map NParameter;
  Q_MaxResults := fun q defaultLimit =>
    default defaultLimit (optValue "count" (fun v => parseDigits v 0) q);
  Q_StringValues := fun q field => valuesOf field (paramsOf q);
  Q_StringValue := fun q field => firstValue field (paramsOf q);
  Q_Timeout := optValue "timeout" (fun v => 1000000000 * parseDigits v 0);
  Q_Count := optValue "count" (fun v => parseDigits v 0);
  Q_Repositories := fun q =>
    (map Value
       (List.filter
          (fun p => String.eqb (Field p) "repo" && negb (Negated p))
          (paramsOf q)),
     map Value
       (List.filter (fun p => String.eqb (Field p) "repo" && Negated p)
          (paramsOf q)));
  Q_Fork := optValue "fork" parseYesNoOnly;
  Q_Archived := optValue "archived" parseYesNoOnly;
  Q_Dependencies := fun _ => [];
  Q_IsCaseSensitive := fun q =>
    bool_decide ("yes" ∈ valuesOf "case" (paramsOf q));
  ParseVisibility := fun s =>
    if String.eqb s "private" then Private
    else if String.eqb s "public" then Public else Any;
  ContainsRefGlobs := fun _ => false;
  Basic_PatternString := patternStringOf;
  Basic_Exists := fun b field => hasField field (Parameters b);
  Basic_Index := fun b => indexOf (Parameters b);
  Basic_ToParseTree := fun b =>
    map NParameter (Parameters b)
      ++ match Pattern b with Some n => [n] | None => [] end;
  ComputeResultTypes := computeResultTypes;
  ToTextPatternInfo := toTextPatternInfo;
  QueryToZoektQuery := fun p _ typ =>
    if balanced (TextPatternInfo.Pattern p) 0 then
      Ok (match typ with
          | TextRequest => "text:"
          | SymbolRequest => "sym:"
          end +:+ TextPatternInfo.Pattern p)
    else Err "error parsing regexp";
  TimeoutDuration := fun _ => 20000000000;
  SearchInputs_DefaultLimit := fun inputs =>
    if bool_decide (SearchInputs.Protocol inputs = Batch)
       || bool_decide (SearchInputs.PatternType inputs = SearchTypeStructural)
    then 30 else 500;
  DefaultGlobalQueryScope := fun _ => Ok "scope";
  NewGlobalZoektQuery := fun query scope includePrivate =>
    (query, scope, includePrivate);
  ExactlyOneRepo := fun repoFilters =>
    bool_decide (length repoFilters = 1%nat);
  IsGlobalSearchContextSpec := fun spec =>
    String.eqb spec "" || String.eqb spec "global";
  QueryToGitQuery := fun q diff =>
    (if diff then "diff:" else "commit:") +:+ patternStringOf
      {| Parameters := []; Pattern := head (patternsOf q) |};
  SubRepoEnabled := subRepoEnabled;
  SelectPathFromString := fun v => [v];
  regexp_Compile_ok := fun s => balanced s 0;
|}.

(** Search inputs of a literal batch search and the arguments around
    them. *)
Definition inputs (st : SearchType) (p : Protocol) : SearchInputs.t :=
  {| SearchInputs.PatternType := st;
     SearchInputs.Protocol := p;
     SearchInputs.Features := None;
     SearchInputs.UserSettings :=
       {| Settings.SearchIncludeForks := None;
          Settings.SearchIncludeArchived := None |};
     SearchInputs.OnSourcegraphDotCom := false |}.

Definition args (st : SearchType) (p : Protocol) : Args :=
  {| SearchInputs := inputs st p; Zoekt := tt; SearcherURLs := tt |}.

Definition param (field value : string) : Node :=
  NParameter {| Field := field; Value := value; Negated := false |}.

Definition repoParam (value : string) : Parameter_ :=
  {| Field := "repo"; Value := value; Negated := false |}.

(** [type:file type:symbol foo] *)
Definition fileAndSymbolQuery : Q :=
  [param "type" "file"; param "type" "symbol"; NPattern "foo" false].

(** [type:symbol], a query without pattern, file or language filter *)
Definition symbolsOnly : Basic :=
  {| Parameters := [{| Field := "type"; Value := "symbol"; Negated := false |}];
     Pattern := None |}.

(** [repo:a foo and bar] *)
Definition fooAndBar : Basic :=
  {| Parameters := [repoParam "a"];
     Pattern :=
       Some (NOperator And [NPattern "foo" false; NPattern "bar" false]) |}.

(** [repo:a foo or bar] *)
Definition fooOrBar : Basic :=
  {| Parameters := [repoParam "a"];
     Pattern :=
       Some (NOperator Or [NPattern "foo" false; NPattern "bar" false]) |}.

(** [repo:a foo] *)
Definition fooInRepo : Q := [NParameter (repoParam "a"); NPattern "foo" false].

(** [type:repo file:README foo] *)
Definition repoTypeWithFile : Q :=
  [param "type" "repo"; param "file" "README"; NPattern "foo" false].

(** [repo:b file:README], a query without pattern *)
Definition filesOfRepo : Q :=
  [NParameter (repoParam "b"); param "file" "README"].

(** The plan of [(repo:a foo) or (repo:b bar)] *)
Definition twoRepoPlan : Plan :=
  [ {| Parameters := [repoParam "a"];
       Pattern := Some (NPattern "foo" false) |};
    {| Parameters := [repoParam "b"];
       Pattern := Some (NPattern "bar" false) |} ].

(** The plan of [(repo:a foo(:[args])) or (repo:b file:README)] *)
Definition structuralPlan : Plan :=
  [ {| Parameters := [repoParam "a"];
       Pattern := Some (NPattern "foo(:[args])" false) |};
    {| Parameters :=
         [repoParam "b";
          {| Field := "file"; Value := "README"; Negated := false |}];
       Pattern := None |} ].

End Sample.

(** ** An environment whose index rejects every pattern

    The collaborators of [Sample], with a translation for the index that
    fails on every pattern info. *)

Module Rejecting.

Import query search.

Definition env (subRepoEnabled : bool) : Env (backends := Sample.backends) :=
  let base := Sample.env subRepoEnabled in
  {| FieldDefault := FieldDefault (Env := base);
     FieldCase := FieldCase (Env := base);
     FieldRepo := FieldRepo (Env := base);
     FieldContext := FieldContext (Env := base);
     FieldType := FieldType (Env := base);
     FieldIndex := FieldIndex (Env := base);
     FieldCount := FieldCount (Env := base);
     FieldTimeout := FieldTimeout (Env := base);
     FieldFork := FieldFork (Env := base);
     FieldArchived := FieldArchived (Env := base);
     FieldVisibility := FieldVisibility (Env := base);
     FieldRepoHasFile := FieldRepoHasFile (Env := base);
     FieldRepoHasCommitAfter := FieldRepoHasCommitAfter (Env := base);
     FieldPatternType := FieldPatternType (Env := base);
     FieldSelect := FieldSelect (Env := base);
     FieldFile := FieldFile (Env := base);
     FieldLang := FieldLang (Env := base);
     ToBasicQuery := ToBasicQuery (Env := base);
     ToNodes := ToNodes (Env := base);
     Q_MaxResults := Q_MaxResults (Env := base);
     Q_StringValues := Q_StringValues (Env := base);
     Q_StringValue := Q_StringValue (Env := base);
     Q_Timeout := Q_Timeout (Env := base);
     Q_Count := Q_Count (Env := base);
     Q_Repositories := Q_Repositories (Env := base);
     Q_Fork := Q_Fork (Env := base);
     Q_Archived := Q_Archived (Env := base);
     Q_Dependencies := Q_Dependencies (Env := base);
     Q_IsCaseSensitive := Q_IsCaseSensitive (Env := base);
     ParseVisibility := ParseVisibility (Env := base);
     ContainsRefGlobs := ContainsRefGlobs (Env := base);
     Basic_PatternString := Basic_PatternString (Env := base);
     Basic_Exists := Basic_Exists (Env := base);
     Basic_Index := Basic_Index (Env := base);
     Basic_ToParseTree := Basic_ToParseTree (Env := base);
     ComputeResultTypes := ComputeResultTypes (Env := base);
     ToTextPatternInfo := ToTextPatternInfo (Env := base);
     QueryToZoektQuery := fun _ _ _ => Err "error parsing regexp";
     TimeoutDuration := TimeoutDuration (Env := base);
     SearchInputs_DefaultLimit := SearchInputs_DefaultLimit (Env := base);
     DefaultGlobalQueryScope := DefaultGlobalQueryScope (Env := base);
     NewGlobalZoektQuery := NewGlobalZoektQuery (Env := base);
     ExactlyOneRepo := ExactlyOneRepo (Env := base);
     IsGlobalSearchContextSpec := IsGlobalSearchContextSpec (Env := base);
     QueryToGitQuery := QueryToGitQuery (Env := base);
     SubRepoEnabled := SubRepoEnabled (Env := base);
     SelectPathFromString := SelectPathFromString (Env := base);
     regexp_Compile_ok := regexp_Compile_ok (Env := base) |}.

End Rejecting.

(** ** Further observations on the compiler *)

Section CompilerObservations.

Context {backends : Backends} {env : Env}.

Import query search.

Definition isUniverseJob (job : Job) : bool :=
  match job with
  | GlobalSearch _ _ _ | RepoUniverseSymbolSearch _ _ _ _ _ => true
  | _ => false
  end.

Definition isRepoPagerJob (job : Job) : bool :=
  match job with repoPagerJob _ _ _ _ _ => true | _ => false end.

(** The repo-pager job of the text block: its parallel child holds the
    [Searcher] job, after the [ZoektRepoSubsetSearch] job if there is
    one. *)
Definition isTextPagerJob (job : Job) : bool :=
  match job with
  | repoPagerJob (ParallelJob [Searcher _ _ _ _]) _ _ _ _
  | repoPagerJob
      (ParallelJob [ZoektRepoSubsetSearch _ _ _ _ _; Searcher _ _ _ _])
      _ _ _ _ => true
  | _ => false
  end.

Definition isCommitSearch (job : Job) : bool :=
  match job with CommitSearch _ _ _ _ _ _ => true | _ => false end.

(** The indexed jobs that run under a repo pager. *)
Definition isZoektSubsetJob (job : Job) : bool :=
  match job with
  | ZoektRepoSubsetSearch _ _ _ _ _ | ZoektSymbolSearch _ _ _ _ => true
  | _ => false
  end.

(** Children of a repo pager's parallel job that are the unindexed job of
    a kind, after the indexed job of the same kind if there is one. *)
Definition indexedThenUnindexed (children : list Job) : bool :=
  match children with
  | [Searcher _ indexed _ _] => negb indexed
  | [ZoektRepoSubsetSearch _ _ _ _ _; Searcher _ indexed _ _] => negb indexed
  | [SymbolSearcher _ _] => true
  | [ZoektSymbolSearch _ _ _ _; SymbolSearcher _ _] => true
  | _ => false
  end.

(** The children of the parallel job under a repo pager. *)
Definition pagerChildren (job : Job) : option (list Job) :=
  match job with
  | repoPagerJob (ParallelJob children) _ _ _ _ => Some children
  | _ => None
  end.

(** The [Mode] field of a [RepoSearch] job. *)
Definition repoSearchMode (job : Job) : option GlobalSearchMode :=
  match job with
  | RepoSearch _ _ _ _ _ _ _ mode => Some mode
  | _ => None
  end.

(** The [Diff] field of a [CommitSearch] job. *)
Definition commitDiff (job : Job) : option bool :=
  match job with
  | CommitSearch _ _ diff _ _ _ => Some diff
  | _ => None
  end.

(** The [NotSearcherOnly] field of a [StructuralSearch] job. *)
Definition notSearcherOnly (job : Job) : option bool :=
  match job with
  | StructuralSearch _ _ notSearcherOnly _ _ _ => Some notSearcherOnly
  | _ => None
  end.

(** What the strategy flags of [jobMode] and the result types say about a
    job that [ToSearchJob] appends to either slice. *)
Definition jobGuards (resultTypes : result.Types)
    (repoUniverseSearch skipRepoSubsetSearch onlyRunSearcher : bool)
    (job : Job) : Prop :=
  (isUniverseJob job = true -> repoUniverseSearch = true)
  /\ (forall children, pagerChildren job = Some children ->
        skipRepoSubsetSearch = false
        /\ existsb isZoektSubsetJob children = negb onlyRunSearcher
        /\ indexedThenUnindexed children = true)
  /\ (isRepoPagerJob job = true -> pagerChildren job <> None)
  /\ (forall mode, repoSearchMode job = Some mode ->
        mode = if skipRepoSubsetSearch then SkipUnindexed
               else if repoUniverseSearch then ZoektGlobalSearch
               else DefaultMode)
  /\ (forall diff, commitDiff job = Some diff ->
        diff = result.Has resultTypes result.TypeDiff)
  /\ (forall flag, notSearcherOnly job = Some flag ->
        flag = negb onlyRunSearcher).

(** The calls of [ToSearchJob] that compiling a pattern expression makes:
    one per pattern leaf and per concatenation with operands. *)
Fixpoint searchLeaves (term : Node) : nat :=
  match term with
  | NOperator kind operands =>
      match operands with
      | [] => 0%nat
      | _ =>
          match kind with
          | Concat => 1%nat
          | _ =>
              (fix sum (terms : list Node) : nat :=
                 match terms with
                 | [] => 0%nat
                 | t :: rest => (searchLeaves t + sum rest)%nat
                 end) operands
          end
      end
  | NPattern _ _ => 1%nat
  | NParameter _ => 0%nat
  end.

(** The calls of [ToSearchJob] that [ToEvaluateJob] makes for a basic
    query. *)
Definition basicSearchLeaves (q : Basic) : nat :=
  match Pattern q with
  | None => 1%nat
  | Some term => searchLeaves term
  end.

(** The repository options that a job other than [RepoSearch] carries. *)
Definition jobRepoOptions (job : Job) : option RepoOptions.t :=
  match job with
  | GlobalSearch _ _ repoOptions
  | RepoUniverseSymbolSearch _ _ _ _ repoOptions
  | CommitSearch _ repoOptions _ _ _ _
  | StructuralSearch _ _ _ _ _ repoOptions
  | ComputeExcludedRepos repoOptions
  | repoPagerJob _ repoOptions _ _ _ => Some repoOptions
  | _ => None
  end.

(** The [RepoOptions] field of a [RepoSearch] job. *)
Definition repoSearchOptions (job : Job) : option RepoOptions.t :=
  match job with
  | RepoSearch _ _ repoOptions _ _ _ _ _ => Some repoOptions
  | _ => None
  end.

(** A job that carries the repository options of the query, or, for a
    [RepoSearch] job, these options with the pattern accepted as a
    repository filter. *)
Definition jobOptions (q : Q) (patternInfo : TextPatternInfo.t)
    (repoOptions : RepoOptions.t) (job : Job) : Prop :=
  (forall options, jobRepoOptions job = Some options ->
     options = repoOptions)
  /\ (forall options, repoSearchOptions job = Some options ->
        addPatternAsRepoFilter q (TextPatternInfo.Pattern patternInfo)
          repoOptions
        = (options, true)).

(** The terms of a pattern expression that [toPatternExpressionJob] hands
    to [ToSearchJob]: the pattern leaves and the concatenations with
    operands, under [And] and [Or] operators with operands. *)
Fixpoint searchTerms (term : Node) : list Node :=
  match term with
  | NOperator kind operands =>
      match operands with
      | [] => []
      | _ =>
          match kind with
          | Concat => [term]
          | _ => flat_map searchTerms operands
          end
      end
  | NPattern _ _ => [term]
  | NParameter _ => []
  end.

(** The queries on which the compilation of a basic query calls
    [ToSearchJob]. *)
Definition searchQueries (q : Basic) : list Q :=
  match Pattern q with
  | None => [ToNodes (Parameters q)]
  | Some term =>
      map (fun t => Basic_ToParseTree (MapPattern q t)) (searchTerms term)
  end.

(** A compiler function that fails only where a call of [ToSearchJob] on
    one of the given queries fails, with the error and the final store of
    that call; the call starts from the store of the function, or from
    that store with the literal pattern type. *)
Definition failsInToSearchJob {A : Type} (queries : list Q) (m : M A)
    : Prop :=
  forall args e args',
    m args = (Err e, args') ->
    exists q jargs,
      In q queries
      /\ (jargs = args \/ jargs = setPatternType args SearchTypeLiteral)
      /\ ToSearchJob q jargs = (Err e, args').

(** Whether a string holds the byte ["@"]. *)
Fixpoint hasAt (s : string) : bool :=
  match s with
  | EmptyString => false
  | String c rest => Ascii.eqb c "@"%char || hasAt rest
  end.

(** The part of a pattern before its first ["@"]. *)
Definition beforeAt (pattern : string) : string :=
  nth 0 (SplitN_at_2 pattern) "".

End CompilerObservations.

(** ** The helpers of the matcher's test ([search_test.go]) *)

Module searchtest.

Import protocol.

(** [strconv.Itoa]: the decimal numeral of an integer. *)
Definition Itoa (i : Z) : string :=
  DecimalString.NilZero.string_of_int (Z.to_int i).

(** [sort.IsSorted]: no element is less than its predecessor. *)
Fixpoint IsSorted {A : Type} (less : A -> A -> bool) (data : list A) : bool :=
  match data with
  | previous :: (current :: _) as rest =>
      negb (less current previous) && IsSorted less rest
  | _ => true
  end.

(** [sortByPath.Less]: Go compares strings byte by byte. *)
Definition sortByPath_Less (a b : FileMatch) : bool :=
  String.ltb (Path a) (Path b).

(** [sortByLineNumber.Less] *)
Definition sortByLineNumber_Less (a b : LineMatch) : bool :=
  Z.ltb (LineNumber a) (LineNumber b).

(** The inner loop of [sanityCheckSorted]: [previous] is [lm[j-1]], absent
    for [j = 0]. *)
Fixpoint checkLineNumbers (path : string) (previous : option LineMatch)
    (lm : list LineMatch) : Res unit :=
  match lm with
  | [] => Ok tt
  | current :: rest =>
      if match previous with
         | Some p => Z.eqb (LineNumber current) (LineNumber p)
         | None => false
         end
      then Err ("duplicate LineNumber on " +:+ path +:+ ":"
                  +:+ Itoa (LineNumber current))
      else checkLineNumbers path (Some current) rest
  end.

(** The outer loop of [sanityCheckSorted]: [previous] is [m[i-1]]. *)
Fixpoint checkFileMatches (previous : option FileMatch) (m : list FileMatch)
    : Res unit :=
  match m with
  | [] => Ok tt
  | current :: rest =>
      if match previous with
         | Some p => String.eqb (Path current) (Path p)
         | None => false
         end
      then Err ("duplicate FileMatch on " +:+ Path current)
      else
        let lm := LineMatches current in
        if negb (IsSorted sortByLineNumber_Less lm) then
          Err ("unsorted LineMatches for " +:+ Path current)
        else
          _ ← checkLineNumbers (Path current) None lm;
          checkFileMatches (Some current) rest
  end.

(** [sanityCheckSorted]; [Ok tt] is the [nil] error. *)
Definition sanityCheckSorted (m : list FileMatch) : Res unit :=
  if negb (IsSorted sortByPath_Less m) then
    Err "unsorted file matches, please sortByPath"
  else checkFileMatches None m.

(** Go's [int] is 64 bits wide on the platforms the service is built
    for, and its addition wraps around: the value of an exact sum as an
    [int]. *)
Definition wrapInt (z : Z) : Z := (z + 2 ^ 63) mod 2 ^ 64 - 2 ^ 63.

(** The inner loop of [toString]; [l.LineNumber + 1] is an [int]
    addition. *)
Definition lineStrings (f : FileMatch) : string :=
  foldr (fun l rest =>
           Path f +:+ ":" +:+ Itoa (wrapInt (LineNumber l + 1)) +:+ ":"
             +:+ Preview l +:+ String "010" rest)
        "" (LineMatches f).

(** The text [toString] writes for one file match. *)
Definition fileString (f : FileMatch) : string :=
  (if bool_decide (length (LineMatches f) = 0%nat)
   then Path f +:+ String "010" ""
   else "")
    +:+ lineStrings f.

(** [toString]: the buffer after the loop over the file matches. *)
Definition toString (m : list FileMatch) : string :=
  foldr (fun f rest => fileString f +:+ rest) "" m.

(** Paths in strictly increasing byte order. *)
Definition pathLt (a b : FileMatch) : Prop :=
  String.ltb (Path a) (Path b) = true.

(** Line numbers in strictly increasing order. *)
Definition lineLt (a b : LineMatch) : Prop :=
  LineNumber a < LineNumber b.

End searchtest.

(** * Properties of the compiler *)

Section CompilerProperties.

Context {backends : Backends} {env : Env}.

Import query search.

(** *** Result types *)

Lemma Has_lor (r a b : result.Types) :
  result.Has r (Z.lor a b) = result.Has r a || result.Has r b.
Proof.
  unfold result.Has. rewrite Z.land_lor_distr_r, <- negb_andb. f_equal.
  apply Bool.eq_iff_eq_true.
  rewrite andb_true_iff, !Z.eqb_eq. apply Z.lor_eq_0_iff.
Qed.

(** *** [query.ForAll] over the parameters of a tree *)

Lemma globalSearchNode_parameter (n : Parameter_) :
  globalSearchNode (NParameter n) = negb (repoScoping n).
Proof.
  unfold globalSearchNode, repoScoping.
  repeat case_match; simpl; rewrite ?negb_involutive; reflexivity.
Qed.

Lemma In_parametersOf (nodes : Q) (n : Parameter_) :
  In n (parametersOf nodes) <-> In (NParameter n) (allNodes nodes).
Proof.
  unfold parametersOf. rewrite <- !list_elem_of_In, list_elem_of_omap.
  split.
  - intros (x & Hx & Hn). destruct x; simplify_eq. exact Hx.
  - intros H. exists (NParameter n). split; [exact H | reflexivity].
Qed.

Lemma ForAll_globalSearchNode (nodes : Q) :
  ForAll nodes globalSearchNode = true
  <-> forall n, In n (parametersOf nodes) -> repoScoping n = false.
Proof.
  unfold ForAll. rewrite forallb_forall. split.
  - intros H n Hn. apply In_parametersOf in Hn. apply H in Hn.
    rewrite globalSearchNode_parameter in Hn.
    destruct (repoScoping n); [discriminate | reflexivity].
  - intros H node Hnode. destruct node as [n| |]; try reflexivity.
    rewrite globalSearchNode_parameter, (H n); [reflexivity|].
    apply In_parametersOf. exact Hnode.
Qed.

(** C2 (as amended): [jobMode] selects index-universe search exactly when
    the search is not structural, no parameter of the query scopes it to
    repositories, the index is not switched off, one of the file, path
    and symbol result types is requested, and the query has a pattern, a
    file filter or a language filter. *)
Theorem jobMode_repoUniverseSearch_iff (b : Basic) (resultTypes : result.Types)
    (st : SearchType) (onSourcegraphDotCom : bool) :
  (jobMode b resultTypes st onSourcegraphDotCom).1.1 = true
  <-> st <> SearchTypeStructural
      /\ noRepoScopingFilters b
      /\ Basic_Index b <> No
      /\ (result.Has resultTypes result.TypeFile = true
          \/ result.Has resultTypes result.TypePath = true
          \/ result.Has resultTypes result.TypeSymbol = true)
      /\ (Basic_PatternString b <> ""
          \/ Basic_Exists b FieldFile = true
          \/ Basic_Exists b FieldLang = true).
Proof.
  unfold jobMode, noRepoScopingFilters. cbn [fst snd].
  rewrite !andb_true_iff, !Has_lor, !orb_true_iff, !negb_true_iff.
  rewrite !andb_false_iff, !negb_false_iff, bool_decide_eq_false.
  rewrite <- ForAll_globalSearchNode.
  destruct (String.eqb_spec (Basic_PatternString b) "") as [Hp|Hp];
    destruct (bool_decide_reflect (st = SearchTypeStructural)) as [Hst|Hst];
    split; intros Hall; intuition (try discriminate; try congruence).
Qed.

(** *** The jobs of the two slices *)

Ltac unfold_res := unfold mbind, mret, Res_bind, Res_ret in *.

Ltac solve_job_inv :=
  repeat match goal with
  | |- Forall _ (_ ++ _) => apply Forall_app; split
  | |- Forall _ (_ :: _) => constructor
  | |- Forall _ [] => constructor
  | |- _ /\ _ => split
  | H : _ /\ _ |- _ => destruct H
  end; auto.

Ltac block_inv :=
  intros; unfold_res; unfold addJob in *;
  repeat (case_match; simplify_eq/=); unfold_res; simplify_eq/=;
  solve_job_inv;
  unfold requiredJobInv, optionalJobInv, gatedResultType;
  cbn [isSymbolPagerJob existsb app isSymbolSearcher commitJobType
       isRepoSearch isStructuralSearch countExcludedRepos patternInfosOf
       NewParallelJob flat_map orb];
  solve_job_inv; try discriminate; try (intros; simplify_eq/=; auto; fail).

Ltac solve_gating :=
  try (intros ? [= <-]);
  try (eexists; split; [reflexivity|]);
  repeat match goal with
  | H : _ || _ = true |- _ => apply orb_true_iff in H; destruct H
  | H : _ || _ = false |- _ => apply orb_false_iff in H; destruct H
  | H : Z.eqb _ _ = true |- _ => apply Z.eqb_eq in H
  | H : Z.eqb _ _ = false |- _ => apply Z.eqb_neq in H
  end; auto.

Section BlockInvariants.

Variables (jargs : Args) (q : Q) (b : Basic).
Variables (maxResults : Z) (resultTypes : result.Types).
Variables (patternInfo : TextPatternInfo.t).

#[local] Abbreviation Req := (requiredJobInv jargs q resultTypes patternInfo).
#[local] Abbreviation Opt := (optionalJobInv jargs q resultTypes patternInfo).
#[local] Abbreviation Inv bs := (Forall Req (fst bs) /\ Forall Opt (snd bs)).

Lemma universeSearchJobs_inv features repoOptions repoUniverseSearch bs bs' :
  Inv bs ->
  universeSearchJobs jargs maxResults resultTypes patternInfo features
    repoOptions repoUniverseSearch bs = Ok bs' ->
  Inv bs'.
Proof. unfold universeSearchJobs. block_inv. Qed.

Lemma textSearchJobs_inv features repoOptions skip only bs bs' :
  Inv bs ->
  textSearchJobs jargs q resultTypes patternInfo
    (computedUseFullDeadline jargs q) features repoOptions skip only bs
  = Ok bs' ->
  Inv bs'.
Proof. unfold textSearchJobs. block_inv. Qed.

Lemma symbolSearchJobs_inv features repoOptions skip only bs bs' :
  Inv bs ->
  symbolSearchJobs jargs q maxResults resultTypes patternInfo
    (computedUseFullDeadline jargs q) features repoOptions skip only bs
  = Ok bs' ->
  Inv bs'.
Proof. unfold symbolSearchJobs. block_inv; solve_gating. Qed.

Lemma commitSearchJobs_inv repoOptions bs :
  Inv bs ->
  Inv (commitSearchJobs q b resultTypes patternInfo
         (computedUseFullDeadline jargs q) repoOptions bs).
Proof. unfold commitSearchJobs. block_inv; solve_gating. Qed.

Lemma structuralSearchJobs_inv features repoOptions only bs bs' :
  Inv bs ->
  structuralSearchJobs jargs q patternInfo (computedUseFullDeadline jargs q)
    features repoOptions only bs = Ok bs' ->
  Inv bs'.
Proof.
  unfold structuralSearchJobs. block_inv.
  all: match goal with
       | H : _ && _ = true |- _ =>
           apply andb_true_iff in H; destruct H as [Hst Hpat]
       end.
  intros _. split.
  - apply bool_decide_eq_true in Hst. exact Hst.
  - apply negb_true_iff in Hpat. intros Heq. rewrite Heq in Hpat. discriminate.
Qed.

Lemma repoSearchJobs_inv features repoOptions universe skip bs :
  Inv bs ->
  Inv (repoSearchJobs jargs q resultTypes patternInfo
         (computedUseFullDeadline jargs q) features repoOptions universe skip
         bs).
Proof. unfold repoSearchJobs. block_inv. Qed.

Lemma searchJobs_inv required optional :
  searchJobs jargs q b maxResults resultTypes patternInfo
  = Ok (required, optional) ->
  exists required0,
    required =
      required0
        ++ [ComputeExcludedRepos
              (toRepoOptions q
                 (SearchInputs.UserSettings (SearchInputs jargs)))]
    /\ Forall Req required0 /\ Forall Opt optional.
Proof.
  unfold searchJobs.
  destruct (jobMode _ _ _ _) as [[universe skip] only].
  unfold_res. intros H.
  destruct (universeSearchJobs _ _ _ _ _ _ _ _) as [bs1|] eqn:H1;
    [|discriminate].
  apply universeSearchJobs_inv in H1; [|split; constructor].
  destruct (textSearchJobs _ _ _ _ _ _ _ _ _ _) as [bs2|] eqn:H2;
    [|discriminate].
  apply textSearchJobs_inv in H2; [|exact H1].
  destruct (symbolSearchJobs _ _ _ _ _ _ _ _ _ _ _) as [bs3|] eqn:H3;
    [|discriminate].
  apply symbolSearchJobs_inv in H3; [|exact H2].
  pose proof (commitSearchJobs_inv
                (toRepoOptions q (SearchInputs.UserSettings (SearchInputs jargs)))
                bs3 H3) as H4.
  destruct (structuralSearchJobs _ _ _ _ _ _ _ _) as [bs5|] eqn:H5;
    [|discriminate].
  apply structuralSearchJobs_inv in H5; [|exact H4].
  match type of H with
  | Ok (addJob true _ (repoSearchJobs ?a ?b ?c ?d ?e ?f ?g ?h ?i ?bs)) = _ =>
      pose proof (repoSearchJobs_inv f g h i bs H5) as H6;
      destruct (repoSearchJobs a b c d e f g h i bs) as [r o]
  end.
  unfold addJob in H. simplify_eq/=. exists r. tauto.
Qed.

End BlockInvariants.

(** *** The shape of a [ToSearchJob] result *)

Lemma ToSearchJob_Ok (q : Q) (jargs jargs' : Args) (job : Job) :
  ToSearchJob q jargs = (Ok job, jargs') ->
  exists b required optional,
    ToBasicQuery q = Ok b
    /\ jargs' = (emptyPatternFallback jargs (computedPatternInfo jargs q b)).1
    /\ searchJobs jargs' q b
         (Q_MaxResults q (SearchInputs_DefaultLimit (SearchInputs jargs)))
         (computedResultTypes jargs q b)
         (emptyPatternFallback jargs (computedPatternInfo jargs q b)).2
       = Ok (required, optional)
    /\ job = filterWrapper
               (NewPriorityJob (NewParallelJob required)
                  (NewParallelJob optional)).
Proof.
  unfold ToSearchJob. intros H. cbv zeta in H.
  destruct (ToBasicQuery q) as [b|]; [|discriminate].
  exists b.
  destruct (emptyPatternFallback jargs (computedPatternInfo jargs q b))
    as [jargs1 patternInfo].
  destruct (searchJobs _ _ _ _ _ _) as [[required optional]|] eqn:Hjobs;
    [|discriminate].
  injection H as <- <-. exists required, optional. cbn [fst snd].
  split_and!; try reflexivity. exact Hjobs.
Qed.

Lemma ToSearchJob_store (q : Q) (jargs : Args) :
  (ToSearchJob q jargs).2
  = match ToBasicQuery q with
    | Ok b => (emptyPatternFallback jargs (computedPatternInfo jargs q b)).1
    | Err _ => jargs
    end.
Proof.
  unfold ToSearchJob. cbv zeta.
  destruct (ToBasicQuery q) as [b|]; [|reflexivity].
  destruct (emptyPatternFallback jargs (computedPatternInfo jargs q b))
    as [jargs1 patternInfo].
  destruct (searchJobs _ _ _ _ _ _) as [[required optional]|]; reflexivity.
Qed.

Lemma bucketsOf_filterWrapper (required optional : list Job) :
  bucketsOf
    (filterWrapper
       (NewPriorityJob (NewParallelJob required) (NewParallelJob optional)))
  = Some (required, optional).
Proof. unfold filterWrapper. destruct SubRepoEnabled; reflexivity. Qed.

Lemma fallback_useFullDeadline (q : Q) (jargs : Args)
    (patternInfo : TextPatternInfo.t) :
  computedUseFullDeadline (emptyPatternFallback jargs patternInfo).1 q
  = computedUseFullDeadline jargs q.
Proof. unfold emptyPatternFallback. case_match; reflexivity. Qed.

(** C1 (as amended): of the jobs [ToSearchJob] builds, only the symbol
    repo-pager job and the commit or diff job can be optional, and such a
    job is optional exactly when the full deadline is not used (no
    timeout, no count, protocol not streaming) and a result type other
    than its own is requested; every other job is required. *)
Theorem optional_bucket_rule (q : Q) (jargs jargs' : Args) (job : Job)
    (b : Basic) :
  ToBasicQuery q = Ok b ->
  ToSearchJob q jargs = (Ok job, jargs') ->
  exists required optional,
    bucketsOf job = Some (required, optional)
    /\ (forall j, In j optional ->
          exists t, gatedResultType j = Some t
            /\ computedUseFullDeadline jargs q = false
            /\ result.Without (computedResultTypes jargs q b) t <> 0)
    /\ (forall j t, In j required -> gatedResultType j = Some t ->
          computedUseFullDeadline jargs q = true
          \/ result.Without (computedResultTypes jargs q b) t = 0).
Proof.
  intros Hb H. apply ToSearchJob_Ok in H.
  destruct H as (b' & required & optional & Hb' & -> & Hjobs & ->).
  rewrite Hb in Hb'. injection Hb' as <-.
  exists required, optional. split; [apply bucketsOf_filterWrapper|].
  apply searchJobs_inv in Hjobs.
  destruct Hjobs as (required0 & -> & Hreq & Hopt).
  rewrite List.Forall_forall in Hreq, Hopt. split.
  - intros j Hj. apply Hopt in Hj. destruct Hj as [(t & Ht & Hfull & Hw) _].
    rewrite fallback_useFullDeadline in Hfull. eauto.
  - intros j t Hj Ht. apply in_app_or in Hj. destruct Hj as [Hj|[<-|[]]].
    + apply Hreq in Hj. destruct Hj as [Hgate _].
      rewrite fallback_useFullDeadline in Hgate. eauto.
    + discriminate.
Qed.

(** *** Counting and collecting over a [ToSearchJob] tree *)

Lemma countExcludedRepos_Parallel (jobs : list Job) :
  countExcludedRepos (ParallelJob jobs)
  = foldr (fun j n => (countExcludedRepos j + n)%nat) 0%nat jobs.
Proof.
  induction jobs as [|j jobs IH]; [reflexivity|].
  cbn [foldr]. rewrite <- IH. reflexivity.
Qed.

Lemma countExcludedRepos_zero (jobs : list Job) :
  Forall (fun j => countExcludedRepos j = 0%nat) jobs ->
  countExcludedRepos (ParallelJob jobs) = 0%nat.
Proof.
  rewrite countExcludedRepos_Parallel.
  induction 1 as [|j jobs Hj _ IH]; cbn [foldr]; [reflexivity|lia].
Qed.

Lemma countExcludedRepos_last (jobs : list Job) (options : RepoOptions.t) :
  Forall (fun j => countExcludedRepos j = 0%nat) jobs ->
  countExcludedRepos (ParallelJob (jobs ++ [ComputeExcludedRepos options]))
  = 1%nat.
Proof.
  rewrite countExcludedRepos_Parallel.
  induction 1 as [|j jobs Hj _ IH]; cbn [foldr app]; [reflexivity|lia].
Qed.

Lemma countExcludedRepos_Priority (required optional : Job) :
  countExcludedRepos (PriorityJob required optional)
  = (countExcludedRepos required + countExcludedRepos optional)%nat.
Proof. reflexivity. Qed.

Lemma countExcludedRepos_filterWrapper (job : Job) :
  countExcludedRepos (filterWrapper job) = countExcludedRepos job.
Proof. unfold filterWrapper. destruct SubRepoEnabled; reflexivity. Qed.

(** C9: every tree [ToSearchJob] returns has the [ComputeExcludedRepos]
    job as the last job of the required slice, so the required [Parallel]
    node under the [Priority] node is not empty, and the tree holds
    exactly one [ComputeExcludedRepos] job. *)
Theorem excluded_repos_exactly_once (q : Q) (jargs jargs' : Args) (job : Job) :
  ToSearchJob q jargs = (Ok job, jargs') ->
  exists required optional,
    bucketsOf job = Some (required, optional)
    /\ (exists required0 options,
          required = required0 ++ [ComputeExcludedRepos options])
    /\ required <> []
    /\ countExcludedRepos job = 1%nat.
Proof.
  intros H. apply ToSearchJob_Ok in H.
  destruct H as (b & required & optional & Hb & -> & Hjobs & ->).
  exists required, optional. split; [apply bucketsOf_filterWrapper|].
  apply searchJobs_inv in Hjobs.
  destruct Hjobs as (required0 & -> & Hreq & Hopt).
  split; [eauto|]. split; [intros Hnil; destruct required0; discriminate|].
  rewrite countExcludedRepos_filterWrapper.
  unfold NewPriorityJob, NewParallelJob.
  rewrite countExcludedRepos_Priority, countExcludedRepos_last,
    countExcludedRepos_zero; [reflexivity| |].
  - eapply Forall_impl; [exact Hopt|]. intros j Hj. apply Hj.
  - eapply Forall_impl; [exact Hreq|]. intros j Hj. apply Hj.
Qed.

(** *** The allow-list of the repo search *)

Lemma valid_iff (q : Q) :
  valid q = true
  <-> Forall (fun p => Field p ∈ fieldAllowlist) (parametersOf q).
Proof.
  unfold valid, VisitParameter.
  assert (Hfold : forall (ps : list Parameter_) (acc : bool),
             fold_left
               (fun s p =>
                  if bool_decide (Field p ∈ fieldAllowlist) then s else false)
               ps acc = true
             <-> acc = true
                 /\ Forall (fun p => Field p ∈ fieldAllowlist) ps).
  { induction ps as [|p ps IH]; intros acc; cbn [fold_left].
    - split; [intros ->; split; [reflexivity|constructor] | tauto].
    - rewrite IH, Forall_cons. case_bool_decide; split; intros H';
        intuition (try discriminate). }
  rewrite Hfold. tauto.
Qed.

(** *** When the job-building block returns without error *)

Section BlockSuccess.

Variables (jargs : Args) (q : Q) (b : Basic).
Variables (maxResults : Z) (resultTypes : result.Types).
Variables (patternInfo : TextPatternInfo.t) (features : search.Features).
Variable repoOptions : RepoOptions.t.

Hypothesis scopeOk : isOk (DefaultGlobalQueryScope repoOptions) = true.
Hypothesis textOk :
  isOk (QueryToZoektQuery patternInfo features TextRequest) = true.
Hypothesis symbolOk :
  isOk (QueryToZoektQuery patternInfo features SymbolRequest) = true.

Ltac block_ok :=
  intros; unfold_res;
  destruct (DefaultGlobalQueryScope repoOptions); [|discriminate];
  destruct (QueryToZoektQuery patternInfo features TextRequest);
    [|discriminate];
  destruct (QueryToZoektQuery patternInfo features SymbolRequest);
    [|discriminate];
  repeat case_match; simplify_eq; reflexivity.

Lemma universeSearchJobs_isOk universe bs :
  isOk (universeSearchJobs jargs maxResults resultTypes patternInfo features
          repoOptions universe bs) = true.
Proof using scopeOk textOk symbolOk. unfold universeSearchJobs. block_ok. Qed.

Lemma textSearchJobs_isOk full skip only bs :
  isOk (textSearchJobs jargs q resultTypes patternInfo full features
          repoOptions skip only bs) = true.
Proof using scopeOk textOk symbolOk. unfold textSearchJobs. block_ok. Qed.

Lemma symbolSearchJobs_isOk full skip only bs :
  isOk (symbolSearchJobs jargs q maxResults resultTypes patternInfo full
          features repoOptions skip only bs) = true.
Proof using scopeOk textOk symbolOk. unfold symbolSearchJobs. block_ok. Qed.

Lemma structuralSearchJobs_isOk full only bs :
  isOk (structuralSearchJobs jargs q patternInfo full features repoOptions
          only bs) = true.
Proof using scopeOk textOk symbolOk. unfold structuralSearchJobs. block_ok. Qed.

End BlockSuccess.

Lemma searchJobs_isOk jargs q b maxResults resultTypes patternInfo :
  let features := toFeatures (SearchInputs.Features (SearchInputs jargs)) in
  let repoOptions :=
    toRepoOptions q (SearchInputs.UserSettings (SearchInputs jargs)) in
  isOk (DefaultGlobalQueryScope repoOptions) = true ->
  isOk (QueryToZoektQuery patternInfo features TextRequest) = true ->
  isOk (QueryToZoektQuery patternInfo features SymbolRequest) = true ->
  isOk (searchJobs jargs q b maxResults resultTypes patternInfo) = true.
Proof.
  intros features repoOptions Hscope Htext Hsymbol. unfold searchJobs.
  fold features. fold repoOptions.
  destruct (jobMode _ _ _ _) as [[universe skip] only]. unfold_res.
  pose proof (universeSearchJobs_isOk jargs maxResults resultTypes
                patternInfo features repoOptions Hscope Htext Hsymbol
                universe ([], [])) as H1.
  destruct (universeSearchJobs _ _ _ _ _ _ _ _) as [bs1|]; [|discriminate].
  pose proof (textSearchJobs_isOk jargs q resultTypes patternInfo features
                repoOptions Hscope Htext Hsymbol
                (computedUseFullDeadline jargs q) skip only bs1) as H2.
  destruct (textSearchJobs _ _ _ _ _ _ _ _ _ _) as [bs2|]; [|discriminate].
  pose proof (symbolSearchJobs_isOk jargs q maxResults resultTypes
                patternInfo features repoOptions Hscope Htext Hsymbol
                (computedUseFullDeadline jargs q) skip only bs2) as H3.
  destruct (symbolSearchJobs _ _ _ _ _ _ _ _ _ _ _) as [bs3|]; [|discriminate].
  match goal with
  | |- context [structuralSearchJobs ?a ?b ?c ?d ?e ?f ?g ?bs] =>
      pose proof (structuralSearchJobs_isOk a b c e f Hscope Htext Hsymbol
                    d g bs) as H4;
      destruct (structuralSearchJobs a b c d e f g bs); [|discriminate]
  end.
  reflexivity.
Qed.

Lemma fallback_inputs (jargs : Args) (patternInfo : TextPatternInfo.t) :
  let jargs' := (emptyPatternFallback jargs patternInfo).1 in
  SearchInputs.Protocol (SearchInputs jargs')
  = SearchInputs.Protocol (SearchInputs jargs)
  /\ SearchInputs.Features (SearchInputs jargs')
     = SearchInputs.Features (SearchInputs jargs)
  /\ SearchInputs.UserSettings (SearchInputs jargs')
     = SearchInputs.UserSettings (SearchInputs jargs)
  /\ SearchInputs.OnSourcegraphDotCom (SearchInputs jargs')
     = SearchInputs.OnSourcegraphDotCom (SearchInputs jargs)
  /\ Zoekt jargs' = Zoekt jargs
  /\ SearcherURLs jargs' = SearcherURLs jargs.
Proof. unfold emptyPatternFallback. case_match; cbn; tauto. Qed.

Lemma ToSearchJob_succeeds (q : Q) (jargs : Args) (b : Basic) :
  let fallback :=
    emptyPatternFallback jargs (computedPatternInfo jargs q b) in
  let features := toFeatures (SearchInputs.Features (SearchInputs jargs)) in
  let repoOptions :=
    toRepoOptions q (SearchInputs.UserSettings (SearchInputs jargs)) in
  ToBasicQuery q = Ok b ->
  isOk (DefaultGlobalQueryScope repoOptions) = true ->
  isOk (QueryToZoektQuery fallback.2 features TextRequest) = true ->
  isOk (QueryToZoektQuery fallback.2 features SymbolRequest) = true ->
  exists job, ToSearchJob q jargs = (Ok job, fallback.1).
Proof.
  intros fallback features repoOptions Hb Hscope Htext Hsymbol.
  destruct (fallback_inputs jargs (computedPatternInfo jargs q b))
    as (_ & Hfeatures & Hsettings & _).
  fold fallback in Hfeatures, Hsettings.
  pose proof (searchJobs_isOk fallback.1 q b
                (Q_MaxResults q (SearchInputs_DefaultLimit (SearchInputs jargs)))
                (computedResultTypes jargs q b) fallback.2) as Hok.
  cbv zeta in Hok. rewrite Hfeatures, Hsettings in Hok.
  specialize (Hok Hscope Htext Hsymbol).
  unfold ToSearchJob. cbv zeta. rewrite Hb. fold fallback.
  destruct fallback as [jargs1 patternInfo]. cbn [fst snd] in *.
  destruct (searchJobs _ _ _ _ _ _) as [[required optional]|];
    [eauto | discriminate].
Qed.

Lemma patternInfosOf_search (required optional : list Job) :
  patternInfosOf
    (filterWrapper
       (NewPriorityJob (NewParallelJob required) (NewParallelJob optional)))
  = flat_map patternInfosOf required ++ flat_map patternInfosOf optional.
Proof. unfold filterWrapper. destruct SubRepoEnabled; reflexivity. Qed.

Lemma Forall_flat_map {A B : Type} (P : B -> Prop) (f : A -> list B)
    (l : list A) :
  Forall (fun x => Forall P (f x)) l -> Forall P (flat_map f l).
Proof.
  induction 1 as [|x l Hx _ IH]; cbn [flat_map]; [constructor|].
  apply Forall_app. split; assumption.
Qed.

(** C10: the only write of [ToSearchJob] to its arguments is the
    assignment of the literal pattern type when the computed pattern is
    empty; with a non-empty pattern, or when the query is no basic query,
    the arguments are as before. *)
Theorem ToSearchJob_writes_only_pattern_type (q : Q) (jargs : Args) :
  let jargs' := (ToSearchJob q jargs).2 in
  (forall b,
     ToBasicQuery q = Ok b ->
     TextPatternInfo.Pattern (computedPatternInfo jargs q b) = "" ->
     jargs' = setPatternType jargs SearchTypeLiteral
     /\ SearchInputs.PatternType (SearchInputs jargs') = SearchTypeLiteral
     /\ SearchInputs.Protocol (SearchInputs jargs')
        = SearchInputs.Protocol (SearchInputs jargs)
     /\ SearchInputs.Features (SearchInputs jargs')
        = SearchInputs.Features (SearchInputs jargs)
     /\ SearchInputs.UserSettings (SearchInputs jargs')
        = SearchInputs.UserSettings (SearchInputs jargs)
     /\ SearchInputs.OnSourcegraphDotCom (SearchInputs jargs')
        = SearchInputs.OnSourcegraphDotCom (SearchInputs jargs)
     /\ Zoekt jargs' = Zoekt jargs
     /\ SearcherURLs jargs' = SearcherURLs jargs)
  /\ (forall b,
        ToBasicQuery q = Ok b ->
        TextPatternInfo.Pattern (computedPatternInfo jargs q b) <> "" ->
        jargs' = jargs)
  /\ (forall err, ToBasicQuery q = Err err -> jargs' = jargs).
Proof.
  intros jargs'. subst jargs'. rewrite ToSearchJob_store.
  split; [|split].
  - intros b -> Hempty. unfold emptyPatternFallback. rewrite Hempty.
    cbn. tauto.
  - intros b -> Hpattern. unfold emptyPatternFallback.
    destruct (String.eqb_spec
                (TextPatternInfo.Pattern (computedPatternInfo jargs q b)) "");
      [contradiction | reflexivity].
  - intros err ->. reflexivity.
Qed.

(** *** Pattern expressions *)

Lemma Node_ind_nested (P : Node -> Prop) :
  (forall p, P (NParameter p)) ->
  (forall value negated, P (NPattern value negated)) ->
  (forall kind operands, Forall P operands -> P (NOperator kind operands)) ->
  forall n, P n.
Proof.
  intros Hparameter Hpattern Hoperator. fix IH 1.
  intros [p|value negated|kind operands].
  - apply Hparameter.
  - apply Hpattern.
  - apply Hoperator. induction operands as [|operand operands IHoperands].
    + constructor.
    + constructor; [apply IH | exact IHoperands].
Qed.

Lemma orOperands_Ok (compile : Node -> M Job) (queryOperands : list Node)
    (args args' : Args) (jobs : list Job) :
  orOperands compile queryOperands args = (Ok jobs, args')
  <-> Compiled compile queryOperands args jobs args'.
Proof.
  revert args jobs.
  induction queryOperands as [|term rest IH]; intros args jobs;
    cbn [orOperands].
  - split.
    + intros [= <- <-]. constructor.
    + inversion 1. reflexivity.
  - unfold mbind, M_bind. split.
    + intros H. destruct (compile term args) as [[job|] args1] eqn:Hterm;
        [|discriminate].
      destruct (orOperands compile rest args1) as [[jobs'|] args2] eqn:Hrest;
        [|discriminate].
      injection H as <- <-. econstructor; [exact Hterm|]. apply IH, Hrest.
    + inversion 1 as [|? ? ? job args1 jobs' ? Hterm Hrest]; subst.
      rewrite Hterm. apply IH in Hrest. rewrite Hrest. reflexivity.
Qed.

Lemma andOperands_Ok (compile : Node -> M Job) (queryOperands : list Node)
    (args args' : Args) (jobs : list Job) :
  andOperands compile queryOperands args = (Ok jobs, args')
  <-> exists operands,
        Compiled compile queryOperands args operands args'
        /\ jobs = map (NewLimitJob maxTryCount) operands.
Proof.
  revert args jobs.
  induction queryOperands as [|queryOperand rest IH]; intros args jobs;
    cbn [andOperands].
  - split.
    + intros [= <- <-]. exists []. split; [constructor|reflexivity].
    + intros (operands & H & ->). inversion H. reflexivity.
  - unfold mbind, M_bind. split.
    + intros H.
      destruct (compile queryOperand args) as [[job|] args1] eqn:Hterm;
        [|discriminate].
      destruct (andOperands compile rest args1) as [[jobs'|] args2] eqn:Hrest;
        [|discriminate].
      injection H as <- <-. apply IH in Hrest.
      destruct Hrest as (operands & Hrest & ->).
      exists (job :: operands). split; [|reflexivity].
      econstructor; [exact Hterm|exact Hrest].
    + intros (operands & H & ->).
      inversion H as [|? ? ? job args1 jobs' ? Hterm Hrest]; subst.
      rewrite Hterm.
      assert (Hand : andOperands compile rest args1
                     = (Ok (map (NewLimitJob maxTryCount) jobs'), args')).
      { apply IH. eauto. }
      rewrite Hand. reflexivity.
Qed.

Lemma Compiled_length (compile : Node -> M Job) (queryOperands : list Node)
    (args args' : Args) (operands : list Job) :
  Compiled compile queryOperands args operands args' ->
  length operands = length queryOperands.
Proof. induction 1; cbn [length]; congruence. Qed.

(** The switch of [toPatternExpressionJob] on an operator with
    operands. *)
Lemma toPatternExpressionJob_operator (q : Basic) (kind : operatorKind)
    (operands : list Node) :
  Pattern q = Some (NOperator kind operands) ->
  operands <> [] ->
  toPatternExpressionJob q
  = match kind with
    | And => toAndJob q
    | Or => toOrJob q
    | Concat => ToSearchJob (Basic_ToParseTree q)
    end.
Proof.
  intros Hq Hoperands. destruct q as [parameters pattern].
  cbn in Hq. subst pattern. unfold toPatternExpressionJob, toAndJob, toOrJob.
  cbn [Pattern Parameters compilePattern MapPattern].
  destruct operands as [|operand rest]; [contradiction|].
  destruct kind; reflexivity.
Qed.

(** *** The wrappers around a compiled tree *)

Lemma Compiled_Forall (P : Job -> Prop) (compile : Node -> M Job)
    (queryOperands : list Node) (args args' : Args) (operands : list Job) :
  Forall (fun operand => forall args job args',
            compile operand args = (Ok job, args') -> P job)
         queryOperands ->
  Compiled compile queryOperands args operands args' ->
  Forall P operands.
Proof.
  intros Hall Hcompiled.
  induction Hcompiled as [|operand rest args job args1 jobs args2 Hterm _ IH];
    [constructor|].
  apply Forall_cons in Hall. destruct Hall as [Hoperand Hrest].
  constructor; [eapply Hoperand, Hterm | apply IH, Hrest].
Qed.

Lemma ToSearchJob_CompiledTree (q : Q) (args args' : Args) (job : Job) :
  ToSearchJob q args = (Ok job, args') -> CompiledTree job.
Proof.
  intros H. apply ToSearchJob_Ok in H.
  destruct H as (b & required & optional & _ & _ & _ & ->). constructor.
Qed.

Lemma compilePattern_CompiledTree (parameters : list Parameter_) (term : Node) :
  forall args job args',
    compilePattern parameters term args = (Ok job, args') -> CompiledTree job.
Proof.
  induction term as [p|value negated|kind operands IH] using Node_ind_nested;
    intros args job args' H; cbn [compilePattern] in H.
  - injection H as <- <-. constructor.
  - eapply ToSearchJob_CompiledTree, H.
  - case_bool_decide; [injection H as <- <-; constructor|].
    destruct kind; unfold mbind, M_bind, mret, M_ret in H.
    + destruct (orOperands _ _ _) as [[jobs|] args1] eqn:Hor; [|discriminate].
      injection H as <- <-. apply orOperands_Ok in Hor.
      constructor. eapply Compiled_Forall; [exact IH|exact Hor].
    + destruct (andOperands _ _ _) as [[jobs|] args1] eqn:Hand;
        [|discriminate].
      injection H as <- <-. apply andOperands_Ok in Hand.
      destruct Hand as (operands' & Hcompiled & ->).
      constructor. eapply Compiled_Forall; [exact IH|exact Hcompiled].
    + eapply ToSearchJob_CompiledTree, H.
Qed.

Lemma CompiledTree_not_select (job : Job) :
  CompiledTree job -> isSelectJob job = false.
Proof.
  destruct 1; try reflexivity.
  unfold filterWrapper. destruct SubRepoEnabled; reflexivity.
Qed.

Lemma ToEvaluateJob_Ok (q : Basic) (args args' : Args) (child : Job) :
  ToEvaluateJob q args = (Ok child, args') ->
  exists tree,
    CompiledTree tree
    /\ child =
         NewTimeoutJob (TimeoutDuration q)
           (NewLimitJob
              (Q_MaxResults (Basic_ToParseTree q)
                 (SearchInputs_DefaultLimit (SearchInputs args)))
              (selectWrapper q tree)).
Proof.
  unfold ToEvaluateJob, mbind, M_bind, mret, M_ret, getArgs. intros H.
  destruct (Pattern q) as [term|] eqn:Hq.
  - unfold toPatternExpressionJob in H. rewrite Hq in H.
    destruct (compilePattern _ _ _) as [[tree|] args1] eqn:Htree;
      [|discriminate].
    injection H as <- <-. exists tree.
    split; [eapply compilePattern_CompiledTree, Htree | reflexivity].
  - destruct (ToSearchJob _ _) as [[tree|] args1] eqn:Htree; [|discriminate].
    injection H as <- <-. exists tree.
    split; [eapply ToSearchJob_CompiledTree, Htree | reflexivity].
Qed.

Lemma ToEvaluateJob_single (q : Basic) (args args' : Args) (child : Job) :
  singleSearch q = true ->
  ToEvaluateJob q args = (Ok child, args') ->
  exists required optional,
    child =
      NewTimeoutJob (TimeoutDuration q)
        (NewLimitJob
           (Q_MaxResults (Basic_ToParseTree q)
              (SearchInputs_DefaultLimit (SearchInputs args)))
           (selectWrapper q
              (filterWrapper
                 (NewPriorityJob (NewParallelJob required)
                    (NewParallelJob optional))))).
Proof.
  unfold singleSearch, ToEvaluateJob, mbind, M_bind, mret, M_ret, getArgs.
  intros Hsingle H.
  assert (Hsearch : exists query tree args1,
             ToSearchJob query args = (Ok tree, args1)
             /\ child =
                  NewTimeoutJob (TimeoutDuration q)
                    (NewLimitJob
                       (Q_MaxResults (Basic_ToParseTree q)
                          (SearchInputs_DefaultLimit (SearchInputs args)))
                       (selectWrapper q tree))).
  { unfold toPatternExpressionJob in H.
    destruct (Pattern q) as [[p|value negated|[] [|operand rest]]|];
      try discriminate; cbn [compilePattern] in H;
      rewrite ?bool_decide_eq_false_2 in H by discriminate.
    - destruct (ToSearchJob _ _) as [[tree|] args1] eqn:Htree;
        [|discriminate].
      injection H as <- <-. eauto.
    - destruct (ToSearchJob _ _) as [[tree|] args1] eqn:Htree;
        [|discriminate].
      injection H as <- <-. eauto.
    - destruct (ToSearchJob _ _) as [[tree|] args1] eqn:Htree;
        [|discriminate].
      injection H as <- <-. eauto. }
  destruct Hsearch as (query & tree & args1 & Htree & ->).
  apply ToSearchJob_Ok in Htree.
  destruct Htree as (b & required & optional & _ & _ & _ & ->). eauto.
Qed.


(** *** Writes to the shared search inputs *)

Lemma setPatternType_idem (args : Args) (st : SearchType) :
  setPatternType (setPatternType args st) st = setPatternType args st.
Proof. reflexivity. Qed.

Lemma setPatternType_same (args : Args) (st : SearchType) :
  SearchInputs.PatternType (SearchInputs args) = st ->
  setPatternType args st = args.
Proof.
  destruct args as [[patternType protocol features settings dotCom] zoekt urls].
  cbn. intros ->. reflexivity.
Qed.

Lemma writesOnlyLiteral_ret {A : Type} (a : A) :
  writesOnlyLiteral (mret a : M A).
Proof. intros args. left. reflexivity. Qed.

Lemma writesOnlyLiteral_bind {A B : Type} (m : M A) (k : A -> M B) :
  writesOnlyLiteral m ->
  (forall a, writesOnlyLiteral (k a)) ->
  writesOnlyLiteral (mbind k m).
Proof.
  intros Hm Hk args. unfold mbind, M_bind. specialize (Hm args).
  destruct (m args) as [[a|err] args1]; cbn [snd] in *; [|exact Hm].
  specialize (Hk a args1).
  destruct Hm as [->| ->]; [exact Hk|].
  destruct Hk as [Hk|Hk]; rewrite Hk; right;
    [reflexivity | apply setPatternType_idem].
Qed.

Lemma writesOnlyLiteral_ToSearchJob (q : Q) : writesOnlyLiteral (ToSearchJob q).
Proof.
  intros args. rewrite ToSearchJob_store.
  destruct (ToBasicQuery q) as [b|]; [|left; reflexivity].
  unfold emptyPatternFallback. case_match; [right|left]; reflexivity.
Qed.

Lemma writesOnlyLiteral_andOperands (compile : Node -> M Job)
    (queryOperands : list Node) :
  Forall (fun operand => writesOnlyLiteral (compile operand)) queryOperands ->
  writesOnlyLiteral (andOperands compile queryOperands).
Proof.
  induction 1 as [|operand rest Hoperand _ IH]; cbn [andOperands].
  - apply writesOnlyLiteral_ret.
  - apply writesOnlyLiteral_bind; [exact Hoperand|]. intros job.
    apply writesOnlyLiteral_bind; [exact IH|]. intros jobs.
    apply writesOnlyLiteral_ret.
Qed.

Lemma writesOnlyLiteral_orOperands (compile : Node -> M Job)
    (queryOperands : list Node) :
  Forall (fun operand => writesOnlyLiteral (compile operand)) queryOperands ->
  writesOnlyLiteral (orOperands compile queryOperands).
Proof.
  induction 1 as [|operand rest Hoperand _ IH]; cbn [orOperands].
  - apply writesOnlyLiteral_ret.
  - apply writesOnlyLiteral_bind; [exact Hoperand|]. intros job.
    apply writesOnlyLiteral_bind; [exact IH|]. intros jobs.
    apply writesOnlyLiteral_ret.
Qed.

Lemma writesOnlyLiteral_compilePattern (parameters : list Parameter_)
    (term : Node) :
  writesOnlyLiteral (compilePattern parameters term).
Proof.
  induction term as [p|value negated|kind operands IH] using Node_ind_nested;
    cbn [compilePattern].
  - apply writesOnlyLiteral_ret.
  - apply writesOnlyLiteral_ToSearchJob.
  - case_bool_decide; [apply writesOnlyLiteral_ret|].
    destruct kind.
    + apply writesOnlyLiteral_bind;
        [apply writesOnlyLiteral_orOperands, IH|].
      intros jobs. apply writesOnlyLiteral_ret.
    + apply writesOnlyLiteral_bind;
        [apply writesOnlyLiteral_andOperands, IH|].
      intros jobs. apply writesOnlyLiteral_ret.
    + apply writesOnlyLiteral_ToSearchJob.
Qed.

Lemma writesOnlyLiteral_ToEvaluateJob (q : Basic) :
  writesOnlyLiteral (ToEvaluateJob q).
Proof.
  unfold ToEvaluateJob. apply writesOnlyLiteral_bind.
  - intros args. left. reflexivity.
  - intros args. apply writesOnlyLiteral_bind.
    + unfold toPatternExpressionJob. destruct (Pattern q).
      * apply writesOnlyLiteral_compilePattern.
      * apply writesOnlyLiteral_ToSearchJob.
    + intros job. apply writesOnlyLiteral_ret.
Qed.

Lemma writesOnlyLiteral_FromExpandedPlan (plan : Plan) :
  writesOnlyLiteral (FromExpandedPlan plan).
Proof.
  unfold FromExpandedPlan. apply writesOnlyLiteral_bind.
  - induction plan as [|q rest IH]; cbn [planChildren].
    + apply writesOnlyLiteral_ret.
    + apply writesOnlyLiteral_bind; [apply writesOnlyLiteral_ToEvaluateJob|].
      intros child. apply writesOnlyLiteral_bind; [exact IH|].
      intros children. apply writesOnlyLiteral_ret.
  - intros children. apply writesOnlyLiteral_bind.
    + intros args. left. reflexivity.
    + intros args. apply writesOnlyLiteral_ret.
Qed.

(** *** The operands of [And] and [Or] *)

(** When the pattern type is literal no operand writes to the shared
    arguments, and every operand is compiled from the arguments the loop
    started with. *)
Lemma Compiled_independent (compile : Node -> M Job)
    (queryOperands : list Node) (args args' : Args) (operands : list Job) :
  (forall operand, writesOnlyLiteral (compile operand)) ->
  SearchInputs.PatternType (SearchInputs args) = SearchTypeLiteral ->
  Compiled compile queryOperands args operands args' ->
  args' = args
  /\ Forall2 (fun queryOperand operand =>
                compile queryOperand args = (Ok operand, args))
       queryOperands operands.
Proof.
  intros Hwrites Hst Hcompiled.
  induction Hcompiled as [|operand rest args job args1 jobs args2 Hterm _ IH].
  - split; constructor.
  - assert (Hsame : args1 = args).
    { destruct (Hwrites operand args) as [H|H]; rewrite Hterm in H;
        cbn [snd] in H; [exact H|].
      rewrite H. apply setPatternType_same, Hst. }
    subst args1. destruct (IH Hst) as [-> Hrest].
    split; [reflexivity|]. constructor; [exact Hterm|exact Hrest].
Qed.

(** C3 (as amended): [toAndJob] compiles the operands of the operator one
    after the other with [toPatternExpressionJob], each from the arguments
    as the operands before it left them, and returns the [And] node over
    one [Limit] job of bound 40000 per compiled operand; [toOrJob] returns
    the [Or] node over the compiled operands themselves.  When the pattern
    type is literal the operands leave the arguments as they are, and each
    operand is compiled independently of the others. *)
Theorem and_operands_limited_or_operands_direct (q : Basic)
    (kind : operatorKind) (queryOperands : list Node) (args args' : Args)
    (job : Job) :
  Pattern q = Some (NOperator kind queryOperands) ->
  let compile :=
    fun operand => toPatternExpressionJob (MapPattern q operand) in
  (toAndJob q args = (Ok job, args')
   <-> exists operands,
         Compiled compile queryOperands args operands args'
         /\ length operands = length queryOperands
         /\ job = NewAndJob (map (NewLimitJob 40000) operands))
  /\ (toOrJob q args = (Ok job, args')
      <-> exists operands,
            Compiled compile queryOperands args operands args'
            /\ length operands = length queryOperands
            /\ job = NewOrJob operands)
  /\ (SearchInputs.PatternType (SearchInputs args) = SearchTypeLiteral ->
      forall operands,
        Compiled compile queryOperands args operands args' ->
        args' = args
        /\ Forall2 (fun queryOperand operand =>
                      compile queryOperand args = (Ok operand, args))
             queryOperands operands).
Proof.
  intros Hq compile. unfold toAndJob, toOrJob. rewrite Hq.
  fold compile. unfold mbind, M_bind, mret, M_ret. split; [split|split; [split|]].
  - intros H.
    destruct (andOperands compile queryOperands args) as [[jobs|] args1]
      eqn:Hand; [|discriminate].
    injection H as <- <-. apply andOperands_Ok in Hand.
    destruct Hand as (operands & Hcompiled & ->).
    exists operands. split; [exact Hcompiled|].
    split; [eapply Compiled_length, Hcompiled | reflexivity].
  - intros (operands & Hcompiled & _ & ->).
    assert (Hand : andOperands compile queryOperands args
                   = (Ok (map (NewLimitJob maxTryCount) operands), args')).
    { apply andOperands_Ok. eauto. }
    rewrite Hand. reflexivity.
  - intros H.
    destruct (orOperands compile queryOperands args) as [[jobs|] args1]
      eqn:Hor; [|discriminate].
    injection H as <- <-. apply orOperands_Ok in Hor.
    exists jobs. split; [exact Hor|].
    split; [eapply Compiled_length, Hor | reflexivity].
  - intros (operands & Hcompiled & _ & ->).
    apply orOperands_Ok in Hcompiled. rewrite Hcompiled. reflexivity.
  - intros Hst operands Hcompiled.
    apply (Compiled_independent compile queryOperands args args' operands);
      [|exact Hst|exact Hcompiled].
    intros operand. subst compile. unfold toPatternExpressionJob.
    cbn [MapPattern Pattern Parameters].
    apply writesOnlyLiteral_compilePattern.
Qed.

End CompilerProperties.

(** * The compiler on concrete queries

    Runs of the compiler in the environment [Sample.env]. *)

Section Examples.

Import query search.

(** [type:file type:symbol foo] as a batch search: the symbol job is
    optional. *)
Example batch_symbol_job_optional :
  shapeOfRun
    (ToSearchJob (env := Sample.env false) Sample.fileAndSymbolQuery
       (Sample.args SearchTypeLiteral Batch))
  = Some
      (ShapeOf "Priority"
         [ShapeOf "Parallel"
            [ShapeOf "GlobalSearch" [];
             ShapeOf "RepoUniverseSymbolSearch" [];
             ShapeOf "repoPager" [ShapeOf "Parallel" [ShapeOf "Searcher" []]];
             ShapeOf "ComputeExcludedRepos" []];
          ShapeOf "Parallel"
            [ShapeOf "repoPager"
               [ShapeOf "Parallel" [ShapeOf "SymbolSearcher" []]]]]).
Proof. vm_compute. reflexivity. Qed.

(** The same query under the streaming protocol: the symbol job is
    required. *)
Example streaming_symbol_job_required :
  shapeOfRun
    (ToSearchJob (env := Sample.env false) Sample.fileAndSymbolQuery
       (Sample.args SearchTypeLiteral Streaming))
  = Some
      (ShapeOf "Priority"
         [ShapeOf "Parallel"
            [ShapeOf "GlobalSearch" [];
             ShapeOf "RepoUniverseSymbolSearch" [];
             ShapeOf "repoPager" [ShapeOf "Parallel" [ShapeOf "Searcher" []]];
             ShapeOf "repoPager"
               [ShapeOf "Parallel" [ShapeOf "SymbolSearcher" []]];
             ShapeOf "ComputeExcludedRepos" []];
          ShapeOf "Parallel" []]).
Proof. vm_compute. reflexivity. Qed.

(** C1, counterexample: for [type:file type:symbol foo] under the
    streaming protocol the query has neither timeout nor count and symbol
    is not the only result type requested, yet the symbol job is in the
    required slice. *)
Lemma optional_rule_counterexample :
  ~ optionalExactlyWithoutDeadlineAndNotSole (env := Sample.env false)
      Sample.fileAndSymbolQuery
      (Sample.args SearchTypeLiteral Streaming).
Proof.
  intros H.
  destruct (ToSearchJob (env := Sample.env false) Sample.fileAndSymbolQuery
              (Sample.args SearchTypeLiteral Streaming))
    as [[job|] jargs'] eqn:Hrun; [|vm_compute in Hrun; discriminate].
  pose proof Hrun as Hjob. vm_compute in Hjob.
  match type of Hjob with
  | (Ok (PriorityJob (ParallelJob ?required) (ParallelJob ?optional)), _) = _ =>
      match required with
      | [_; _; _; ?j; _] =>
          destruct (H _ job jargs' required optional j result.TypeSymbol
                      ltac:(reflexivity) Hrun) as [_ Hopt]
      end
  end.
  - injection Hjob as <- _. reflexivity.
  - cbn. tauto.
  - reflexivity.
  - destruct Hopt as [].
    split; [reflexivity|]. split; [reflexivity|]. vm_compute. discriminate.
Qed.

(** C1, witness: the same query as a batch search; the optional slice is
    not empty and its jobs obey the rule. *)
Lemma optional_bucket_rule_witness :
  exists b job jargs',
    ToBasicQuery (Env := Sample.env false) Sample.fileAndSymbolQuery = Ok b
    /\ ToSearchJob (env := Sample.env false) Sample.fileAndSymbolQuery
         (Sample.args SearchTypeLiteral Batch) = (Ok job, jargs')
    /\ exists required optional,
         bucketsOf job = Some (required, optional)
         /\ optional <> []
         /\ (forall j, In j optional ->
               exists t, gatedResultType j = Some t
                 /\ computedUseFullDeadline (env := Sample.env false)
                      (Sample.args SearchTypeLiteral Batch)
                      Sample.fileAndSymbolQuery = false
                 /\ result.Without
                      (computedResultTypes (env := Sample.env false)
                         (Sample.args SearchTypeLiteral Batch)
                         Sample.fileAndSymbolQuery b) t <> 0).
Proof.
  destruct (ToBasicQuery (Env := Sample.env false) Sample.fileAndSymbolQuery)
    as [b|] eqn:Hb; [|vm_compute in Hb; discriminate].
  destruct (ToSearchJob (env := Sample.env false) Sample.fileAndSymbolQuery
              (Sample.args SearchTypeLiteral Batch))
    as [[job|] jargs'] eqn:Hrun; [|vm_compute in Hrun; discriminate].
  exists b, job, jargs'. split; [reflexivity|]. split; [reflexivity|].
  destruct (optional_bucket_rule (env := Sample.env false)
              Sample.fileAndSymbolQuery
              (Sample.args SearchTypeLiteral Batch) jargs' job b Hb Hrun)
    as (required & optional & Hbuckets & Hoptional & _).
  exists required, optional. split; [exact Hbuckets|].
  split; [|exact Hoptional].
  vm_compute in Hrun. injection Hrun as <- _.
  vm_compute in Hbuckets. injection Hbuckets as _ <-. discriminate.
Defined.

(** C2, counterexample: [type:symbol] has no repository-scoping filter,
    requests a globally searchable result type and leaves the index on,
    but it is empty (no pattern, no file or language filter), and
    [jobMode] does not select index-universe search. *)
Lemma universe_search_counterexample :
  ~ universeSearchWheneverUnscoped (env := Sample.env false)
      Sample.symbolsOnly result.TypeSymbol SearchTypeLiteral false.
Proof.
  intros H.
  assert (Hmode : (jobMode (env := Sample.env false) Sample.symbolsOnly
                     result.TypeSymbol SearchTypeLiteral false).1.1 = true).
  { apply H.
    - intros n Hn. vm_compute in Hn. destruct Hn as [<-|[]]. reflexivity.
    - right. right. reflexivity.
    - discriminate. }
  vm_compute in Hmode. discriminate.
Qed.

(** C3, counterexample: the structural search [repo:a "" and
    foo(:[args])].  The first operand has an empty pattern, so its
    compilation sets the pattern type to literal; the second operand is
    then compiled as a literal search, with a text and a repo job, while
    alone, from the arguments [toAndJob] was called with, it compiles to a
    structural search job. *)
Lemma and_operands_independent_counterexample :
  ~ andOperandsCompiledIndependently (env := Sample.env false)
      {| Parameters := [Sample.repoParam "a"];
         Pattern :=
           Some (NOperator And
                   [NPattern "" false; NPattern "foo(:[args])" false]) |}
      (Sample.args SearchTypeStructural Batch).
Proof.
  intros H.
  destruct (toAndJob (env := Sample.env false)
              {| Parameters := [Sample.repoParam "a"];
                 Pattern :=
                   Some (NOperator And
                           [NPattern "" false;
                            NPattern "foo(:[args])" false]) |}
              (Sample.args SearchTypeStructural Batch))
    as [[job|] args'] eqn:Hrun; [|vm_compute in Hrun; discriminate].
  destruct (H _ job args' eq_refl Hrun) as (operands & Hjob & Hall).
  destruct operands as [|first [|second [|third rest]]];
    try (apply Forall2_length in Hall; discriminate).
  apply Forall2_cons in Hall. destruct Hall as [_ Hall].
  apply Forall2_cons in Hall. destruct Hall as [Hsecond _].
  vm_compute in Hrun. injection Hrun as Hrun _.
  vm_compute in Hsecond. injection Hsecond as <-.
  rewrite <- Hrun in Hjob. cbn in Hjob. discriminate.
Qed.

(** C3, witness: [repo:a foo and bar] and [repo:a foo or bar]. *)
Lemma and_operands_limited_or_operands_direct_witness :
  (exists job args',
     toAndJob (env := Sample.env false) Sample.fooAndBar
       (Sample.args SearchTypeLiteral Batch) = (Ok job, args')
     /\ exists operands,
          length operands = 2%nat
          /\ job = NewAndJob (map (NewLimitJob 40000) operands))
  /\ (exists job args',
        toOrJob (env := Sample.env false) Sample.fooOrBar
          (Sample.args SearchTypeLiteral Batch) = (Ok job, args')
        /\ exists operands,
             length operands = 2%nat /\ job = NewOrJob operands).
Proof.
  split.
  - destruct (toAndJob (env := Sample.env false) Sample.fooAndBar
                (Sample.args SearchTypeLiteral Batch))
      as [[job|] args'] eqn:Hrun; [|vm_compute in Hrun; discriminate].
    exists job, args'. split; [reflexivity|].
    destruct (and_operands_limited_or_operands_direct
                (env := Sample.env false) Sample.fooAndBar And
                [NPattern "foo" false; NPattern "bar" false]
                (Sample.args SearchTypeLiteral Batch) args' job eq_refl)
      as [[Hand _] _].
    destruct (Hand Hrun) as (operands & _ & Hlength & Hjob).
    exists operands. split; [exact Hlength | exact Hjob].
  - destruct (toOrJob (env := Sample.env false) Sample.fooOrBar
                (Sample.args SearchTypeLiteral Batch))
      as [[job|] args'] eqn:Hrun; [|vm_compute in Hrun; discriminate].
    exists job, args'. split; [reflexivity|].
    destruct (and_operands_limited_or_operands_direct
                (env := Sample.env false) Sample.fooOrBar Or
                [NPattern "foo" false; NPattern "bar" false]
                (Sample.args SearchTypeLiteral Batch) args' job eq_refl)
      as [_ [[Hor _] _]].
    destruct (Hor Hrun) as (operands & _ & Hlength & Hjob).
    exists operands. split; [exact Hlength | exact Hjob].
Defined.

(** The plan of [(repo:a foo) or (repo:b bar)] with sub-repository
    permissions enforced. *)
Example two_query_plan_shape :
  shapeOfRun
    (FromExpandedPlan (env := Sample.env true) Sample.twoRepoPlan
       (Sample.args SearchTypeLiteral Batch))
  = let child :=
      ShapeOf "Timeout"
        [ShapeOf "Limit"
           [ShapeOf "Filter"
              [ShapeOf "Priority"
                 [ShapeOf "Parallel"
                    [ShapeOf "repoPager"
                       [ShapeOf "Parallel"
                          [ShapeOf "ZoektRepoSubsetSearch" [];
                           ShapeOf "Searcher" []]];
                     ShapeOf "RepoSearch" [];
                     ShapeOf "ComputeExcludedRepos" []];
                  ShapeOf "Parallel" []]]]] in
    Some (ShapeOf "Alert" [ShapeOf "Or" [child; child]]).
Proof. vm_compute. reflexivity. Qed.



(** The plan of [(repo:a foo(:[args])) or (repo:b file:README)] as a
    structural search, compiled a first time: the first query gets a
    structural search job, the second query has no pattern and sets the
    pattern type to literal. *)
Example structural_plan_first_run :
  let run :=
    FromExpandedPlan (env := Sample.env false) Sample.structuralPlan
      (Sample.args SearchTypeStructural Batch) in
  SearchInputs.PatternType (SearchInputs run.2) = SearchTypeLiteral
  /\ shapeOfRun run
     = Some
         (ShapeOf "Alert"
            [ShapeOf "Or"
               [ShapeOf "Timeout"
                  [ShapeOf "Limit"
                     [ShapeOf "Priority"
                        [ShapeOf "Parallel"
                           [ShapeOf "StructuralSearch" [];
                            ShapeOf "ComputeExcludedRepos" []];
                         ShapeOf "Parallel" []]]];
                ShapeOf "Timeout"
                  [ShapeOf "Limit"
                     [ShapeOf "Priority"
                        [ShapeOf "Parallel"
                           [ShapeOf "repoPager"
                              [ShapeOf "Parallel"
                                 [ShapeOf "ZoektRepoSubsetSearch" [];
                                  ShapeOf "Searcher" []]];
                            ShapeOf "ComputeExcludedRepos" []];
                         ShapeOf "Parallel" []]]]]]).
Proof. vm_compute. split; reflexivity. Qed.

(** The same plan compiled again on the arguments the first compilation
    left: the first query now gets text and repo jobs. *)
Example structural_plan_second_run :
  let first :=
    FromExpandedPlan (env := Sample.env false) Sample.structuralPlan
      (Sample.args SearchTypeStructural Batch) in
  shapeOfRun
    (FromExpandedPlan (env := Sample.env false) Sample.structuralPlan first.2)
  = Some
      (ShapeOf "Alert"
         [ShapeOf "Or"
            [ShapeOf "Timeout"
               [ShapeOf "Limit"
                  [ShapeOf "Priority"
                     [ShapeOf "Parallel"
                        [ShapeOf "repoPager"
                           [ShapeOf "Parallel"
                              [ShapeOf "ZoektRepoSubsetSearch" [];
                               ShapeOf "Searcher" []]];
                         ShapeOf "RepoSearch" [];
                         ShapeOf "ComputeExcludedRepos" []];
                      ShapeOf "Parallel" []]]];
             ShapeOf "Timeout"
               [ShapeOf "Limit"
                  [ShapeOf "Priority"
                     [ShapeOf "Parallel"
                        [ShapeOf "repoPager"
                           [ShapeOf "Parallel"
                              [ShapeOf "ZoektRepoSubsetSearch" [];
                               ShapeOf "Searcher" []]];
                         ShapeOf "ComputeExcludedRepos" []];
                      ShapeOf "Parallel" []]]]]]).
Proof. vm_compute. reflexivity. Qed.

(** C9, witness: [type:file type:symbol foo]. *)
Lemma excluded_repos_exactly_once_witness :
  exists job jargs',
    ToSearchJob (env := Sample.env false) Sample.fileAndSymbolQuery
      (Sample.args SearchTypeLiteral Batch) = (Ok job, jargs')
    /\ countExcludedRepos job = 1%nat.
Proof.
  destruct (ToSearchJob (env := Sample.env false) Sample.fileAndSymbolQuery
              (Sample.args SearchTypeLiteral Batch))
    as [[job|] jargs'] eqn:Hrun; [|vm_compute in Hrun; discriminate].
  exists job, jargs'. split; [reflexivity|].
  destruct (excluded_repos_exactly_once (env := Sample.env false)
              Sample.fileAndSymbolQuery (Sample.args SearchTypeLiteral Batch)
              jargs' job Hrun)
    as (required & optional & _ & _ & _ & Hcount).
  exact Hcount.
Defined.

(** C10, witness: [repo:b file:README] has no pattern, and a regex search
    for it leaves the pattern type literal; [repo:a foo] has one, and the
    arguments stay as they are. *)
Lemma ToSearchJob_writes_only_pattern_type_witness :
  (exists b,
     ToBasicQuery (Env := Sample.env false) Sample.filesOfRepo = Ok b
     /\ TextPatternInfo.Pattern
          (computedPatternInfo (env := Sample.env false)
             (Sample.args SearchTypeRegex Batch) Sample.filesOfRepo b) = ""
     /\ (ToSearchJob (env := Sample.env false) Sample.filesOfRepo
           (Sample.args SearchTypeRegex Batch)).2
        = setPatternType (Sample.args SearchTypeRegex Batch)
            SearchTypeLiteral)
  /\ (exists b,
        ToBasicQuery (Env := Sample.env false) Sample.fooInRepo = Ok b
        /\ TextPatternInfo.Pattern
             (computedPatternInfo (env := Sample.env false)
                (Sample.args SearchTypeRegex Batch) Sample.fooInRepo b) <> ""
        /\ (ToSearchJob (env := Sample.env false) Sample.fooInRepo
              (Sample.args SearchTypeRegex Batch)).2
           = Sample.args SearchTypeRegex Batch).
Proof.
  split.
  - destruct (ToBasicQuery (Env := Sample.env false) Sample.filesOfRepo)
      as [b|] eqn:Hb; [|vm_compute in Hb; discriminate].
    exists b. split; [reflexivity|].
    assert (Hempty : TextPatternInfo.Pattern
                       (computedPatternInfo (env := Sample.env false)
                          (Sample.args SearchTypeRegex Batch)
                          Sample.filesOfRepo b)
                     = "").
    { vm_compute in Hb. injection Hb as <-. vm_compute. reflexivity. }
    split; [exact Hempty|].
    apply (proj1 (ToSearchJob_writes_only_pattern_type
                    (env := Sample.env false) Sample.filesOfRepo
                    (Sample.args SearchTypeRegex Batch))
             b Hb Hempty).
  - destruct (ToBasicQuery (Env := Sample.env false) Sample.fooInRepo)
      as [b|] eqn:Hb; [|vm_compute in Hb; discriminate].
    exists b. split; [reflexivity|].
    assert (Hpattern : TextPatternInfo.Pattern
                         (computedPatternInfo (env := Sample.env false)
                            (Sample.args SearchTypeRegex Batch)
                            Sample.fooInRepo b)
                       <> "").
    { vm_compute in Hb. injection Hb as <-. vm_compute. discriminate. }
    split; [exact Hpattern|].
    apply (proj1 (proj2 (ToSearchJob_writes_only_pattern_type
                           (env := Sample.env false) Sample.fooInRepo
                           (Sample.args SearchTypeRegex Batch)))
             b Hb Hpattern).
Defined.

End Examples.

(** * Further properties of the compiler *)

Section FurtherCompilerProperties.

Context {backends : Backends} {env : Env}.

Import query search.

(** *** The strategy flags *)

(** X1: [jobMode] never asks both to skip the repo-subset jobs and to run
    only the searcher in them.  Running only the searcher means that
    index-universe search is selected off sourcegraph.com; and when
    index-universe search is selected, the repo-subset jobs are skipped
    exactly on sourcegraph.com and run with the searcher only exactly off
    it. *)
Theorem jobMode_flags_exclusive (b : Basic) (resultTypes : result.Types)
    (st : SearchType) (onSourcegraphDotCom : bool) :
  let '(repoUniverseSearch, skipRepoSubsetSearch, onlyRunSearcher) :=
    jobMode b resultTypes st onSourcegraphDotCom in
  skipRepoSubsetSearch && onlyRunSearcher = false
  /\ onlyRunSearcher = repoUniverseSearch && negb onSourcegraphDotCom
  /\ (repoUniverseSearch = true ->
      skipRepoSubsetSearch = onSourcegraphDotCom
      /\ onlyRunSearcher = negb onSourcegraphDotCom).
Proof.
  unfold jobMode.
  destruct (if bool_decide (st = SearchTypeStructural) then false
            else ForAll (Basic_ToParseTree b) globalSearchNode);
    destruct (negb (bool_decide (Basic_Index b = No)));
    destruct (result.Has resultTypes _);
    destruct (String.eqb (Basic_PatternString b) "");
    destruct (Basic_Exists b FieldFile);
    destruct (Basic_Exists b FieldLang);
    destruct onSourcegraphDotCom; cbn; intuition discriminate.
Qed.

Lemma jobMode_universe (b : Basic) (resultTypes : result.Types)
    (st : SearchType) (dotCom : bool) (universe skip only : bool) :
  jobMode b resultTypes st dotCom = (universe, skip, only) ->
  (universe = true -> skip = dotCom /\ only = negb dotCom)
  /\ (universe = true -> st <> SearchTypeStructural)
  /\ (universe = true ->
      result.Has resultTypes
        (Z.lor (Z.lor result.TypeFile result.TypePath) result.TypeSymbol)
      = true)
  /\ (universe = false -> only = false)
  /\ (skip = false -> only = universe)
  /\ (String.eqb (Basic_PatternString b) "" = true ->
      Basic_Exists b FieldFile = false ->
      Basic_Exists b FieldLang = false ->
      universe = false /\ skip = true).
Proof.
  unfold jobMode. intros [= <- <- <-].
  destruct (bool_decide_reflect (st = SearchTypeStructural)) as [Hst|Hst];
    destruct (ForAll (Basic_ToParseTree b) globalSearchNode);
    destruct (negb (bool_decide (Basic_Index b = No)));
    destruct (result.Has resultTypes _);
    destruct (String.eqb (Basic_PatternString b) "");
    destruct (Basic_Exists b FieldFile);
    destruct (Basic_Exists b FieldLang);
    destruct dotCom; cbn; intuition (try discriminate; try congruence).
Qed.


(** *** The layout of the two slices *)

Ltac res_unfold := unfold mbind, mret, Res_bind, Res_ret in *.

Ltac split_all :=
  repeat match goal with
  | |- _ /\ _ => split
  | |- Forall _ (_ :: _) => constructor
  | |- Forall _ [] => constructor
  end.

Ltac bool_facts :=
  repeat match goal with
  | H : _ && _ = true |- _ => apply andb_true_iff in H; destruct H
  | H : negb _ = true |- _ => apply negb_true_iff in H
  | H : negb _ = false |- _ => apply negb_false_iff in H
  end.

(** A block appends [r] to the required slice and [o] to the optional
    slice. *)
Ltac block_adds :=
  let bs := fresh "bs" in
  intros bs; destruct bs as [required optional]; intros ? ?;
  res_unfold; unfold addJob in *;
  repeat (case_match; simplify_eq/=); res_unfold; simplify_eq/=;
  rewrite <- ?app_assoc;
  first
    [ exists [], []; rewrite !app_nil_r; split; [reflexivity|]
    | eexists [_], []; rewrite !app_nil_r; split; [reflexivity|]
    | eexists [], [_]; rewrite !app_nil_r; split; [reflexivity|]
    | eexists [_; _], []; rewrite !app_nil_r; split; [reflexivity|] ];
  cbn [length app Nat.add];
  split_all; try reflexivity; try lia;
  unfold jobGuards;
  cbn [isUniverseJob pagerChildren isRepoPagerJob repoSearchMode commitDiff
       notSearcherOnly NewParallelJob existsb isZoektSubsetJob app orb
       isCommitSearch isStructuralSearch isRepoSearch indexedThenUnindexed
       negb isTextPagerJob isSymbolPagerJob isSymbolSearcher];
  split_all; try discriminate; bool_facts;
  try (intros; simplify_eq/=; auto; fail).

Section Layout.

Variables (jargs : Args) (q : Q) (b : Basic).
Variables (maxResults : Z) (resultTypes : result.Types).
Variables (patternInfo : TextPatternInfo.t) (useFullDeadline : bool).
Variables (features : search.Features) (repoOptions : RepoOptions.t).
Variables (universe skip only : bool).

#[local] Abbreviation Guards := (jobGuards resultTypes universe skip only).

Lemma universeSearchJobs_adds :
  forall bs bs',
    universeSearchJobs jargs maxResults resultTypes patternInfo features
      repoOptions universe bs = Ok bs' ->
    exists r o,
      bs' = (bs.1 ++ r, bs.2 ++ o)
      /\ (length r + length o <= 2)%nat
      /\ o = []
      /\ Forall (fun j => isUniverseJob j = true) (r ++ o)
      /\ Forall Guards (r ++ o)
      /\ (r = [] -> universe = true ->
          result.Has resultTypes (Z.lor result.TypeFile result.TypePath)
          = false
          /\ result.Has resultTypes result.TypeSymbol = false).
Proof. unfold universeSearchJobs. block_adds. Qed.

Lemma textSearchJobs_adds :
  forall bs bs',
    textSearchJobs jargs q resultTypes patternInfo useFullDeadline features
      repoOptions skip only bs = Ok bs' ->
    exists r o,
      bs' = (bs.1 ++ r, bs.2 ++ o)
      /\ (length r + length o <= 1)%nat
      /\ o = []
      /\ Forall (fun j => isRepoPagerJob j = true) (r ++ o)
      /\ Forall (fun j => isTextPagerJob j = true) (r ++ o)
      /\ Forall Guards (r ++ o).
Proof. unfold textSearchJobs. block_adds. Qed.

Lemma symbolSearchJobs_adds :
  forall bs bs',
    symbolSearchJobs jargs q maxResults resultTypes patternInfo
      useFullDeadline features repoOptions skip only bs = Ok bs' ->
    exists r o,
      bs' = (bs.1 ++ r, bs.2 ++ o)
      /\ (length r + length o <= 1)%nat
      /\ Forall (fun j => isRepoPagerJob j = true) (r ++ o)
      /\ Forall (fun j => isSymbolPagerJob j = true) (r ++ o)
      /\ Forall Guards (r ++ o).
Proof. unfold symbolSearchJobs. block_adds. Qed.

Lemma commitSearchJobs_adds :
  forall bs bs',
    commitSearchJobs q b resultTypes patternInfo useFullDeadline repoOptions
      bs = bs' ->
    exists r o,
      bs' = (bs.1 ++ r, bs.2 ++ o)
      /\ (length r + length o <= 1)%nat
      /\ Forall (fun j => isCommitSearch j = true) (r ++ o)
      /\ Forall Guards (r ++ o).
Proof. unfold commitSearchJobs. block_adds. Qed.

Lemma structuralSearchJobs_adds :
  forall bs bs',
    structuralSearchJobs jargs q patternInfo useFullDeadline features
      repoOptions only bs = Ok bs' ->
    exists r o,
      bs' = (bs.1 ++ r, bs.2 ++ o)
      /\ (length r + length o <= 1)%nat
      /\ o = []
      /\ Forall (fun j => isStructuralSearch j = true) (r ++ o)
      /\ Forall Guards (r ++ o).
Proof. unfold structuralSearchJobs. block_adds. Qed.

Lemma repoSearchJobs_adds :
  forall bs bs',
    repoSearchJobs jargs q resultTypes patternInfo useFullDeadline features
      repoOptions universe skip bs = bs' ->
    exists r o,
      bs' = (bs.1 ++ r, bs.2 ++ o)
      /\ (length r + length o <= 1)%nat
      /\ o = []
      /\ Forall (fun j => isRepoSearch j = true) (r ++ o)
      /\ Forall Guards (r ++ o).
Proof. unfold repoSearchJobs. block_adds. Qed.

End Layout.


Lemma searchJobs_layout (jargs : Args) (q : Q) (b : Basic) (maxResults : Z)
    (resultTypes : result.Types) (patternInfo : TextPatternInfo.t)
    (required optional : list Job) (universe skip only : bool) :
  jobMode b resultTypes (SearchInputs.PatternType (SearchInputs jargs))
    (SearchInputs.OnSourcegraphDotCom (SearchInputs jargs))
  = (universe, skip, only) ->
  searchJobs jargs q b maxResults resultTypes patternInfo
  = Ok (required, optional) ->
  exists universeJobs textJobs symbolRequired symbolOptional commitRequired
         commitOptional structuralJobs repoJobs,
    required =
      universeJobs ++ textJobs ++ symbolRequired ++ commitRequired
        ++ structuralJobs ++ repoJobs
        ++ [ComputeExcludedRepos
              (toRepoOptions q
                 (SearchInputs.UserSettings (SearchInputs jargs)))]
    /\ optional = symbolOptional ++ commitOptional
    /\ (length universeJobs <= 2)%nat
    /\ (length textJobs <= 1)%nat
    /\ (length symbolRequired + length symbolOptional <= 1)%nat
    /\ (length commitRequired + length commitOptional <= 1)%nat
    /\ (length structuralJobs <= 1)%nat
    /\ (length repoJobs <= 1)%nat
    /\ Forall (fun j => isUniverseJob j = true) universeJobs
    /\ Forall (fun j => isRepoPagerJob j = true)
         (textJobs ++ symbolRequired ++ symbolOptional)
    /\ Forall (fun j => isTextPagerJob j = true) textJobs
    /\ Forall (fun j => isSymbolPagerJob j = true)
         (symbolRequired ++ symbolOptional)
    /\ Forall (fun j => isCommitSearch j = true)
         (commitRequired ++ commitOptional)
    /\ Forall (fun j => isStructuralSearch j = true) structuralJobs
    /\ Forall (fun j => isRepoSearch j = true) repoJobs
    /\ Forall (jobGuards resultTypes universe skip only)
         (required ++ optional)
    /\ (universe = true -> universeJobs <> []).
Proof.
  unfold searchJobs. intros Hmode H. rewrite Hmode in H. res_unfold.
  apply jobMode_universe in Hmode.
  destruct Hmode as (_ & _ & Hglobal & _).
  destruct (universeSearchJobs _ _ _ _ _ _ _ _) as [bs1|] eqn:H1;
    [|discriminate].
  apply (universeSearchJobs_adds _ _ _ _ _ _ universe skip only) in H1.
  destruct H1 as (r1 & o1 & -> & Hn1 & -> & Hk1 & Hg1 & Hne1).
  destruct (textSearchJobs _ _ _ _ _ _ _ _ _ _) as [bs2|] eqn:H2;
    [|discriminate].
  apply (textSearchJobs_adds _ _ _ _ _ _ _ universe) in H2.
  destruct H2 as (r2 & o2 & -> & Hn2 & -> & Hk2 & Hkt2 & Hg2).
  destruct (symbolSearchJobs _ _ _ _ _ _ _ _ _ _ _) as [bs3|] eqn:H3;
    [|discriminate].
  apply (symbolSearchJobs_adds _ _ _ _ _ _ _ _ universe) in H3.
  destruct H3 as (r3 & o3 & -> & Hn3 & Hk3 & Hks3 & Hg3).
  match type of H with
  | context [commitSearchJobs ?a ?b ?c ?d ?e ?f ?bs] =>
      destruct (commitSearchJobs_adds a b c d e f universe skip only bs _
                  eq_refl) as (r4 & o4 & H4 & Hn4 & Hk4 & Hg4);
      rewrite H4 in H; clear H4
  end.
  destruct (structuralSearchJobs _ _ _ _ _ _ _ _) as [bs5|] eqn:H5;
    [|discriminate].
  apply (structuralSearchJobs_adds _ _ resultTypes _ _ _ _ universe skip) in H5.
  destruct H5 as (r5 & o5 & -> & Hn5 & -> & Hk5 & Hg5).
  match type of H with
  | context [repoSearchJobs ?a ?b ?c ?d ?e ?f ?g ?h ?i ?bs] =>
      destruct (repoSearchJobs_adds a b c d e f g h i only bs _ eq_refl)
        as (r6 & o6 & H6 & Hn6 & -> & Hk6 & Hg6);
      rewrite H6 in H; clear H6
  end.
  unfold addJob in H. cbn [fst snd app] in *. rewrite !app_nil_r in *.
  injection H as <- <-.
  exists r1, r2, r3, o3, r4, o4, r5, r6.
  rewrite <- !app_assoc. cbn [length app] in *.
  split; [reflexivity|]. split; [reflexivity|].
  rewrite !Forall_app in *.
  repeat match goal with H : _ /\ _ |- _ => destruct H end.
  split_all; try lia; try assumption;
    try (apply Forall_app; split; assumption).
  - unfold jobGuards. cbn. split_all; intros; discriminate.
  - intros Hu ->. destruct (Hne1 eq_refl Hu) as [Hfile Hsymbol].
    specialize (Hglobal Hu). rewrite Has_lor, Hfile, Hsymbol in Hglobal.
    discriminate.
Qed.


(** *** The jobs of a compiled query *)

Lemma ToSearchJob_slices (q : Q) (jargs jargs' : Args) (job : Job)
    (required optional : list Job) :
  ToSearchJob q jargs = (Ok job, jargs') ->
  bucketsOf job = Some (required, optional) ->
  exists b,
    ToBasicQuery q = Ok b
    /\ jargs' = (emptyPatternFallback jargs (computedPatternInfo jargs q b)).1
    /\ searchJobs jargs' q b
         (Q_MaxResults q (SearchInputs_DefaultLimit (SearchInputs jargs)))
         (computedResultTypes jargs q b)
         (emptyPatternFallback jargs (computedPatternInfo jargs q b)).2
       = Ok (required, optional).
Proof.
  intros H Hb. apply ToSearchJob_Ok in H.
  destruct H as (b & required0 & optional0 & Hbasic & Hstore & Hjobs & ->).
  rewrite bucketsOf_filterWrapper in Hb. injection Hb as <- <-.
  exists b. split; [exact Hbasic|]. split; [exact Hstore|exact Hjobs].
Qed.

Lemma existsb_false_Forall {A : Type} (p : A -> bool) (l : list A) :
  existsb p l = false <-> Forall (fun a => p a = false) l.
Proof.
  induction l as [|a l IH]; cbn [existsb].
  - split; [constructor|reflexivity].
  - rewrite orb_false_iff, IH. split.
    + intros [? ?]. constructor; assumption.
    + intros H. inversion H. split; assumption.
Qed.

Lemma existsb_true_Forall {A : Type} (p : A -> bool) (l : list A) :
  l <> [] -> Forall (fun a => p a = true) l -> existsb p l = true.
Proof.
  destruct l as [|a l]; [congruence|]. intros _ H. inversion H as [|? ? Ha].
  cbn [existsb]. rewrite Ha. reflexivity.
Qed.

(** Index-universe search is on exactly when a universe job is in the
    slices. *)
Lemma universe_flag_in_slices (universeJobs others : list Job)
    (resultTypes : result.Types) (universe skip only : bool) :
  Forall (fun j => isUniverseJob j = true) universeJobs ->
  Forall (jobGuards resultTypes universe skip only) (universeJobs ++ others) ->
  (universe = true -> universeJobs <> []) ->
  existsb isUniverseJob (universeJobs ++ others) = universe.
Proof.
  intros Hkind Hguards Hne. destruct universe.
  - rewrite existsb_app, (existsb_true_Forall _ _ (Hne eq_refl) Hkind).
    reflexivity.
  - apply existsb_false_Forall. eapply Forall_impl; [exact Hguards|].
    intros j (Hu & _). cbv beta. destruct (isUniverseJob j); [|reflexivity].
    discriminate (Hu eq_refl).
Qed.

(** X2: the required slice of a compiled query holds, in this order, at
    most two universe jobs, the text repo-pager job, the symbol repo-pager
    job, the commit job, the structural job and the repo job, each at most
    once, and the [ComputeExcludedRepos] job at the end; the optional slice
    holds the symbol repo-pager job and the commit job, in this order, when
    they are not required. *)
Theorem ToSearchJob_slices_in_order (q : Q) (jargs jargs' : Args) (job : Job) :
  ToSearchJob q jargs = (Ok job, jargs') ->
  exists universeJobs textJobs symbolRequired symbolOptional commitRequired
         commitOptional structuralJobs repoJobs,
    bucketsOf job
    = Some (universeJobs ++ textJobs ++ symbolRequired ++ commitRequired
              ++ structuralJobs ++ repoJobs
              ++ [ComputeExcludedRepos
                    (toRepoOptions q
                       (SearchInputs.UserSettings (SearchInputs jargs)))],
            symbolOptional ++ commitOptional)
    /\ (length universeJobs <= 2)%nat
    /\ (length textJobs <= 1)%nat
    /\ (length symbolRequired + length symbolOptional <= 1)%nat
    /\ (length commitRequired + length commitOptional <= 1)%nat
    /\ (length structuralJobs <= 1)%nat
    /\ (length repoJobs <= 1)%nat
    /\ Forall (fun j => isUniverseJob j = true) universeJobs
    /\ Forall (fun j => isRepoPagerJob j = true)
         (textJobs ++ symbolRequired ++ symbolOptional)
    /\ Forall (fun j => isTextPagerJob j = true) textJobs
    /\ Forall (fun j => isSymbolPagerJob j = true)
         (symbolRequired ++ symbolOptional)
    /\ Forall (fun j => isCommitSearch j = true)
         (commitRequired ++ commitOptional)
    /\ Forall (fun j => isStructuralSearch j = true) structuralJobs
    /\ Forall (fun j => isRepoSearch j = true) repoJobs.
Proof.
  intros H.
  destruct (bucketsOf job) as [[required optional]|] eqn:Hb.
  2: { apply ToSearchJob_Ok in H. destruct H as (? & ? & ? & _ & _ & _ & ->).
       rewrite bucketsOf_filterWrapper in Hb. discriminate. }
  destruct (ToSearchJob_slices _ _ _ _ _ _ H Hb) as (b & _ & Hstore & Hjobs).
  destruct (jobMode b (computedResultTypes jargs q b)
              (SearchInputs.PatternType (SearchInputs jargs'))
              (SearchInputs.OnSourcegraphDotCom (SearchInputs jargs')))
    as [[universe skip] only] eqn:Hmode.
  destruct (searchJobs_layout _ _ _ _ _ _ _ _ _ _ _ Hmode Hjobs)
    as (u & t & sr & so & cr & co & st & r & -> & -> & Hrest).
  exists u, t, sr, so, cr, co, st, r.
  assert (Hsettings : SearchInputs.UserSettings (SearchInputs jargs')
                      = SearchInputs.UserSettings (SearchInputs jargs)).
  { rewrite Hstore. apply fallback_inputs. }
  rewrite <- Hsettings. split; [reflexivity|]. tauto.
Qed.


Lemma filter_other_kind (kind p : Job -> bool) (jobs : list Job) :
  (forall j, kind j = true -> p j = false) ->
  Forall (fun j => kind j = true) jobs ->
  List.filter p jobs = [].
Proof.
  intros Hdisjoint. induction 1 as [|j jobs Hj _ IH]; [reflexivity|].
  cbn [List.filter]. rewrite (Hdisjoint j Hj). exact IH.
Qed.

Lemma filter_length_le {A : Type} (p : A -> bool) (l : list A) :
  (length (List.filter p l) <= length l)%nat.
Proof.
  induction l as [|a l IH]; cbn [List.filter length]; [lia|].
  destruct (p a); cbn [length]; lia.
Qed.

(** What the strategy flags say about the slices of a compiled query. *)
Lemma ToSearchJob_guards (q : Q) (jargs jargs' : Args) (job : Job)
    (required optional : list Job) :
  ToSearchJob q jargs = (Ok job, jargs') ->
  bucketsOf job = Some (required, optional) ->
  exists b universe skip only,
    ToBasicQuery q = Ok b
    /\ jobMode b (computedResultTypes jargs q b)
         (SearchInputs.PatternType (SearchInputs jargs'))
         (SearchInputs.OnSourcegraphDotCom (SearchInputs jargs))
       = (universe, skip, only)
    /\ Forall (jobGuards (computedResultTypes jargs q b) universe skip only)
         (required ++ optional)
    /\ existsb isUniverseJob (required ++ optional) = universe
    /\ (existsb isStructuralSearch (required ++ optional) = true ->
        SearchInputs.PatternType (SearchInputs jargs')
        = SearchTypeStructural)
    /\ (length (List.filter isCommitSearch (required ++ optional)) <= 1)%nat.
Proof.
  intros H Hb.
  destruct (ToSearchJob_slices _ _ _ _ _ _ H Hb) as (b & Hbasic & Hstore & Hjobs).
  assert (Hdot : SearchInputs.OnSourcegraphDotCom (SearchInputs jargs')
                 = SearchInputs.OnSourcegraphDotCom (SearchInputs jargs)).
  { rewrite Hstore. apply fallback_inputs. }
  destruct (jobMode b (computedResultTypes jargs q b)
              (SearchInputs.PatternType (SearchInputs jargs'))
              (SearchInputs.OnSourcegraphDotCom (SearchInputs jargs')))
    as [[universe skip] only] eqn:Hmode.
  exists b, universe, skip, only. split; [exact Hbasic|].
  split; [rewrite <- Hdot; exact Hmode|].
  destruct (searchJobs_inv _ _ _ _ _ _ _ _ Hjobs)
    as (required0 & Hrequired0 & Hreq & Hopt).
  destruct (searchJobs_layout _ _ _ _ _ _ _ _ _ _ _ Hmode Hjobs)
    as (u & t & sr & so & cr & co & st & r & Hrequired & Hoptional
        & _ & _ & _ & Hcommit & _ & _ & Hku & Hkp & _ & _ & Hkc & Hks & Hkr
        & Hguards & Hne).
  split; [exact Hguards|]. split; [|split].
  - rewrite Hrequired, <- !app_assoc in *.
    exact (universe_flag_in_slices _ _ _ _ _ _ Hku Hguards Hne).
  - intros Hs. apply existsb_exists in Hs. destruct Hs as (j & Hj & Hs).
    apply in_app_or in Hj. destruct Hj as [Hj|Hj].
    + rewrite Hrequired0 in Hj. apply in_app_or in Hj. destruct Hj as [Hj|Hj].
      * rewrite List.Forall_forall in Hreq.
        destruct (Hreq j Hj) as (_ & _ & Hst & _). apply Hst, Hs.
      * destruct Hj as [<-|[]]. discriminate.
    + rewrite List.Forall_forall in Hopt.
      destruct (Hopt j Hj) as (_ & _ & Hst & _). congruence.
  - rewrite Hrequired, Hoptional.
    rewrite !Forall_app in Hkp. destruct Hkp as (Hkt & Hksr & Hkso).
    rewrite !Forall_app in Hkc. destruct Hkc as (Hkcr & Hkco).
    rewrite !List.filter_app, !length_app.
    rewrite (filter_other_kind isUniverseJob isCommitSearch u)
      by (try assumption; intros []; cbn; congruence).
    rewrite (filter_other_kind isRepoPagerJob isCommitSearch t)
      by (try assumption; intros []; cbn; congruence).
    rewrite (filter_other_kind isRepoPagerJob isCommitSearch sr)
      by (try assumption; intros []; cbn; congruence).
    rewrite (filter_other_kind isRepoPagerJob isCommitSearch so)
      by (try assumption; intros []; cbn; congruence).
    rewrite (filter_other_kind isStructuralSearch isCommitSearch st)
      by (try assumption; intros []; cbn; congruence).
    rewrite (filter_other_kind isRepoSearch isCommitSearch r)
      by (try assumption; intros []; cbn; congruence).
    pose proof (filter_length_le isCommitSearch cr).
    pose proof (filter_length_le isCommitSearch co).
    cbn. lia.
Qed.

Lemma Forall_In {A : Type} (P : A -> Prop) (l : list A) (a : A) :
  Forall P l -> In a l -> P a.
Proof. rewrite List.Forall_forall. auto. Qed.

(** X3: a query without pattern, without [file:] and without [lang:]
    filter gets no universe job and no repo-pager job, and its repo job,
    if any, runs in the mode that skips unindexed search. *)
Theorem empty_query_skips_index_and_pager_jobs (q : Q) (jargs jargs' : Args)
    (job : Job) (b : Basic) (required optional : list Job) :
  ToSearchJob q jargs = (Ok job, jargs') ->
  bucketsOf job = Some (required, optional) ->
  ToBasicQuery q = Ok b ->
  Basic_PatternString b = "" ->
  Basic_Exists b FieldFile = false ->
  Basic_Exists b FieldLang = false ->
  Forall (fun j =>
            isUniverseJob j = false
            /\ isRepoPagerJob j = false
            /\ (forall mode, repoSearchMode j = Some mode ->
                  mode = SkipUnindexed))
         (required ++ optional).
Proof.
  intros H Hb Hbasic Hpattern Hfile Hlang.
  destruct (ToSearchJob_guards _ _ _ _ _ _ H Hb)
    as (b' & universe & skip & only & Hbasic' & Hmode & Hguards & _).
  rewrite Hbasic in Hbasic'. injection Hbasic' as <-.
  apply jobMode_universe in Hmode.
  destruct Hmode as (_ & _ & _ & _ & _ & Hempty).
  destruct Hempty as [-> ->]; [rewrite Hpattern; reflexivity|assumption..|].
  eapply Forall_impl; [exact Hguards|].
  intros j (Hu & Hchildren & Hpager & Hrepo & _). cbv beta.
  split; [|split].
  - destruct (isUniverseJob j); [discriminate (Hu eq_refl)|reflexivity].
  - destruct (isRepoPagerJob j); [|reflexivity].
    destruct (pagerChildren j) as [children|]; [|destruct (Hpager eq_refl eq_refl)].
    destruct (Hchildren children eq_refl). discriminate.
  - intros mode Hj. apply (Hrepo mode Hj).
Qed.

(** X4: the parallel job under a repo-pager job of a compiled query holds
    the unindexed job of its kind (the searcher, or the symbol searcher),
    after the indexed job of the same kind if there is one; and the indexed
    job is there exactly when no universe job is in the slices.  A universe
    job stands beside a repo-pager job only off sourcegraph.com. *)
Theorem pager_runs_index_iff_no_universe_job (q : Q) (jargs jargs' : Args)
    (job : Job) (required optional : list Job) (pager : Job) :
  ToSearchJob q jargs = (Ok job, jargs') ->
  bucketsOf job = Some (required, optional) ->
  In pager (required ++ optional) ->
  isRepoPagerJob pager = true ->
  exists children,
    pagerChildren pager = Some children
    /\ indexedThenUnindexed children = true
    /\ existsb isZoektSubsetJob children
       = negb (existsb isUniverseJob (required ++ optional))
    /\ (existsb isUniverseJob (required ++ optional) = true ->
        SearchInputs.OnSourcegraphDotCom (SearchInputs jargs) = false).
Proof.
  intros H Hb Hin Hpager.
  destruct (ToSearchJob_guards _ _ _ _ _ _ H Hb)
    as (b & universe & skip & only & _ & Hmode & Hguards & Huniverse & _).
  destruct (Forall_In _ _ _ Hguards Hin) as (_ & Hchildren & Hsome & _).
  destruct (pagerChildren pager) as [children|];
    [|destruct (Hsome Hpager eq_refl)].
  destruct (Hchildren children eq_refl) as (-> & Hzoekt & Hshape).
  exists children. split; [reflexivity|]. split; [exact Hshape|].
  apply jobMode_universe in Hmode.
  destruct Hmode as (Hdot & _ & _ & _ & Honly & _).
  rewrite Huniverse, Hzoekt, (Honly eq_refl). split; [reflexivity|].
  intros Hu. destruct (Hdot Hu) as [<- _]. reflexivity.
Qed.

(** X5: a structural search job and a universe job are never in the
    slices of the same compiled query, and the structural job runs the
    index ([NotSearcherOnly] is set). *)
Theorem structural_job_excludes_universe_jobs (q : Q) (jargs jargs' : Args)
    (job : Job) (required optional : list Job) (structuralJob : Job) :
  ToSearchJob q jargs = (Ok job, jargs') ->
  bucketsOf job = Some (required, optional) ->
  In structuralJob (required ++ optional) ->
  isStructuralSearch structuralJob = true ->
  existsb isUniverseJob (required ++ optional) = false
  /\ notSearcherOnly structuralJob = Some true.
Proof.
  intros H Hb Hin Hs.
  destruct (ToSearchJob_guards _ _ _ _ _ _ H Hb)
    as (b & universe & skip & only & _ & Hmode & Hguards & Huniverse
        & Hstructural & _).
  assert (Hst : SearchInputs.PatternType (SearchInputs jargs')
                = SearchTypeStructural).
  { apply Hstructural, existsb_exists. eauto. }
  apply jobMode_universe in Hmode.
  destruct Hmode as (_ & Hnot & _ & Honly & _).
  rewrite Huniverse.
  assert (Hu : universe = false).
  { destruct universe; [destruct (Hnot eq_refl Hst)|reflexivity]. }
  split; [exact Hu|].
  destruct (Forall_In _ _ _ Hguards Hin) as (_ & _ & _ & _ & _ & Hflag).
  destruct structuralJob; try discriminate. cbn in *.
  rewrite (Hflag _ eq_refl), (Honly Hu). reflexivity.
Qed.

(** X6: the mode of the repo job of a compiled query tells what else is
    in the slices: it skips unindexed search only when there is no
    repo-pager job, it is the index-universe mode only when a universe job
    is there and the instance is not sourcegraph.com, and it is the
    default mode only when no universe job is there. *)
Theorem repo_search_mode_matches_slices (q : Q) (jargs jargs' : Args)
    (job : Job) (required optional : list Job) (repoJob : Job)
    (mode : GlobalSearchMode) :
  ToSearchJob q jargs = (Ok job, jargs') ->
  bucketsOf job = Some (required, optional) ->
  In repoJob (required ++ optional) ->
  repoSearchMode repoJob = Some mode ->
  match mode with
  | SkipUnindexed => existsb isRepoPagerJob (required ++ optional) = false
  | ZoektGlobalSearch =>
      existsb isUniverseJob (required ++ optional) = true
      /\ SearchInputs.OnSourcegraphDotCom (SearchInputs jargs) = false
  | DefaultMode => existsb isUniverseJob (required ++ optional) = false
  end.
Proof.
  intros H Hb Hin Hmode'.
  destruct (ToSearchJob_guards _ _ _ _ _ _ H Hb)
    as (b & universe & skip & only & _ & Hmode & Hguards & Huniverse & _).
  destruct (Forall_In _ _ _ Hguards Hin) as (_ & _ & _ & Hrepo & _).
  specialize (Hrepo mode Hmode'). apply jobMode_universe in Hmode.
  destruct Hmode as (Hdot & _).
  rewrite Huniverse. destruct skip, universe; subst mode; try reflexivity.
  - apply existsb_false_Forall. eapply Forall_impl; [exact Hguards|].
    intros j (_ & Hchildren & Hsome & _). cbv beta.
    destruct (isRepoPagerJob j); [|reflexivity].
    destruct (pagerChildren j) as [children|];
      [|destruct (Hsome eq_refl eq_refl)].
    destruct (Hchildren children eq_refl). discriminate.
  - apply existsb_false_Forall. eapply Forall_impl; [exact Hguards|].
    intros j (_ & Hchildren & Hsome & _). cbv beta.
    destruct (isRepoPagerJob j); [|reflexivity].
    destruct (pagerChildren j) as [children|];
      [|destruct (Hsome eq_refl eq_refl)].
    destruct (Hchildren children eq_refl). discriminate.
  - split; [reflexivity|]. destruct (Hdot eq_refl) as [<- _]. reflexivity.
Qed.

(** X7: the slices of a compiled query hold at most one commit search
    job, also when both commit and diff results are asked for; it is a
    diff search exactly when diff results are among the result types. *)
Theorem at_most_one_commit_search (q : Q) (jargs jargs' : Args) (job : Job)
    (b : Basic) (required optional : list Job) :
  ToSearchJob q jargs = (Ok job, jargs') ->
  bucketsOf job = Some (required, optional) ->
  ToBasicQuery q = Ok b ->
  (length (List.filter isCommitSearch (required ++ optional)) <= 1)%nat
  /\ Forall (fun j =>
               forall diff, commitDiff j = Some diff ->
                 diff = result.Has (computedResultTypes jargs q b)
                          result.TypeDiff)
            (required ++ optional).
Proof.
  intros H Hb Hbasic.
  destruct (ToSearchJob_guards _ _ _ _ _ _ H Hb)
    as (b' & universe & skip & only & Hbasic' & _ & Hguards & _ & _ & Hone).
  rewrite Hbasic in Hbasic'. injection Hbasic' as <-.
  split; [exact Hone|].
  eapply Forall_impl; [exact Hguards|].
  intros j (_ & _ & _ & _ & Hdiff & _). exact Hdiff.
Qed.


(** *** The repository options *)

(** X8: [toRepoOptions] never sets both [OnlyForks] and [NoForks], nor
    both [OnlyArchived] and [NoArchived].  A [fork:] or [archived:] value
    of the query decides alone, whatever the settings say; without it
    forks and archived repositories are never the only ones searched, and
    they are left out exactly when the query does not name exactly one
    repository and the setting does not include them. *)
Theorem toRepoOptions_forks_and_archived (q : Q) (userSettings : Settings.t) :
  let opts := toRepoOptions q userSettings in
  RepoOptions.OnlyForks opts && RepoOptions.NoForks opts = false
  /\ RepoOptions.OnlyArchived opts && RepoOptions.NoArchived opts = false
  /\ (forall fork, Q_Fork q = Some fork ->
        RepoOptions.OnlyForks opts = bool_decide (fork = Only)
        /\ RepoOptions.NoForks opts = bool_decide (fork = No))
  /\ (forall archived, Q_Archived q = Some archived ->
        RepoOptions.OnlyArchived opts = bool_decide (archived = Only)
        /\ RepoOptions.NoArchived opts = bool_decide (archived = No))
  /\ (Q_Fork q = None ->
        RepoOptions.OnlyForks opts = false
        /\ RepoOptions.NoForks opts
           = negb (ExactlyOneRepo (Q_Repositories q).1
                   || default false (Settings.SearchIncludeForks userSettings)))
  /\ (Q_Archived q = None ->
        RepoOptions.OnlyArchived opts = false
        /\ RepoOptions.NoArchived opts
           = negb (ExactlyOneRepo (Q_Repositories q).1
                   || default false
                        (Settings.SearchIncludeArchived userSettings))).
Proof.
  unfold toRepoOptions. destruct (Q_Repositories q) as [repoFilters minus].
  cbn [fst RepoOptions.OnlyForks RepoOptions.NoForks RepoOptions.OnlyArchived
       RepoOptions.NoArchived].
  destruct (Q_Fork q) as [[]|], (Q_Archived q) as [[]|],
    (ExactlyOneRepo repoFilters),
    (Settings.SearchIncludeForks userSettings) as [[]|],
    (Settings.SearchIncludeArchived userSettings) as [[]|];
    cbn; split_all; intros; simplify_eq; try reflexivity; split; reflexivity.
Qed.

Lemma cutAt_None (s : string) : cutAt s = None <-> hasAt s = false.
Proof.
  induction s as [|c s IH]; cbn [cutAt hasAt]; [tauto|].
  destruct (Ascii.eqb c "@"); cbn [orb].
  - split; discriminate.
  - rewrite <- IH. destruct (cutAt s) as [[before after]|];
      split; congruence.
Qed.

Lemma cutAt_Some (s before after : string) :
  cutAt s = Some (before, after) ->
  s = before +:+ String "@" after /\ hasAt before = false.
Proof.
  revert before. induction s as [|c s IH]; intros before; cbn [cutAt];
    [discriminate|].
  destruct (Ascii.eqb_spec c "@") as [->|Hc].
  - intros [= <- <-]. split; reflexivity.
  - destruct (cutAt s) as [[before' after']|]; [|discriminate].
    intros [= <- <-]. destruct (IH before' eq_refl) as [-> Hno].
    split; [reflexivity|]. cbn [hasAt].
    destruct (Ascii.eqb_spec c "@"); [contradiction|exact Hno].
Qed.

Lemma hasAt_append (before after : string) :
  hasAt (before +:+ String "@" after) = true.
Proof.
  induction before as [|c before IH].
  - reflexivity.
  - change (hasAt (String c (before +:+ String "@" after)) = true).
    cbn [hasAt]. rewrite IH. apply orb_true_r.
Qed.

(** X9: [addPatternAsRepoFilter] rejects a pattern exactly when it holds
    an ["@"] and the part before the first ["@"] is empty or does not
    compile as a regular expression; it then returns the zero options.
    An empty pattern leaves the options as they are.  Otherwise the filter
    it appends to the repository filters is the pattern up to its first
    ["@"]: it is not empty and holds no ["@"]. *)
Theorem addPatternAsRepoFilter_appends_filter_without_at (q : Q)
    (pattern : string) (opts : RepoOptions.t) :
  let result := addPatternAsRepoFilter q pattern opts in
  (result.2 = false <->
   hasAt pattern = true
   /\ (beforeAt pattern = ""
       \/ regexp_Compile_ok (beforeAt pattern) = false))
  /\ (result.2 = false -> result.1 = RepoOptions.zero)
  /\ (pattern = "" -> result = (opts, true))
  /\ (result.2 = true -> pattern <> "" ->
      RepoOptions.RepoFilters result.1
      = RepoOptions.RepoFilters opts ++ [beforeAt pattern]
      /\ RepoOptions.CaseSensitiveRepoFilters result.1 = Q_IsCaseSensitive q
      /\ beforeAt pattern <> ""
      /\ hasAt (beforeAt pattern) = false
      /\ exists rest, pattern = beforeAt pattern +:+ rest).
Proof.
  unfold addPatternAsRepoFilter, beforeAt, SplitN_at_2.
  destruct (String.eqb_spec pattern "") as [->|Hpattern].
  { cbn [fst snd hasAt]. split_all; try (intros; congruence).
    split; [discriminate|]. intros [? _]. discriminate. }
  destruct (cutAt pattern) as [[before after]|] eqn:Hcut.
  - apply cutAt_Some in Hcut. destruct Hcut as [Hsplit Hno].
    assert (Hat : hasAt pattern = true).
    { rewrite Hsplit. apply hasAt_append. }
    rewrite bool_decide_eq_false_2 by (cbn [length]; lia).
    cbn [nth]. rewrite Hat.
    destruct (String.eqb_spec before "") as [->|Hbefore]; cbn [negb].
    { cbn [fst snd]. split_all; try (intros; congruence).
      split; [intros _; split; [reflexivity|left; reflexivity]|reflexivity]. }
    destruct (regexp_Compile_ok before) eqn:Hre;
      cbn [negb fst snd RepoOptions.RepoFilters
           RepoOptions.CaseSensitiveRepoFilters].
    + split_all; try (intros; congruence).
      * split; [discriminate|]. intros [_ [?|?]]; congruence.
      * intros _ _. split_all; try reflexivity; try assumption.
        exists (String "@" after). exact Hsplit.
    + split_all; try (intros; congruence).
      split; [intros _; split; [reflexivity|right; reflexivity]|reflexivity].
  - pose proof (proj1 (cutAt_None pattern) Hcut) as Hno. rewrite Hno.
    rewrite bool_decide_eq_true_2 by reflexivity.
    cbn [nth fst snd RepoOptions.RepoFilters
         RepoOptions.CaseSensitiveRepoFilters].
    split_all; try (intros; congruence).
    + split; [discriminate|]. intros [? _]. discriminate.
    + intros _ _. split_all; try reflexivity; try assumption.
      exists "". clear. induction pattern as [|c pattern IH]; [reflexivity|].
      change (String c pattern = String c (pattern +:+ "")). congruence.
Qed.


(** *** Where the compilation fails *)

Ltac block_fails :=
  intros ? ? ?; res_unfold;
  repeat (case_match; simplify_eq/=); res_unfold; simplify_eq/=;
  bool_facts; split_all; eauto;
  try match goal with
      | H : bool_decide _ = true |- _ => exact (bool_decide_eq_true_1 _ H)
      end.

Section Failures.

Variables (jargs : Args) (q : Q) (maxResults : Z).
Variables (resultTypes : result.Types) (patternInfo : TextPatternInfo.t).
Variables (useFullDeadline : bool) (features : search.Features).
Variables (repoOptions : RepoOptions.t).

#[local] Abbreviation TranslationFails e :=
  (DefaultGlobalQueryScope repoOptions = Err e
   \/ exists typ, QueryToZoektQuery patternInfo features typ = Err e).

Lemma universeSearchJobs_Err universe :
  forall bs e,
    universeSearchJobs jargs maxResults resultTypes patternInfo features
      repoOptions universe bs = Err e ->
    universe = true /\ TranslationFails e.
Proof. unfold universeSearchJobs. block_fails. Qed.

Lemma textSearchJobs_Err skip only :
  forall bs e,
    textSearchJobs jargs q resultTypes patternInfo useFullDeadline features
      repoOptions skip only bs = Err e ->
    result.Has resultTypes (Z.lor result.TypeFile result.TypePath) = true
    /\ TranslationFails e.
Proof. unfold textSearchJobs. block_fails. Qed.

Lemma symbolSearchJobs_Err skip only :
  forall bs e,
    symbolSearchJobs jargs q maxResults resultTypes patternInfo
      useFullDeadline features repoOptions skip only bs = Err e ->
    result.Has resultTypes result.TypeSymbol = true /\ TranslationFails e.
Proof. unfold symbolSearchJobs. block_fails. Qed.

Lemma structuralSearchJobs_Err only :
  forall bs e,
    structuralSearchJobs jargs q patternInfo useFullDeadline features
      repoOptions only bs = Err e ->
    SearchInputs.PatternType (SearchInputs jargs) = SearchTypeStructural
    /\ TranslationFails e.
Proof. unfold structuralSearchJobs. block_fails. Qed.

End Failures.

Lemma searchJobs_Err (jargs : Args) (q : Q) (b : Basic) (maxResults : Z)
    (resultTypes : result.Types) (patternInfo : TextPatternInfo.t)
    (e : error) :
  searchJobs jargs q b maxResults resultTypes patternInfo = Err e ->
  (DefaultGlobalQueryScope
     (toRepoOptions q (SearchInputs.UserSettings (SearchInputs jargs)))
   = Err e
   \/ exists typ,
        QueryToZoektQuery patternInfo
          (toFeatures (SearchInputs.Features (SearchInputs jargs))) typ
        = Err e)
  /\ (result.Has resultTypes
        (Z.lor (Z.lor result.TypeFile result.TypePath) result.TypeSymbol)
      = true
      \/ SearchInputs.PatternType (SearchInputs jargs)
         = SearchTypeStructural).
Proof.
  unfold searchJobs.
  destruct (jobMode _ _ _ _) as [[universe skip] only] eqn:Hmode.
  apply jobMode_universe in Hmode. destruct Hmode as (_ & _ & Hglobal & _).
  res_unfold. intros H. rewrite !Has_lor.
  destruct (universeSearchJobs _ _ _ _ _ _ _ _) as [bs1|e1] eqn:H1.
  2: { injection H as ->. apply universeSearchJobs_Err in H1.
       destruct H1 as [Hu Hfails]. split; [exact Hfails|]. left.
       rewrite <- !Has_lor. apply Hglobal, Hu. }
  destruct (textSearchJobs _ _ _ _ _ _ _ _ _ _) as [bs2|e2] eqn:H2.
  2: { injection H as ->. apply textSearchJobs_Err in H2.
       destruct H2 as [Hhas Hfails]. split; [exact Hfails|]. left.
       rewrite Has_lor in Hhas. rewrite Hhas. reflexivity. }
  destruct (symbolSearchJobs _ _ _ _ _ _ _ _ _ _ _) as [bs3|e3] eqn:H3.
  2: { injection H as ->. apply symbolSearchJobs_Err in H3.
       destruct H3 as [Hhas Hfails]. split; [exact Hfails|]. left.
       rewrite Hhas. apply orb_true_r. }
  destruct (structuralSearchJobs _ _ _ _ _ _ _ _) as [bs5|e5] eqn:H5.
  2: { injection H as ->. apply structuralSearchJobs_Err in H5.
       destruct H5 as [Hst Hfails]. split; [exact Hfails|]. right.
       exact Hst. }
  discriminate.
Qed.

(** X10: a failure of [ToSearchJob] is the error of [ToBasicQuery], with
    the arguments untouched, or the error of the default scope or of a
    translation of the pattern for the index, after the fallback.  The
    second never happens to a search that asks for no file, path or symbol
    results and is not structural. *)
Theorem ToSearchJob_error_origin (q : Q) (jargs jargs' : Args) (e : error) :
  ToSearchJob q jargs = (Err e, jargs') ->
  (ToBasicQuery q = Err e /\ jargs' = jargs)
  \/ exists b,
       ToBasicQuery q = Ok b
       /\ jargs'
          = (emptyPatternFallback jargs (computedPatternInfo jargs q b)).1
       /\ (DefaultGlobalQueryScope
             (toRepoOptions q (SearchInputs.UserSettings (SearchInputs jargs)))
           = Err e
           \/ exists typ,
                QueryToZoektQuery
                  (emptyPatternFallback jargs
                     (computedPatternInfo jargs q b)).2
                  (toFeatures (SearchInputs.Features (SearchInputs jargs)))
                  typ
                = Err e)
       /\ (result.Has (computedResultTypes jargs q b)
             (Z.lor (Z.lor result.TypeFile result.TypePath)
                result.TypeSymbol)
           = true
           \/ SearchInputs.PatternType (SearchInputs jargs')
              = SearchTypeStructural).
Proof.
  unfold ToSearchJob. cbv zeta. intros H.
  destruct (ToBasicQuery q) as [b|e0]; [|left; split; congruence].
  right. exists b.
  pose proof (fallback_inputs jargs (computedPatternInfo jargs q b))
    as (_ & Hfeatures & Hsettings & _).
  destruct (emptyPatternFallback jargs (computedPatternInfo jargs q b))
    as [jargs1 patternInfo]. cbn [fst snd] in *.
  destruct (searchJobs _ _ _ _ _ _) as [[required optional]|e1] eqn:Hjobs;
    [discriminate|].
  injection H as -> ->. apply searchJobs_Err in Hjobs.
  rewrite Hfeatures, Hsettings in Hjobs. tauto.
Qed.

(** After a successful [ToBasicQuery], [ToSearchJob] fails only with the
    error of the default scope or of a translation of the pattern info for
    the index. *)
Lemma ToSearchJob_translation_error (q : Q) (jargs jargs' : Args) (b : Basic)
    (e : error) :
  ToBasicQuery q = Ok b ->
  ToSearchJob q jargs = (Err e, jargs') ->
  DefaultGlobalQueryScope
    (toRepoOptions q (SearchInputs.UserSettings (SearchInputs jargs)))
  = Err e
  \/ exists typ,
       QueryToZoektQuery
         (emptyPatternFallback jargs (computedPatternInfo jargs q b)).2
         (toFeatures (SearchInputs.Features (SearchInputs jargs))) typ
       = Err e.
Proof.
  unfold ToSearchJob. cbv zeta. intros Hb H. rewrite Hb in H.
  pose proof (fallback_inputs jargs (computedPatternInfo jargs q b))
    as (_ & Hfeatures & Hsettings & _).
  destruct (emptyPatternFallback jargs (computedPatternInfo jargs q b))
    as [jargs1 patternInfo]. cbn [fst snd] in *.
  destruct (searchJobs _ _ _ _ _ _) as [[required optional]|e1] eqn:Hjobs;
    [discriminate|].
  injection H as -> ->. apply searchJobs_Err in Hjobs.
  rewrite Hfeatures, Hsettings in Hjobs. tauto.
Qed.

(** *** The allow-list of the repo search and the outcome of the
    compilation *)

(** C5 (as amended): a [RepoSearch] job is in the compiled tree only if
    every parameter field of the query is on the allow-list, so when some
    field is off the list no [RepoSearch] job is added.  The fields of the
    query raise no error: whatever they are, the compilation of a query
    that [ToBasicQuery] accepts returns a tree whenever the default scope
    and the translations of the pattern for the index succeed, and it
    fails only with an error of theirs. *)
Theorem repo_search_only_for_allowlisted_fields (q : Q) (jargs : Args) :
  (forall job jargs' required optional j,
     ToSearchJob q jargs = (Ok job, jargs') ->
     bucketsOf job = Some (required, optional) ->
     In j (required ++ optional) ->
     isRepoSearch j = true ->
     Forall (fun p => Field p ∈ fieldAllowlist) (parametersOf q))
  /\ (forall p job jargs' required optional,
        In p (parametersOf q) ->
        Field p ∉ fieldAllowlist ->
        ToSearchJob q jargs = (Ok job, jargs') ->
        bucketsOf job = Some (required, optional) ->
        Forall (fun j => isRepoSearch j = false) (required ++ optional))
  /\ (forall b,
        ToBasicQuery q = Ok b ->
        let fallback :=
          emptyPatternFallback jargs (computedPatternInfo jargs q b) in
        let features :=
          toFeatures (SearchInputs.Features (SearchInputs jargs)) in
        let repoOptions :=
          toRepoOptions q (SearchInputs.UserSettings (SearchInputs jargs)) in
        (isOk (DefaultGlobalQueryScope repoOptions) = true ->
         isOk (QueryToZoektQuery fallback.2 features TextRequest) = true ->
         isOk (QueryToZoektQuery fallback.2 features SymbolRequest) = true ->
         exists job, ToSearchJob q jargs = (Ok job, fallback.1))
        /\ (forall e jargs',
              ToSearchJob q jargs = (Err e, jargs') ->
              DefaultGlobalQueryScope repoOptions = Err e
              \/ exists typ,
                   QueryToZoektQuery fallback.2 features typ = Err e)).
Proof.
  assert (Hrepo : forall job jargs' required optional j,
             ToSearchJob q jargs = (Ok job, jargs') ->
             bucketsOf job = Some (required, optional) ->
             In j (required ++ optional) ->
             isRepoSearch j = true ->
             Forall (fun p => Field p ∈ fieldAllowlist) (parametersOf q)).
  { intros job jargs' required optional j H Hbuckets Hj Hrepo.
    apply valid_iff. apply ToSearchJob_Ok in H.
    destruct H as (b & required' & optional' & Hb & -> & Hjobs & ->).
    rewrite bucketsOf_filterWrapper in Hbuckets. injection Hbuckets as -> ->.
    apply searchJobs_inv in Hjobs.
    destruct Hjobs as (required0 & -> & Hreq & Hopt).
    rewrite List.Forall_forall in Hreq, Hopt.
    rewrite <- app_assoc in Hj.
    apply in_app_or in Hj. destruct Hj as [Hj|Hj].
    - apply Hreq in Hj. destruct Hj as (_ & Hvalid & _). apply Hvalid, Hrepo.
    - destruct Hj as [<-|Hj]; [discriminate|].
      apply Hopt in Hj. destruct Hj as (_ & Hno & _). congruence. }
  split; [exact Hrepo|]. split.
  - intros p job jargs' required optional Hp Hoff H Hbuckets.
    apply List.Forall_forall. intros j Hj.
    destruct (isRepoSearch j) eqn:Hj'; [|reflexivity].
    exfalso. apply Hoff.
    pose proof (Hrepo _ _ _ _ _ H Hbuckets Hj Hj') as Hall.
    rewrite List.Forall_forall in Hall. apply Hall, Hp.
  - intros b Hb fallback features repoOptions. split.
    + apply (ToSearchJob_succeeds q jargs b Hb).
    + intros e jargs' H.
      apply (ToSearchJob_translation_error q jargs jargs' b e Hb H).
Qed.


Lemma failsInToSearchJob_ret {A : Type} (queries : list Q) (a : A) :
  failsInToSearchJob queries (mret a).
Proof. intros args e args' H. discriminate. Qed.

Lemma failsInToSearchJob_mono {A : Type} (queries queries' : list Q)
    (m : M A) :
  (forall q, In q queries -> In q queries') ->
  failsInToSearchJob queries m -> failsInToSearchJob queries' m.
Proof.
  intros Hsub Hm args e args' H.
  destruct (Hm _ _ _ H) as (q & jargs & Hq & Hstore & Hcall).
  exists q, jargs. auto.
Qed.

Lemma failsInToSearchJob_bind {A B : Type} (queries : list Q) (m : M A)
    (k : A -> M B) :
  failsInToSearchJob queries m ->
  writesOnlyLiteral m ->
  (forall a, failsInToSearchJob queries (k a)) ->
  failsInToSearchJob queries (m ≫= k).
Proof.
  intros Hm Hwrites Hk args e args'. unfold mbind, M_bind.
  specialize (Hwrites args).
  destruct (m args) as [[a|e0] args1] eqn:Hrun; cbn [snd] in Hwrites.
  - intros H. destruct (Hk a _ _ _ H) as (q & jargs & Hq & Hstore & Hcall).
    exists q, jargs. split; [exact Hq|]. split; [|exact Hcall].
    destruct Hwrites as [->| ->]; [exact Hstore|].
    destruct Hstore as [->| ->]; right; reflexivity.
  - intros [= -> ->]. apply (Hm _ _ _ Hrun).
Qed.

Lemma failsInToSearchJob_ToSearchJob (q : Q) :
  failsInToSearchJob [q] (ToSearchJob q).
Proof.
  intros args e args' H. exists q, args.
  split; [left; reflexivity|]. split; [left; reflexivity|exact H].
Qed.

Lemma failsInToSearchJob_andOperands (queries : Node -> list Q)
    (compile : Node -> M Job) (queryOperands : list Node) :
  Forall (fun operand =>
            failsInToSearchJob (queries operand) (compile operand)
            /\ writesOnlyLiteral (compile operand))
         queryOperands ->
  failsInToSearchJob (flat_map queries queryOperands)
    (andOperands compile queryOperands).
Proof.
  induction 1 as [|operand rest [Hoperand Hwrites] Hrest IH];
    cbn [andOperands flat_map].
  - apply failsInToSearchJob_ret.
  - apply failsInToSearchJob_bind.
    + eapply failsInToSearchJob_mono; [|exact Hoperand].
      intros q Hq. apply in_or_app. left. exact Hq.
    + exact Hwrites.
    + intros job. apply failsInToSearchJob_bind.
      * eapply failsInToSearchJob_mono; [|exact IH].
        intros q Hq. apply in_or_app. right. exact Hq.
      * apply writesOnlyLiteral_andOperands.
        eapply Forall_impl; [exact Hrest|]. intros ? [_ ?]. assumption.
      * intros jobs. apply failsInToSearchJob_ret.
Qed.

Lemma failsInToSearchJob_orOperands (queries : Node -> list Q)
    (compile : Node -> M Job) (queryOperands : list Node) :
  Forall (fun operand =>
            failsInToSearchJob (queries operand) (compile operand)
            /\ writesOnlyLiteral (compile operand))
         queryOperands ->
  failsInToSearchJob (flat_map queries queryOperands)
    (orOperands compile queryOperands).
Proof.
  induction 1 as [|operand rest [Hoperand Hwrites] Hrest IH];
    cbn [orOperands flat_map].
  - apply failsInToSearchJob_ret.
  - apply failsInToSearchJob_bind.
    + eapply failsInToSearchJob_mono; [|exact Hoperand].
      intros q Hq. apply in_or_app. left. exact Hq.
    + exact Hwrites.
    + intros job. apply failsInToSearchJob_bind.
      * eapply failsInToSearchJob_mono; [|exact IH].
        intros q Hq. apply in_or_app. right. exact Hq.
      * apply writesOnlyLiteral_orOperands.
        eapply Forall_impl; [exact Hrest|]. intros ? [_ ?]. assumption.
      * intros jobs. apply failsInToSearchJob_ret.
Qed.

Lemma map_flat_map {A B C : Type} (f : B -> C) (g : A -> list B)
    (l : list A) :
  map f (flat_map g l) = flat_map (fun a => map f (g a)) l.
Proof.
  induction l as [|a l IH]; [reflexivity|].
  cbn [flat_map]. rewrite map_app, IH. reflexivity.
Qed.

Lemma failsInToSearchJob_compilePattern (parameters : list Parameter_)
    (term : Node) :
  failsInToSearchJob
    (map (fun t =>
            Basic_ToParseTree
              {| Parameters := parameters; Pattern := Some t |})
       (searchTerms term))
    (compilePattern parameters term).
Proof.
  induction term as [p|value negated|kind operands IH] using Node_ind_nested;
    cbn [compilePattern].
  - apply failsInToSearchJob_ret.
  - apply failsInToSearchJob_ToSearchJob.
  - case_bool_decide as Hempty; [apply failsInToSearchJob_ret|].
    assert (Hall : Forall
                     (fun operand =>
                        failsInToSearchJob
                          (map (fun t =>
                                  Basic_ToParseTree
                                    {| Parameters := parameters;
                                       Pattern := Some t |})
                             (searchTerms operand))
                          (compilePattern parameters operand)
                        /\ writesOnlyLiteral
                             (compilePattern parameters operand))
                     operands).
    { eapply Forall_impl; [exact IH|]. intros operand Hoperand.
      split; [exact Hoperand|apply writesOnlyLiteral_compilePattern]. }
    destruct operands as [|operand rest]; [contradiction|].
    destruct kind; cbn [searchTerms]; rewrite ?map_flat_map.
    + apply failsInToSearchJob_bind.
      * apply failsInToSearchJob_orOperands, Hall.
      * apply writesOnlyLiteral_orOperands.
        eapply Forall_impl; [exact Hall|]. intros ? [_ ?]. assumption.
      * intros jobs. apply failsInToSearchJob_ret.
    + apply failsInToSearchJob_bind.
      * apply failsInToSearchJob_andOperands, Hall.
      * apply writesOnlyLiteral_andOperands.
        eapply Forall_impl; [exact Hall|]. intros ? [_ ?]. assumption.
      * intros jobs. apply failsInToSearchJob_ret.
    + apply failsInToSearchJob_ToSearchJob.
Qed.

Lemma failsInToSearchJob_ToEvaluateJob (q : Basic) :
  failsInToSearchJob (searchQueries q) (ToEvaluateJob q).
Proof.
  unfold ToEvaluateJob, searchQueries. apply failsInToSearchJob_bind.
  - intros args e args' H. discriminate.
  - intros args. left. reflexivity.
  - intros args. apply failsInToSearchJob_bind.
    + unfold toPatternExpressionJob. destruct (Pattern q).
      * apply failsInToSearchJob_compilePattern.
      * apply failsInToSearchJob_ToSearchJob.
    + unfold toPatternExpressionJob. destruct (Pattern q).
      * apply writesOnlyLiteral_compilePattern.
      * apply writesOnlyLiteral_ToSearchJob.
    + intros job. apply failsInToSearchJob_ret.
Qed.

Lemma writesOnlyLiteral_planChildren (plan : Plan) :
  writesOnlyLiteral (planChildren plan).
Proof.
  induction plan as [|q rest IH]; cbn [planChildren].
  - apply writesOnlyLiteral_ret.
  - apply writesOnlyLiteral_bind; [apply writesOnlyLiteral_ToEvaluateJob|].
    intros child. apply writesOnlyLiteral_bind; [exact IH|].
    intros children. apply writesOnlyLiteral_ret.
Qed.

Lemma failsInToSearchJob_planChildren (plan : Plan) :
  failsInToSearchJob (flat_map searchQueries plan) (planChildren plan).
Proof.
  induction plan as [|q rest IH]; cbn [planChildren flat_map].
  - apply failsInToSearchJob_ret.
  - apply failsInToSearchJob_bind.
    + eapply failsInToSearchJob_mono;
        [|apply failsInToSearchJob_ToEvaluateJob].
      intros q0 Hq. apply in_or_app. left. exact Hq.
    + apply writesOnlyLiteral_ToEvaluateJob.
    + intros child. apply failsInToSearchJob_bind.
      * eapply failsInToSearchJob_mono; [|exact IH].
        intros q0 Hq. apply in_or_app. right. exact Hq.
      * apply writesOnlyLiteral_planChildren.
      * intros children. apply failsInToSearchJob_ret.
Qed.

(** X11: every failure of [FromExpandedPlan] is the failure of a call of
    [ToSearchJob] that the compilation makes: the call is on a query that
    the compilation of some basic query of the plan hands to
    [ToSearchJob] (the parameters of a basic query without pattern, or the
    basic query with a pattern leaf or a concatenation of its pattern
    expression as its pattern), it starts from the arguments of
    [FromExpandedPlan] or from these with the pattern type set to literal,
    and its error and its final store are those that [FromExpandedPlan]
    returns.  So [FromExpandedPlan] returns no error other than the error
    of such a call. *)
Theorem FromExpandedPlan_fails_in_ToSearchJob (plan : Plan)
    (args args' : Args) (e : error) :
  FromExpandedPlan plan args = (Err e, args') ->
  exists basic q jargs,
    In basic plan
    /\ In q (searchQueries basic)
    /\ (jargs = args \/ jargs = setPatternType args SearchTypeLiteral)
    /\ ToSearchJob q jargs = (Err e, args').
Proof.
  intros H.
  assert (Hfails : failsInToSearchJob (flat_map searchQueries plan)
                     (FromExpandedPlan plan)).
  { unfold FromExpandedPlan. apply failsInToSearchJob_bind.
    - apply failsInToSearchJob_planChildren.
    - apply writesOnlyLiteral_planChildren.
    - intros children. apply failsInToSearchJob_bind.
      + intros args0 e0 args0' H0. discriminate.
      + intros args0. left. reflexivity.
      + intros args0. apply failsInToSearchJob_ret. }
  destruct (Hfails _ _ _ H) as (q & jargs & Hq & Hstore & Hcall).
  apply in_flat_map in Hq. destruct Hq as (basic & Hbasic & Hq).
  exists basic, q, jargs. auto.
Qed.

Lemma planChildren_Err (plan : Plan) (args args' : Args) (e : error) :
  planChildren plan args = (Err e, args')
  <-> exists done q rest children args1,
        plan = done ++ q :: rest
        /\ planChildren done args = (Ok children, args1)
        /\ ToEvaluateJob q args1 = (Err e, args').
Proof.
  revert args. induction plan as [|q rest IH]; intros args;
    cbn [planChildren].
  - split; [discriminate|].
    intros (done & ? & ? & ? & ? & Hplan & _). destruct done; discriminate.
  - unfold mbind, M_bind.
    destruct (ToEvaluateJob q args) as [[child|e0] args1] eqn:Hq.
    + destruct (planChildren rest args1) as [[children|e1] args2] eqn:Hrest.
      * split; [discriminate|].
        intros ([|q0 done] & q1 & rest1 & children1 & args3 & Hplan & Hdone
                & Hfail).
        { cbn in Hplan, Hdone. injection Hplan as <- <-.
          injection Hdone as <- <-. congruence. }
        cbn [app planChildren] in Hplan, Hdone. injection Hplan as <- ->.
        unfold mbind, M_bind in Hdone. rewrite Hq in Hdone.
        assert (Hex : planChildren (done ++ q1 :: rest1) args1
                      = (Err e, args')).
        { apply IH.
          destruct (planChildren done args1) as [[children0|] args4] eqn:Hd;
            [|discriminate].
          exists done, q1, rest1, children0, args4.
          injection Hdone as <- <-. auto. }
        congruence.
      * split.
        -- intros [= -> ->]. apply IH in Hrest.
           destruct Hrest as (done & q1 & rest1 & children1 & args3 & -> & Hdone
                              & Hfail).
           exists (q :: done), q1, rest1, (child :: children1), args3.
           split; [reflexivity|]. split; [|exact Hfail].
           cbn [planChildren]. unfold mbind, M_bind. rewrite Hq, Hdone.
           reflexivity.
        -- intros ([|q0 done] & q1 & rest1 & children1 & args3 & Hplan & Hdone
                   & Hfail).
           { cbn in Hplan, Hdone. injection Hplan as <- <-.
             injection Hdone as <- <-. congruence. }
           cbn [app planChildren] in Hplan, Hdone. injection Hplan as <- ->.
           unfold mbind, M_bind in Hdone. rewrite Hq in Hdone.
           destruct (planChildren done args1) as [[children0|] args4] eqn:Hd;
             [|discriminate].
           injection Hdone as <- <-.
           assert (Hex : planChildren (done ++ q1 :: rest1) args1
                         = (Err e, args')).
           { apply IH. exists done, q1, rest1, children0, args4. auto. }
           congruence.
    + split.
      * intros [= -> ->]. exists [], q, rest, [], args. auto.
      * intros ([|q0 done] & q1 & rest1 & children1 & args3 & Hplan & Hdone
                & Hfail).
        { cbn in Hplan, Hdone. injection Hplan as <- <-.
          injection Hdone as <- <-. congruence. }
        cbn [app planChildren] in Hplan, Hdone. injection Hplan as <- ->.
        unfold mbind, M_bind in Hdone. rewrite Hq in Hdone. discriminate.
Qed.

(** X12: [FromExpandedPlan] fails exactly when some basic query of the
    plan fails to compile after all the queries before it compiled, from
    the store they left; it returns the error and the store of that query,
    and the queries after it are not compiled. *)
Theorem FromExpandedPlan_stops_at_first_error (plan : Plan)
    (args args' : Args) (e : error) :
  FromExpandedPlan plan args = (Err e, args')
  <-> exists done q rest children args1,
        plan = done ++ q :: rest
        /\ planChildren done args = (Ok children, args1)
        /\ ToEvaluateJob q args1 = (Err e, args').
Proof.
  rewrite <- planChildren_Err. unfold FromExpandedPlan, mbind, M_bind.
  destruct (planChildren plan args) as [[children|e0] args1].
  - cbn. split; discriminate.
  - split; intros [= -> ->]; reflexivity.
Qed.

(** X13: whether it succeeds or fails, [FromExpandedPlan] leaves the
    index client, the searcher endpoints and every field of the search
    inputs as they were, except the pattern type, which it leaves as it was
    or sets to literal. *)
Theorem FromExpandedPlan_frame (plan : Plan) (args : Args) :
  let args' := (FromExpandedPlan plan args).2 in
  Zoekt args' = Zoekt args
  /\ SearcherURLs args' = SearcherURLs args
  /\ SearchInputs.Protocol (SearchInputs args')
     = SearchInputs.Protocol (SearchInputs args)
  /\ SearchInputs.Features (SearchInputs args')
     = SearchInputs.Features (SearchInputs args)
  /\ SearchInputs.UserSettings (SearchInputs args')
     = SearchInputs.UserSettings (SearchInputs args)
  /\ SearchInputs.OnSourcegraphDotCom (SearchInputs args')
     = SearchInputs.OnSourcegraphDotCom (SearchInputs args)
  /\ (SearchInputs.PatternType (SearchInputs args')
      = SearchInputs.PatternType (SearchInputs args)
      \/ SearchInputs.PatternType (SearchInputs args') = SearchTypeLiteral).
Proof.
  cbv zeta.
  destruct (writesOnlyLiteral_FromExpandedPlan plan args) as [-> | ->];
    cbn; tauto.
Qed.


(** *** One [ComputeExcludedRepos] job per search *)

Lemma ToSearchJob_count (q : Q) (jargs jargs' : Args) (job : Job) :
  ToSearchJob q jargs = (Ok job, jargs') ->
  countExcludedRepos job = 1%nat.
Proof.
  intros H. apply ToSearchJob_Ok in H.
  destruct H as (b & required & optional & _ & _ & Hjobs & ->).
  apply searchJobs_inv in Hjobs.
  destruct Hjobs as (required0 & -> & Hreq & Hopt).
  rewrite countExcludedRepos_filterWrapper.
  unfold NewPriorityJob, NewParallelJob.
  rewrite countExcludedRepos_Priority, countExcludedRepos_last,
    countExcludedRepos_zero; [reflexivity| |].
  - eapply Forall_impl; [exact Hopt|]. intros j Hj. apply Hj.
  - eapply Forall_impl; [exact Hreq|]. intros j Hj. apply Hj.
Qed.

Lemma countExcludedRepos_Or (jobs : list Job) :
  countExcludedRepos (OrJob jobs)
  = foldr (fun j n => (countExcludedRepos j + n)%nat) 0%nat jobs.
Proof.
  induction jobs as [|j jobs IH]; [reflexivity|].
  cbn [foldr]. rewrite <- IH. reflexivity.
Qed.

Lemma countExcludedRepos_And_limited (limit : Z) (jobs : list Job) :
  countExcludedRepos (AndJob (map (NewLimitJob limit) jobs))
  = foldr (fun j n => (countExcludedRepos j + n)%nat) 0%nat jobs.
Proof.
  induction jobs as [|j jobs IH]; [reflexivity|].
  cbn [foldr map]. rewrite <- IH. reflexivity.
Qed.

Lemma searchLeaves_operands (kind : operatorKind) (operands : list Node) :
  kind <> Concat ->
  searchLeaves (NOperator kind operands)
  = foldr (fun t n => (searchLeaves t + n)%nat) 0%nat operands.
Proof.
  intros Hkind. destruct operands as [|operand rest]; [reflexivity|].
  destruct kind; [reflexivity|reflexivity|contradiction].
Qed.

Lemma Compiled_count (compile : Node -> M Job) (queryOperands : list Node)
    (args args' : Args) (operands : list Job) :
  Forall (fun operand => forall args job args',
            compile operand args = (Ok job, args') ->
            countExcludedRepos job = searchLeaves operand)
         queryOperands ->
  Compiled compile queryOperands args operands args' ->
  foldr (fun j n => (countExcludedRepos j + n)%nat) 0%nat operands
  = foldr (fun t n => (searchLeaves t + n)%nat) 0%nat queryOperands.
Proof.
  intros Hall Hcompiled.
  induction Hcompiled as [|operand rest args job args1 jobs args2 Hterm _ IH];
    [reflexivity|].
  apply Forall_cons in Hall. destruct Hall as [Hoperand Hrest].
  cbn [foldr]. rewrite (Hoperand _ _ _ Hterm), (IH Hrest). reflexivity.
Qed.

Lemma compilePattern_count (parameters : list Parameter_) (term : Node) :
  forall args job args',
    compilePattern parameters term args = (Ok job, args') ->
    countExcludedRepos job = searchLeaves term.
Proof.
  induction term as [p|value negated|kind operands IH] using Node_ind_nested;
    intros args job args'; cbn [compilePattern].
  - intros [= <- <-]. reflexivity.
  - apply ToSearchJob_count.
  - case_bool_decide as Hempty.
    { intros [= <- <-]. destruct operands; [reflexivity|discriminate]. }
    destruct kind.
    + unfold mbind, M_bind.
      destruct (orOperands _ _ _) as [[jobs|] args1] eqn:Hrun; [|discriminate].
      intros [= <- <-]. apply orOperands_Ok in Hrun.
      rewrite searchLeaves_operands by discriminate.
      unfold NewOrJob. rewrite countExcludedRepos_Or.
      exact (Compiled_count _ _ _ _ _ IH Hrun).
    + unfold mbind, M_bind.
      destruct (andOperands _ _ _) as [[jobs|] args1] eqn:Hrun; [|discriminate].
      intros [= <- <-]. apply andOperands_Ok in Hrun.
      destruct Hrun as (compiled & Hrun & ->).
      rewrite searchLeaves_operands by discriminate.
      unfold NewAndJob. rewrite countExcludedRepos_And_limited.
      exact (Compiled_count _ _ _ _ _ IH Hrun).
    + intros H. apply ToSearchJob_count in H. rewrite H.
      destruct operands; [contradiction|reflexivity].
Qed.

Lemma ToEvaluateJob_count (q : Basic) (args args' : Args) (job : Job) :
  ToEvaluateJob q args = (Ok job, args') ->
  countExcludedRepos job = basicSearchLeaves q.
Proof.
  unfold ToEvaluateJob, basicSearchLeaves, mbind, M_bind, mret, M_ret, getArgs.
  intros H. destruct (Pattern q) as [term|] eqn:Hq.
  - unfold toPatternExpressionJob in H. rewrite Hq in H.
    destruct (compilePattern _ _ _) as [[tree|] args1] eqn:Htree;
      [|discriminate].
    injection H as <- <-. apply compilePattern_count in Htree.
    destruct (negb _); exact Htree.
  - destruct (ToSearchJob _ _) as [[tree|] args1] eqn:Htree; [|discriminate].
    injection H as <- <-. apply ToSearchJob_count in Htree.
    destruct (negb _); exact Htree.
Qed.

(** X14: the tree [FromExpandedPlan] returns holds one
    [ComputeExcludedRepos] job for every call of [ToSearchJob] the
    compilation made: one per basic query without pattern, and one per
    pattern leaf and per concatenation of the pattern expressions. *)
Theorem plan_tree_counts_one_excluded_repos_job_per_search (plan : Plan)
    (args args' : Args) (job : Job) :
  FromExpandedPlan plan args = (Ok job, args') ->
  countExcludedRepos job
  = foldr (fun q n => (basicSearchLeaves q + n)%nat) 0%nat plan.
Proof.
  unfold FromExpandedPlan, mbind, M_bind, mret, M_ret, getArgs. intros H.
  destruct (planChildren plan args) as [[children|] args1] eqn:Hrun;
    [|discriminate].
  injection H as <- <-. unfold NewAlertJob, NewOrJob.
  change (countExcludedRepos (OrJob children)
          = foldr (fun q n => (basicSearchLeaves q + n)%nat) 0%nat plan).
  rewrite countExcludedRepos_Or.
  revert args children args1 Hrun.
  induction plan as [|q rest IH]; intros args children args1;
    cbn [planChildren].
  - intros [= <- <-]. reflexivity.
  - unfold mbind, M_bind.
    destruct (ToEvaluateJob q args) as [[child|] args2] eqn:Hq; [|discriminate].
    destruct (planChildren rest args2) as [[children'|] args3] eqn:Hrest;
      [|discriminate].
    intros [= <- <-]. cbn [foldr].
    rewrite (ToEvaluateJob_count _ _ _ _ Hq), (IH _ _ _ Hrest). reflexivity.
Qed.


(** *** The repository options of the jobs *)

Ltac options_appended :=
  first
    [ assumption
    | apply Forall_app; split; [options_appended|];
      constructor; [|constructor];
      unfold jobOptions; cbn [jobRepoOptions repoSearchOptions];
      split; intros; simplify_eq/=; auto ].

Ltac block_options :=
  let required := fresh "required" in
  let optional := fresh "optional" in
  intros [required optional] ? [? ?]; cbn [fst snd] in *;
  res_unfold; unfold addJob in *;
  repeat (case_match; simplify_eq/=); res_unfold; simplify_eq/=;
  intros; simplify_eq/=;
  split; options_appended.

Section Options.

Variables (jargs : Args) (q : Q) (b : Basic).
Variables (maxResults : Z) (resultTypes : result.Types).
Variables (patternInfo : TextPatternInfo.t) (useFullDeadline : bool).
Variables (features : search.Features) (repoOptions : RepoOptions.t).
Variables (universe skip only : bool).

#[local] Abbreviation Options := (jobOptions q patternInfo repoOptions).

Lemma universeSearchJobs_options :
  forall bs bs',
    Forall Options bs.1 /\ Forall Options bs.2 ->
    universeSearchJobs jargs maxResults resultTypes patternInfo features
      repoOptions universe bs = Ok bs' ->
    Forall Options bs'.1 /\ Forall Options bs'.2.
Proof. unfold universeSearchJobs. block_options. Qed.

Lemma textSearchJobs_options :
  forall bs bs',
    Forall Options bs.1 /\ Forall Options bs.2 ->
    textSearchJobs jargs q resultTypes patternInfo useFullDeadline features
      repoOptions skip only bs = Ok bs' ->
    Forall Options bs'.1 /\ Forall Options bs'.2.
Proof. unfold textSearchJobs. block_options. Qed.

Lemma symbolSearchJobs_options :
  forall bs bs',
    Forall Options bs.1 /\ Forall Options bs.2 ->
    symbolSearchJobs jargs q maxResults resultTypes patternInfo
      useFullDeadline features repoOptions skip only bs = Ok bs' ->
    Forall Options bs'.1 /\ Forall Options bs'.2.
Proof. unfold symbolSearchJobs. block_options. Qed.

Lemma commitSearchJobs_options :
  forall bs bs',
    Forall Options bs.1 /\ Forall Options bs.2 ->
    commitSearchJobs q b resultTypes patternInfo useFullDeadline repoOptions
      bs = bs' ->
    Forall Options bs'.1 /\ Forall Options bs'.2.
Proof. unfold commitSearchJobs. block_options. Qed.

Lemma structuralSearchJobs_options :
  forall bs bs',
    Forall Options bs.1 /\ Forall Options bs.2 ->
    structuralSearchJobs jargs q patternInfo useFullDeadline features
      repoOptions only bs = Ok bs' ->
    Forall Options bs'.1 /\ Forall Options bs'.2.
Proof. unfold structuralSearchJobs. block_options. Qed.

Lemma repoSearchJobs_options :
  forall bs bs',
    Forall Options bs.1 /\ Forall Options bs.2 ->
    repoSearchJobs jargs q resultTypes patternInfo useFullDeadline features
      repoOptions universe skip bs = bs' ->
    Forall Options bs'.1 /\ Forall Options bs'.2.
Proof. unfold repoSearchJobs. block_options. Qed.

End Options.

Lemma searchJobs_options (jargs : Args) (q : Q) (b : Basic) (maxResults : Z)
    (resultTypes : result.Types) (patternInfo : TextPatternInfo.t)
    (required optional : list Job) :
  searchJobs jargs q b maxResults resultTypes patternInfo
  = Ok (required, optional) ->
  Forall (jobOptions q patternInfo
            (toRepoOptions q (SearchInputs.UserSettings (SearchInputs jargs))))
         (required ++ optional).
Proof.
  unfold searchJobs.
  destruct (jobMode _ _ _ _) as [[universe skip] only].
  res_unfold. intros H.
  destruct (universeSearchJobs _ _ _ _ _ _ _ _) as [bs1|] eqn:H1;
    [|discriminate].
  apply (universeSearchJobs_options _ q) in H1; [|split; constructor].
  destruct (textSearchJobs _ _ _ _ _ _ _ _ _ _) as [bs2|] eqn:H2;
    [|discriminate].
  apply textSearchJobs_options in H2; [|exact H1].
  destruct (symbolSearchJobs _ _ _ _ _ _ _ _ _ _ _) as [bs3|] eqn:H3;
    [|discriminate].
  apply symbolSearchJobs_options in H3; [|exact H2].
  match type of H with
  | context [commitSearchJobs ?a ?b ?c ?d ?e ?f ?bs] =>
      pose proof (commitSearchJobs_options a b c d e f bs _ H3 eq_refl) as H4
  end.
  destruct (structuralSearchJobs _ _ _ _ _ _ _ _) as [bs5|] eqn:H5;
    [|discriminate].
  apply structuralSearchJobs_options in H5; [|exact H4].
  match type of H with
  | context [repoSearchJobs ?a ?b ?c ?d ?e ?f ?g ?h ?i ?bs] =>
      pose proof (repoSearchJobs_options a b c d e f g h i bs _ H5 eq_refl)
        as H6;
      destruct (repoSearchJobs a b c d e f g h i bs) as [r o]
  end.
  unfold addJob in H. cbn [fst snd] in *. injection H as <- <-.
  destruct H6 as [Hr Ho]. rewrite !Forall_app. split_and!; try assumption.
  repeat constructor; cbn; intros; simplify_eq/=; reflexivity.
Qed.

(** X19: every job in the slices of a compiled query that carries
    repository options carries the options [toRepoOptions] computes for
    the query, which are those of the [ComputeExcludedRepos] job; only the
    [RepoSearch] job carries other ones: those that
    [addPatternAsRepoFilter] returns for the pattern of the query. *)
Theorem jobs_share_the_repo_options (q : Q) (jargs jargs' : Args) (job : Job)
    (b : Basic) (required optional : list Job) :
  ToSearchJob q jargs = (Ok job, jargs') ->
  bucketsOf job = Some (required, optional) ->
  ToBasicQuery q = Ok b ->
  let repoOptions :=
    toRepoOptions q (SearchInputs.UserSettings (SearchInputs jargs)) in
  let patternInfo :=
    (emptyPatternFallback jargs (computedPatternInfo jargs q b)).2 in
  Forall (fun j =>
            (forall options, jobRepoOptions j = Some options ->
               options = repoOptions)
            /\ (forall options, repoSearchOptions j = Some options ->
                  addPatternAsRepoFilter q
                    (TextPatternInfo.Pattern patternInfo) repoOptions
                  = (options, true)))
         (required ++ optional).
Proof.
  intros H Hb Hbasic repoOptions patternInfo.
  destruct (ToSearchJob_slices _ _ _ _ _ _ H Hb)
    as (b' & Hbasic' & Hstore & Hjobs).
  rewrite Hbasic in Hbasic'. injection Hbasic' as <-.
  apply searchJobs_options in Hjobs.
  assert (Hsettings : SearchInputs.UserSettings (SearchInputs jargs')
                      = SearchInputs.UserSettings (SearchInputs jargs)).
  { rewrite Hstore. apply fallback_inputs. }
  rewrite Hsettings in Hjobs. exact Hjobs.
Qed.

End FurtherCompilerProperties.

(** * Two compilations of one plan

    The compiler reads the service handles of its arguments only to store
    them in the jobs it builds; every decision it takes rests on the
    search inputs and on the query.  Its loops range over slices (the
    operands of an operator, the basic queries of a plan), and its one
    map, the allow-list of fields, is only looked up, so the order of the
    jobs is fixed by the query. *)

Section TwoRuns.

Context {backends : Backends} {env : Env}.

Import query search.

Ltac same_slices :=
  intros [required1 optional1] [required2 optional2] Hsame;
  cbn [shapesOfSlices fst snd] in Hsame; injection Hsame as Hrequired Hoptional;
  unfold withHandles; cbn [SearchInputs Zoekt SearcherURLs];
  unfold mbind, mret, Res_bind, Res_ret, addJob;
  repeat (case_match; simplify_eq/=);
  unfold mbind, mret, Res_bind, Res_ret, shapesOfSlices; cbn [fst snd];
  rewrite ?map_app; cbn [map shapeOf NewParallelJob app];
  rewrite ?map_app; cbn [map shapeOf];
  congruence.

Section BlockShapes.

Variables (jargs : Args) (zoekt : ZoektStreamer) (searcherURLs : EndpointMap).
Variables (q : Q) (b : Basic) (maxResults : Z).
Variables (resultTypes : result.Types) (patternInfo : TextPatternInfo.t).
Variables (useFullDeadline : bool) (features : search.Features).
Variables (repoOptions : RepoOptions.t) (universe skip only : bool).

#[local] Abbreviation jargs' := (withHandles jargs zoekt searcherURLs).

Lemma universeSearchJobs_shapes :
  forall bs1 bs2,
    shapesOfSlices (Ok bs1) = shapesOfSlices (Ok bs2) ->
    shapesOfSlices
      (universeSearchJobs jargs maxResults resultTypes patternInfo features
         repoOptions universe bs1)
    = shapesOfSlices
        (universeSearchJobs jargs' maxResults resultTypes patternInfo
           features repoOptions universe bs2).
Proof. unfold universeSearchJobs. same_slices. Qed.

Lemma textSearchJobs_shapes :
  forall bs1 bs2,
    shapesOfSlices (Ok bs1) = shapesOfSlices (Ok bs2) ->
    shapesOfSlices
      (textSearchJobs jargs q resultTypes patternInfo useFullDeadline
         features repoOptions skip only bs1)
    = shapesOfSlices
        (textSearchJobs jargs' q resultTypes patternInfo useFullDeadline
           features repoOptions skip only bs2).
Proof. unfold textSearchJobs. same_slices. Qed.

Lemma symbolSearchJobs_shapes :
  forall bs1 bs2,
    shapesOfSlices (Ok bs1) = shapesOfSlices (Ok bs2) ->
    shapesOfSlices
      (symbolSearchJobs jargs q maxResults resultTypes patternInfo
         useFullDeadline features repoOptions skip only bs1)
    = shapesOfSlices
        (symbolSearchJobs jargs' q maxResults resultTypes patternInfo
           useFullDeadline features repoOptions skip only bs2).
Proof. unfold symbolSearchJobs. same_slices. Qed.

Lemma commitSearchJobs_shapes :
  forall bs1 bs2,
    shapesOfSlices (Ok bs1) = shapesOfSlices (Ok bs2) ->
    shapesOfSlices
      (Ok (commitSearchJobs q b resultTypes patternInfo useFullDeadline
             repoOptions bs1))
    = shapesOfSlices
        (Ok (commitSearchJobs q b resultTypes patternInfo useFullDeadline
               repoOptions bs2)).
Proof. unfold commitSearchJobs. same_slices. Qed.

Lemma structuralSearchJobs_shapes :
  forall bs1 bs2,
    shapesOfSlices (Ok bs1) = shapesOfSlices (Ok bs2) ->
    shapesOfSlices
      (structuralSearchJobs jargs q patternInfo useFullDeadline features
         repoOptions only bs1)
    = shapesOfSlices
        (structuralSearchJobs jargs' q patternInfo useFullDeadline features
           repoOptions only bs2).
Proof. unfold structuralSearchJobs. same_slices. Qed.

Lemma repoSearchJobs_shapes :
  forall bs1 bs2,
    shapesOfSlices (Ok bs1) = shapesOfSlices (Ok bs2) ->
    shapesOfSlices
      (Ok (repoSearchJobs jargs q resultTypes patternInfo useFullDeadline
             features repoOptions universe skip bs1))
    = shapesOfSlices
        (Ok (repoSearchJobs jargs' q resultTypes patternInfo useFullDeadline
               features repoOptions universe skip bs2)).
Proof. unfold repoSearchJobs. same_slices. Qed.

End BlockShapes.

Lemma searchJobs_shapes (jargs : Args) (zoekt : ZoektStreamer)
    (searcherURLs : EndpointMap) (q : Q) (b : Basic) (maxResults : Z)
    (resultTypes : result.Types) (patternInfo : TextPatternInfo.t) :
  shapesOfSlices (searchJobs jargs q b maxResults resultTypes patternInfo)
  = shapesOfSlices
      (searchJobs (withHandles jargs zoekt searcherURLs) q b maxResults
         resultTypes patternInfo).
Proof.
  unfold searchJobs.
  change (computedUseFullDeadline (withHandles jargs zoekt searcherURLs) q)
    with (computedUseFullDeadline jargs q).
  change (SearchInputs (withHandles jargs zoekt searcherURLs))
    with (SearchInputs jargs).
  destruct (jobMode _ _ _ _) as [[universe skip] only].
  unfold mbind, mret, Res_bind, Res_ret.
  pose proof (universeSearchJobs_shapes jargs zoekt searcherURLs maxResults
                resultTypes patternInfo
                (toFeatures (SearchInputs.Features (SearchInputs jargs)))
                (toRepoOptions q
                   (SearchInputs.UserSettings (SearchInputs jargs)))
                universe ([], []) ([], []) eq_refl) as H1.
  destruct (universeSearchJobs jargs _ _ _ _ _ _ _) as [bs1|e1],
    (universeSearchJobs (withHandles _ _ _) _ _ _ _ _ _ _) as [bs1'|e1'];
    cbn [shapesOfSlices] in H1; try discriminate; [|exact H1].
  pose proof (textSearchJobs_shapes jargs zoekt searcherURLs q resultTypes
                patternInfo (computedUseFullDeadline jargs q)
                (toFeatures (SearchInputs.Features (SearchInputs jargs)))
                (toRepoOptions q
                   (SearchInputs.UserSettings (SearchInputs jargs)))
                skip only bs1 bs1' H1) as H2.
  destruct (textSearchJobs jargs _ _ _ _ _ _ _ _ _) as [bs2|e2],
    (textSearchJobs (withHandles _ _ _) _ _ _ _ _ _ _ _ _) as [bs2'|e2'];
    cbn [shapesOfSlices] in H2; try discriminate; [|exact H2].
  pose proof (symbolSearchJobs_shapes jargs zoekt searcherURLs q maxResults
                resultTypes patternInfo (computedUseFullDeadline jargs q)
                (toFeatures (SearchInputs.Features (SearchInputs jargs)))
                (toRepoOptions q
                   (SearchInputs.UserSettings (SearchInputs jargs)))
                skip only bs2 bs2' H2) as H3.
  destruct (symbolSearchJobs jargs _ _ _ _ _ _ _ _ _ _) as [bs3|e3],
    (symbolSearchJobs (withHandles _ _ _) _ _ _ _ _ _ _ _ _ _) as [bs3'|e3'];
    cbn [shapesOfSlices] in H3; try discriminate; [|exact H3].
  pose proof (commitSearchJobs_shapes q b resultTypes patternInfo
                (computedUseFullDeadline jargs q)
                (toRepoOptions q
                   (SearchInputs.UserSettings (SearchInputs jargs)))
                bs3 bs3' H3) as H4.
  pose proof (structuralSearchJobs_shapes jargs zoekt searcherURLs q
                patternInfo (computedUseFullDeadline jargs q)
                (toFeatures (SearchInputs.Features (SearchInputs jargs)))
                (toRepoOptions q
                   (SearchInputs.UserSettings (SearchInputs jargs)))
                only _ _ H4) as H5.
  destruct (structuralSearchJobs jargs _ _ _ _ _ _ _) as [bs5|e5],
    (structuralSearchJobs (withHandles _ _ _) _ _ _ _ _ _ _) as [bs5'|e5'];
    cbn [shapesOfSlices] in H5; try discriminate; [|exact H5].
  pose proof (repoSearchJobs_shapes jargs zoekt searcherURLs q resultTypes
                patternInfo (computedUseFullDeadline jargs q)
                (toFeatures (SearchInputs.Features (SearchInputs jargs)))
                (toRepoOptions q
                   (SearchInputs.UserSettings (SearchInputs jargs)))
                universe skip bs5 bs5' H5) as H6.
  cbn [shapesOfSlices] in H6. injection H6 as Hrequired Hoptional.
  unfold addJob. cbn [shapesOfSlices fst snd].
  rewrite !map_app, Hrequired, Hoptional. reflexivity.
Qed.

Lemma ToSearchJob_shape (q : Q) : shapeIgnoresHandles (ToSearchJob q).
Proof.
  intros args zoekt searcherURLs. unfold ToSearchJob. cbv zeta.
  change (SearchInputs (withHandles args zoekt searcherURLs))
    with (SearchInputs args).
  destruct (ToBasicQuery q) as [b|e]; [|split; reflexivity].
  change (computedResultTypes (withHandles args zoekt searcherURLs) q b)
    with (computedResultTypes args q b).
  change (computedPatternInfo (withHandles args zoekt searcherURLs) q b)
    with (computedPatternInfo args q b).
  assert (Hfallback :
            emptyPatternFallback (withHandles args zoekt searcherURLs)
              (computedPatternInfo args q b)
            = (withHandles
                 (emptyPatternFallback args (computedPatternInfo args q b)).1
                 zoekt searcherURLs,
               (emptyPatternFallback args (computedPatternInfo args q b)).2)).
  { unfold emptyPatternFallback. case_match; reflexivity. }
  rewrite Hfallback.
  destruct (emptyPatternFallback args (computedPatternInfo args q b))
    as [jargs patternInfo]. cbn [fst snd].
  pose proof (searchJobs_shapes jargs zoekt searcherURLs q b
                (Q_MaxResults q (SearchInputs_DefaultLimit (SearchInputs args)))
                (computedResultTypes args q b) patternInfo) as H.
  destruct (searchJobs jargs _ _ _ _ _) as [[required optional]|e],
    (searchJobs (withHandles _ _ _) _ _ _ _ _) as [[required' optional']|e'];
    cbn [shapesOfSlices fst snd] in H; try discriminate; cbn [fst snd].
  - injection H as Hrequired Hoptional. split; [|reflexivity].
    destruct SubRepoEnabled; cbn [shapeOfResult shapeOf NewFilterJob
      NewPriorityJob NewParallelJob]; rewrite Hrequired, Hoptional;
      reflexivity.
  - split; [cbn [shapeOfResult]; congruence|reflexivity].
Qed.

Lemma andOperands_shapes (compile : Node -> M Job)
    (queryOperands : list Node) :
  Forall (fun operand => shapeIgnoresHandles (compile operand))
    queryOperands ->
  shapesIgnoreHandles (andOperands compile queryOperands).
Proof.
  induction 1 as [|operand rest Hoperand _ IH];
    intros args zoekt searcherURLs; cbn [andOperands].
  - split; reflexivity.
  - unfold mbind, M_bind, mret, M_ret.
    destruct (Hoperand args zoekt searcherURLs) as [Hshape Hstore].
    destruct (compile operand args) as [[job|e] args1],
      (compile operand (withHandles args zoekt searcherURLs))
        as [[job'|e'] args1'];
      cbn [fst snd shapeOfResult] in Hshape, Hstore; try discriminate.
    + subst args1'. destruct (IH args1 zoekt searcherURLs) as [Hshapes Hstores].
      destruct (andOperands compile rest args1) as [[jobs|e] args2],
        (andOperands compile rest (withHandles args1 zoekt searcherURLs))
          as [[jobs'|e'] args2'];
        cbn [fst snd shapesOfResult] in Hshapes, Hstores |- *;
        try discriminate; split; try assumption.
      injection Hshape as Hshape. injection Hshapes as Hshapes.
      cbn [map shapeOf NewLimitJob]. rewrite Hshape, Hshapes. reflexivity.
    + split; [|exact Hstore]. cbn [fst shapesOfResult]. congruence.
Qed.

Lemma orOperands_shapes (compile : Node -> M Job)
    (queryOperands : list Node) :
  Forall (fun operand => shapeIgnoresHandles (compile operand))
    queryOperands ->
  shapesIgnoreHandles (orOperands compile queryOperands).
Proof.
  induction 1 as [|operand rest Hoperand _ IH];
    intros args zoekt searcherURLs; cbn [orOperands].
  - split; reflexivity.
  - unfold mbind, M_bind, mret, M_ret.
    destruct (Hoperand args zoekt searcherURLs) as [Hshape Hstore].
    destruct (compile operand args) as [[job|e] args1],
      (compile operand (withHandles args zoekt searcherURLs))
        as [[job'|e'] args1'];
      cbn [fst snd shapeOfResult] in Hshape, Hstore; try discriminate.
    + subst args1'. destruct (IH args1 zoekt searcherURLs) as [Hshapes Hstores].
      destruct (orOperands compile rest args1) as [[jobs|e] args2],
        (orOperands compile rest (withHandles args1 zoekt searcherURLs))
          as [[jobs'|e'] args2'];
        cbn [fst snd shapesOfResult] in Hshapes, Hstores |- *;
        try discriminate; split; try assumption.
      injection Hshape as Hshape. injection Hshapes as Hshapes.
      cbn [map shapeOf]. rewrite Hshape, Hshapes. reflexivity.
    + split; [|exact Hstore]. cbn [fst shapesOfResult]. congruence.
Qed.

Lemma compilePattern_shape (parameters : list Parameter_) (term : Node) :
  shapeIgnoresHandles (compilePattern parameters term).
Proof.
  induction term as [p|value negated|kind operands IH] using Node_ind_nested;
    cbn [compilePattern].
  - intros args zoekt searcherURLs. split; reflexivity.
  - apply ToSearchJob_shape.
  - case_bool_decide; [intros args zoekt searcherURLs; split; reflexivity|].
    destruct kind.
    + intros args zoekt searcherURLs. unfold mbind, M_bind, mret, M_ret.
      destruct (orOperands_shapes _ _ IH args zoekt searcherURLs)
        as [Hshapes Hstore].
      destruct (orOperands _ operands args) as [[jobs|e] args1],
        (orOperands _ operands (withHandles args zoekt searcherURLs))
          as [[jobs'|e'] args1'];
        cbn [fst snd shapesOfResult] in Hshapes, Hstore |- *;
        try discriminate; split; try assumption.
      * injection Hshapes as Hshapes.
        cbn [shapeOfResult shapeOf NewOrJob]. rewrite Hshapes. reflexivity.
      * cbn [shapeOfResult]. congruence.
    + intros args zoekt searcherURLs. unfold mbind, M_bind, mret, M_ret.
      destruct (andOperands_shapes _ _ IH args zoekt searcherURLs)
        as [Hshapes Hstore].
      destruct (andOperands _ operands args) as [[jobs|e] args1],
        (andOperands _ operands (withHandles args zoekt searcherURLs))
          as [[jobs'|e'] args1'];
        cbn [fst snd shapesOfResult] in Hshapes, Hstore |- *;
        try discriminate; split; try assumption.
      * injection Hshapes as Hshapes.
        cbn [shapeOfResult shapeOf NewAndJob]. rewrite Hshapes. reflexivity.
      * cbn [shapeOfResult]. congruence.
    + apply ToSearchJob_shape.
Qed.

Lemma ToEvaluateJob_shape (q : Basic) : shapeIgnoresHandles (ToEvaluateJob q).
Proof.
  intros args zoekt searcherURLs.
  unfold ToEvaluateJob, mbind, M_bind, mret, M_ret, getArgs.
  change (SearchInputs (withHandles args zoekt searcherURLs))
    with (SearchInputs args).
  assert (Hjob : shapeIgnoresHandles
                   match Pattern q with
                   | Some _ => toPatternExpressionJob q
                   | None => ToSearchJob (ToNodes (Parameters q))
                   end).
  { unfold toPatternExpressionJob. destruct (Pattern q).
    - apply compilePattern_shape.
    - apply ToSearchJob_shape. }
  destruct (Hjob args zoekt searcherURLs) as [Hshape Hstore].
  destruct (match Pattern q with
            | Some _ => toPatternExpressionJob q
            | None => ToSearchJob (ToNodes (Parameters q))
            end args) as [[job|e] args1],
    (match Pattern q with
     | Some _ => toPatternExpressionJob q
     | None => ToSearchJob (ToNodes (Parameters q))
     end (withHandles args zoekt searcherURLs)) as [[job'|e'] args1'];
    cbn [fst snd shapeOfResult] in Hshape, Hstore |- *;
    try discriminate; split; try assumption.
  injection Hshape as Hshape.
  destruct (negb _);
    cbn [shapeOf NewTimeoutJob NewLimitJob NewSelectJob];
    rewrite Hshape; reflexivity.
Qed.

Lemma planChildren_shapes (plan : Plan) :
  shapesIgnoreHandles (planChildren plan).
Proof.
  induction plan as [|q rest IH]; intros args zoekt searcherURLs;
    cbn [planChildren].
  - split; reflexivity.
  - unfold mbind, M_bind, mret, M_ret.
    destruct (ToEvaluateJob_shape q args zoekt searcherURLs)
      as [Hshape Hstore].
    destruct (ToEvaluateJob q args) as [[job|e] args1],
      (ToEvaluateJob q (withHandles args zoekt searcherURLs))
        as [[job'|e'] args1'];
      cbn [fst snd shapeOfResult] in Hshape, Hstore; try discriminate.
    + subst args1'. destruct (IH args1 zoekt searcherURLs) as [Hshapes Hstores].
      destruct (planChildren rest args1) as [[jobs|e] args2],
        (planChildren rest (withHandles args1 zoekt searcherURLs))
          as [[jobs'|e'] args2'];
        cbn [fst snd shapesOfResult] in Hshapes, Hstores |- *;
        try discriminate; split; try assumption.
      injection Hshape as Hshape. injection Hshapes as Hshapes.
      cbn [map shapeOf]. rewrite Hshape, Hshapes. reflexivity.
    + split; [|exact Hstore]. cbn [fst shapesOfResult]. congruence.
Qed.

Lemma FromExpandedPlan_shape (plan : Plan) :
  shapeIgnoresHandles (FromExpandedPlan plan).
Proof.
  intros args zoekt searcherURLs.
  unfold FromExpandedPlan, mbind, M_bind, mret, M_ret, getArgs.
  destruct (planChildren_shapes plan args zoekt searcherURLs)
    as [Hshapes Hstore].
  destruct (planChildren plan args) as [[jobs|e] args1],
    (planChildren plan (withHandles args zoekt searcherURLs))
      as [[jobs'|e'] args1'];
    cbn [fst snd shapesOfResult] in Hshapes, Hstore |- *;
    try discriminate; split; try assumption.
  - injection Hshapes as Hshapes.
    cbn [shapeOfResult shapeOf NewAlertJob NewOrJob]. rewrite Hshapes.
    reflexivity.
  - cbn [shapeOfResult]. congruence.
Qed.

Lemma withHandles_same (args1 args2 : Args) :
  SearchInputs args1 = SearchInputs args2 ->
  args2 = withHandles args1 (Zoekt args2) (SearcherURLs args2).
Proof. destruct args1, args2. cbn. intros ->. reflexivity. Qed.


End TwoRuns.

(** * Properties of the helpers of the matcher's test *)

Section SearchTestProperties.

Import protocol searchtest.

Lemma String_ltb_lt (a b : string) :
  String.ltb a b = true <-> OrderedTypeEx.String_as_OT.lt a b.
Proof.
  rewrite <- OrderedTypeEx.String_as_OT.cmp_lt.
  unfold String.ltb, OrderedTypeEx.String_as_OT.cmp.
  destruct (String.compare a b); split; congruence.
Qed.

Lemma pathLt_trans (a b c : FileMatch) : pathLt a b -> pathLt b c -> pathLt a c.
Proof.
  unfold pathLt. rewrite !String_ltb_lt.
  apply OrderedTypeEx.String_as_OT.lt_trans.
Qed.

Lemma lineLt_trans (a b c : LineMatch) : lineLt a b -> lineLt b c -> lineLt a c.
Proof. unfold lineLt. lia. Qed.

(** Neither less nor equal is greater. *)
Lemma String_ltb_strict (a b : string) :
  String.ltb a b = true
  <-> String.ltb b a = false /\ String.eqb b a = false.
Proof.
  unfold String.ltb. rewrite (String.compare_antisym b a).
  destruct (String.eqb_spec b a) as [->|Hne].
  - assert (H : String.compare a a = Eq)
      by (apply OrderedTypeEx.String_as_OT.cmp_eq; reflexivity).
    rewrite H. cbn. split; [discriminate|]. intros [_ ?]. discriminate.
  - destruct (String.compare a b) eqn:Hc; cbn.
    + apply String.compare_eq_iff in Hc. congruence.
    + tauto.
    + split; [discriminate|]. intros [? _]. discriminate.
Qed.

Lemma checkLineNumbers_Sorted (path : string) (lm : list LineMatch) :
  forall previous,
    IsSorted sortByLineNumber_Less (previous :: lm) = true
    /\ checkLineNumbers path (Some previous) lm = Ok tt
    <-> Sorted lineLt (previous :: lm).
Proof.
  induction lm as [|current rest IH]; intros previous.
  - cbn. split; [intros _; repeat constructor|tauto].
  - change (IsSorted sortByLineNumber_Less (previous :: current :: rest))
      with (negb (sortByLineNumber_Less current previous)
            && IsSorted sortByLineNumber_Less (current :: rest)).
    cbn [checkLineNumbers]. unfold sortByLineNumber_Less at 1.
    split.
    + intros [Hsorted Hcheck]. apply andb_true_iff in Hsorted.
      destruct Hsorted as [Hless Hsorted].
      destruct (Z.eqb_spec (LineNumber current) (LineNumber previous));
        [discriminate|].
      constructor; [apply IH; split; assumption|].
      constructor. unfold lineLt. apply negb_true_iff, Z.ltb_ge in Hless. lia.
    + intros H. inversion H as [|? ? Hrest Hhd]; subst.
      inversion Hhd as [|? ? Hlt]; subst. unfold lineLt in Hlt.
      apply IH in Hrest. destruct Hrest as [Hsorted Hcheck].
      rewrite Hsorted.
      destruct (Z.eqb_spec (LineNumber current) (LineNumber previous)); [lia|].
      split; [|exact Hcheck]. rewrite andb_true_r.
      apply negb_true_iff, Z.ltb_ge. lia.
Qed.

Lemma lines_accepted_iff (path : string) (lm : list LineMatch) :
  IsSorted sortByLineNumber_Less lm = true
  /\ checkLineNumbers path None lm = Ok tt
  <-> StronglySorted lineLt lm.
Proof.
  destruct lm as [|first rest].
  - cbn. split; [intros _; constructor|tauto].
  - change (checkLineNumbers path None (first :: rest))
      with (checkLineNumbers path (Some first) rest).
    rewrite checkLineNumbers_Sorted. split.
    + apply Sorted_StronglySorted. intros a b c. apply lineLt_trans.
    + apply StronglySorted_Sorted.
Qed.

Lemma checkFileMatches_Sorted (m : list FileMatch) :
  forall previous,
    IsSorted sortByPath_Less (previous :: m) = true
    /\ checkFileMatches (Some previous) m = Ok tt
    <-> Sorted pathLt (previous :: m)
        /\ Forall (fun f => StronglySorted lineLt (LineMatches f)) m.
Proof.
  induction m as [|current rest IH]; intros previous.
  - cbn. split; [intros _; repeat constructor|tauto].
  - change (IsSorted sortByPath_Less (previous :: current :: rest))
      with (negb (sortByPath_Less current previous)
            && IsSorted sortByPath_Less (current :: rest)).
    cbn [checkFileMatches]. unfold sortByPath_Less at 1.
    pose proof (lines_accepted_iff (Path current) (LineMatches current))
      as Hlines.
    pose proof (String_ltb_strict (Path previous) (Path current)) as Hstrict.
    split.
    + intros [Hsorted Hcheck]. apply andb_true_iff in Hsorted.
      destruct Hsorted as [Hless Hsorted]. apply negb_true_iff in Hless.
      destruct (String.eqb (Path current) (Path previous)) eqn:Heq;
        [discriminate|].
      destruct (IsSorted sortByLineNumber_Less (LineMatches current))
        eqn:Hsl; [|discriminate].
      cbn [negb] in Hcheck. unfold mbind, Res_bind in Hcheck.
      destruct (checkLineNumbers _ None _) as [[]|] eqn:Hcl; [|discriminate].
      destruct (proj1 (IH current) (conj Hsorted Hcheck)) as [Hs Hall].
      split.
      * constructor; [exact Hs|]. constructor. apply Hstrict. auto.
      * constructor; [apply Hlines; auto|exact Hall].
    + intros [Hs Hall]. inversion Hs as [|? ? Hrest Hhd]; subst.
      inversion Hhd as [|? ? Hlt]; subst.
      inversion Hall as [|? ? Hcurrent Hall']; subst.
      apply Hstrict in Hlt. destruct Hlt as [Hless Heq].
      apply Hlines in Hcurrent. destruct Hcurrent as [Hsl Hcl].
      destruct (proj2 (IH current) (conj Hrest Hall')) as [Hsorted Hcheck].
      rewrite Hless, Hsorted, Heq, Hsl. cbn [negb andb].
      unfold mbind, Res_bind. rewrite Hcl. auto.
Qed.

Lemma sanityCheckSorted_sorted (m : list FileMatch) :
  sanityCheckSorted m = Ok tt ->
  StronglySorted pathLt m
  /\ Forall (fun f => StronglySorted lineLt (LineMatches f)) m.
Proof.
  unfold sanityCheckSorted. destruct m as [|first rest].
  - intros _. split; constructor.
  - pose proof (checkFileMatches_Sorted rest first) as Hrest.
    pose proof (lines_accepted_iff (Path first) (LineMatches first))
      as Hlines.
    cbn [checkFileMatches]. intros H.
    destruct (IsSorted sortByPath_Less (first :: rest)) eqn:Hsorted;
      [|discriminate].
    cbn [negb] in H.
    destruct (IsSorted sortByLineNumber_Less (LineMatches first))
      eqn:Hsl; [|discriminate].
    cbn [negb] in H. unfold mbind, Res_bind in H.
    destruct (checkLineNumbers _ None _) as [[]|] eqn:Hcl; [|discriminate].
    destruct (proj1 Hrest (conj eq_refl H)) as [Hs Hall].
    split.
    + apply Sorted_StronglySorted; [|exact Hs].
      intros a b c. apply pathLt_trans.
    + constructor; [apply Hlines; auto|exact Hall].
Qed.

(** X15: [sanityCheckSorted] returns no error exactly when the paths of
    the file matches are strictly increasing in byte order and, in every
    file match, the line numbers are strictly increasing. *)
Theorem sanityCheckSorted_accepts_strictly_sorted (m : list FileMatch) :
  sanityCheckSorted m = Ok tt
  <-> StronglySorted pathLt m
      /\ Forall (fun f => StronglySorted lineLt (LineMatches f)) m.
Proof.
  split; [apply sanityCheckSorted_sorted|].
  intros [Hs Hall]. unfold sanityCheckSorted.
  destruct m as [|first rest]; [reflexivity|].
  apply StronglySorted_Sorted in Hs.
  inversion Hall as [|? ? Hfirst Hall']; subst.
  apply (lines_accepted_iff (Path first)) in Hfirst.
  destruct Hfirst as [Hsl Hcl].
  destruct (proj2 (checkFileMatches_Sorted rest first) (conj Hs Hall'))
    as [Hsorted Hcheck].
  cbn [checkFileMatches]. rewrite Hsorted, Hsl. cbn [negb].
  unfold mbind, Res_bind. rewrite Hcl. exact Hcheck.
Qed.

Lemma StronglySorted_NoDup_map {A B : Type} (R : A -> A -> Prop)
    (f : A -> B) (l : list A) :
  (forall a b, R a b -> f a <> f b) ->
  StronglySorted R l -> NoDup (map f l).
Proof.
  intros Hne. induction 1 as [|a l _ IH Hall]; cbn [map]; constructor.
  - rewrite list_elem_of_In, in_map_iff. intros (b & Hb & Hin).
    rewrite List.Forall_forall in Hall. apply (Hne a b (Hall b Hin)).
    congruence.
  - exact IH.
Qed.

(** X16: file matches that [sanityCheckSorted] accepts name every path
    once, and every file match among them names every line number
    once. *)
Theorem sanityCheckSorted_no_duplicates (m : list FileMatch) :
  sanityCheckSorted m = Ok tt ->
  NoDup (map Path m)
  /\ Forall (fun f => NoDup (map LineNumber (LineMatches f))) m.
Proof.
  intros H. apply sanityCheckSorted_sorted in H.
  destruct H as [Hpaths Hlines]. split.
  - apply (StronglySorted_NoDup_map pathLt); [|exact Hpaths].
    intros a b Hlt Heq. unfold pathLt in Hlt. rewrite Heq in Hlt.
    apply String_ltb_strict in Hlt. destruct Hlt as [Hlt Hne].
    rewrite String.eqb_refl in Hne. discriminate.
  - eapply Forall_impl; [exact Hlines|]. intros f Hf. cbv beta.
    apply (StronglySorted_NoDup_map lineLt); [|exact Hf].
    unfold lineLt. intros a b Hlt. lia.
Qed.


Lemma append_assoc (a b c : string) : (a +:+ b) +:+ c = a +:+ (b +:+ c).
Proof.
  induction a as [|x a IH]; [reflexivity|].
  change (String x ((a +:+ b) +:+ c) = String x (a +:+ (b +:+ c))).
  rewrite IH. reflexivity.
Qed.

Lemma append_empty (a b : string) : a +:+ b = "" -> a = "" /\ b = "".
Proof. destruct a; [cbn; auto|discriminate]. Qed.

(** X17: [toString] writes the file matches one after the other: the
    text of a concatenation is the concatenation of the texts. *)
Theorem toString_app (m1 m2 : list FileMatch) :
  toString (m1 ++ m2) = toString m1 +:+ toString m2.
Proof.
  unfold toString. induction m1 as [|f m1 IH]; [reflexivity|].
  cbn [app foldr]. rewrite IH, append_assoc. reflexivity.
Qed.

Lemma fileString_not_empty (f : FileMatch) : fileString f <> "".
Proof.
  unfold fileString, lineStrings. intros H. apply append_empty in H.
  destruct H as [Hpath Hlines].
  destruct (LineMatches f) as [|l rest].
  - rewrite bool_decide_eq_true_2 in Hpath by reflexivity.
    apply append_empty in Hpath. destruct Hpath as [_ ?]. discriminate.
  - cbn [foldr] in Hlines.
    repeat (apply append_empty in Hlines; destruct Hlines as [_ Hlines]).
    discriminate.
Qed.

(** X18: [toString] writes at least one byte for every file match, also
    for one without line matches: its text is empty only for the empty
    list. *)
Theorem toString_empty_iff (m : list FileMatch) :
  toString m = "" <-> m = [].
Proof.
  split; [|intros ->; reflexivity].
  destruct m as [|f m]; [reflexivity|]. unfold toString. cbn [foldr].
  intros H. apply append_empty in H. destruct H as [H _].
  destruct (fileString_not_empty f H).
Qed.

End SearchTestProperties.

(** * Further examples *)

Section FurtherExamples.

Import query search.

(** X2, witness: [type:file type:symbol foo] as a literal batch search. *)
Lemma ToSearchJob_slices_in_order_witness :
  exists job jargs',
    ToSearchJob (env := Sample.env false) Sample.fileAndSymbolQuery
      (Sample.args SearchTypeLiteral Batch) = (Ok job, jargs')
    /\ exists universeJobs textJobs symbolRequired symbolOptional
              commitRequired commitOptional structuralJobs repoJobs options,
         bucketsOf job
         = Some (universeJobs ++ textJobs ++ symbolRequired ++ commitRequired
                   ++ structuralJobs ++ repoJobs
                   ++ [ComputeExcludedRepos options],
                 symbolOptional ++ commitOptional)
         /\ (length universeJobs <= 2)%nat
         /\ Forall (fun j => isUniverseJob j = true) universeJobs.
Proof.
  destruct (ToSearchJob (env := Sample.env false) Sample.fileAndSymbolQuery
              (Sample.args SearchTypeLiteral Batch))
    as [[job|] jargs'] eqn:Hrun; [|vm_compute in Hrun; discriminate].
  exists job, jargs'. split; [reflexivity|].
  destruct (ToSearchJob_slices_in_order (env := Sample.env false)
              Sample.fileAndSymbolQuery (Sample.args SearchTypeLiteral Batch)
              jargs' job Hrun)
    as (u & t & sr & so & cr & co & st & r & Hb & Hn & _ & _ & _ & _ & _
        & Hu & _).
  exists u, t, sr, so, cr, co, st, r. eexists. split; [exact Hb|].
  split; [exact Hn|exact Hu].
Defined.

(** X3, witness: [repo:a], a query without pattern, file or language
    filter. *)
Lemma empty_query_skips_index_and_pager_jobs_witness :
  exists job jargs' required optional,
    ToSearchJob (env := Sample.env false) [NParameter (Sample.repoParam "a")]
      (Sample.args SearchTypeLiteral Batch) = (Ok job, jargs')
    /\ bucketsOf job = Some (required, optional)
    /\ Forall (fun j =>
                 isUniverseJob j = false
                 /\ isRepoPagerJob j = false
                 /\ (forall mode, repoSearchMode j = Some mode ->
                       mode = SkipUnindexed))
              (required ++ optional).
Proof.
  destruct (ToSearchJob (env := Sample.env false)
              [NParameter (Sample.repoParam "a")]
              (Sample.args SearchTypeLiteral Batch))
    as [[job|] jargs'] eqn:Hrun; [|vm_compute in Hrun; discriminate].
  destruct (bucketsOf job) as [[required optional]|] eqn:Hbuckets;
    [|vm_compute in Hrun; injection Hrun as <- _; discriminate].
  exists job, jargs', required, optional.
  split; [reflexivity|]. split; [exact Hbuckets|].
  apply (empty_query_skips_index_and_pager_jobs (env := Sample.env false)
           [NParameter (Sample.repoParam "a")]
           (Sample.args SearchTypeLiteral Batch) jargs' job
           {| Parameters := [Sample.repoParam "a"]; Pattern := None |}
           required optional Hrun Hbuckets);
    reflexivity.
Defined.

(** X4, witness: [type:file type:symbol foo] off sourcegraph.com: the
    universe jobs search the index and the repo-pager jobs run without
    it. *)
Lemma pager_runs_index_iff_no_universe_job_witness :
  exists job jargs' required optional pager children,
    ToSearchJob (env := Sample.env false) Sample.fileAndSymbolQuery
      (Sample.args SearchTypeLiteral Batch) = (Ok job, jargs')
    /\ bucketsOf job = Some (required, optional)
    /\ In pager (required ++ optional)
    /\ isRepoPagerJob pager = true
    /\ pagerChildren pager = Some children
    /\ existsb isZoektSubsetJob children
       = negb (existsb isUniverseJob (required ++ optional)).
Proof.
  destruct (ToSearchJob (env := Sample.env false) Sample.fileAndSymbolQuery
              (Sample.args SearchTypeLiteral Batch))
    as [[job|] jargs'] eqn:Hrun; [|vm_compute in Hrun; discriminate].
  destruct (bucketsOf job) as [[required optional]|] eqn:Hbuckets;
    [|vm_compute in Hrun; injection Hrun as <- _; discriminate].
  assert (Hpager : existsb isRepoPagerJob (required ++ optional) = true).
  { vm_compute in Hrun. injection Hrun as <- _.
    vm_compute in Hbuckets. injection Hbuckets as <- <-. reflexivity. }
  apply existsb_exists in Hpager. destruct Hpager as (pager & Hin & Hpager).
  destruct (pager_runs_index_iff_no_universe_job (env := Sample.env false)
              Sample.fileAndSymbolQuery (Sample.args SearchTypeLiteral Batch)
              jargs' job required optional pager Hrun Hbuckets Hin Hpager)
    as (children & Hchildren & _ & Hzoekt & _).
  exists job, jargs', required, optional, pager, children. auto 10.
Defined.

(** X5, witness: [repo:a foo(:[args])] as a structural search. *)
Lemma structural_job_excludes_universe_jobs_witness :
  exists job jargs' required optional structuralJob,
    ToSearchJob (env := Sample.env false)
      [NParameter (Sample.repoParam "a"); NPattern "foo(:[args])" false]
      (Sample.args SearchTypeStructural Batch) = (Ok job, jargs')
    /\ bucketsOf job = Some (required, optional)
    /\ In structuralJob (required ++ optional)
    /\ isStructuralSearch structuralJob = true
    /\ existsb isUniverseJob (required ++ optional) = false
    /\ notSearcherOnly structuralJob = Some true.
Proof.
  destruct (ToSearchJob (env := Sample.env false)
              [NParameter (Sample.repoParam "a");
               NPattern "foo(:[args])" false]
              (Sample.args SearchTypeStructural Batch))
    as [[job|] jargs'] eqn:Hrun; [|vm_compute in Hrun; discriminate].
  destruct (bucketsOf job) as [[required optional]|] eqn:Hbuckets;
    [|vm_compute in Hrun; injection Hrun as <- _; discriminate].
  assert (Hs : existsb isStructuralSearch (required ++ optional) = true).
  { vm_compute in Hrun. injection Hrun as <- _.
    vm_compute in Hbuckets. injection Hbuckets as <- <-. reflexivity. }
  apply existsb_exists in Hs. destruct Hs as (j & Hin & Hs).
  destruct (structural_job_excludes_universe_jobs (env := Sample.env false)
              _ _ jargs' job required optional j Hrun Hbuckets Hin Hs)
    as [Hnone Hflag].
  exists job, jargs', required, optional, j. auto 10.
Defined.

(** X6, witness: [repo:a foo] gets a repo job in the default mode. *)
Lemma repo_search_mode_matches_slices_witness :
  exists job jargs' required optional repoJob,
    ToSearchJob (env := Sample.env false) Sample.fooInRepo
      (Sample.args SearchTypeLiteral Batch) = (Ok job, jargs')
    /\ bucketsOf job = Some (required, optional)
    /\ In repoJob (required ++ optional)
    /\ repoSearchMode repoJob = Some DefaultMode
    /\ existsb isUniverseJob (required ++ optional) = false.
Proof.
  destruct (ToSearchJob (env := Sample.env false) Sample.fooInRepo
              (Sample.args SearchTypeLiteral Batch))
    as [[job|] jargs'] eqn:Hrun; [|vm_compute in Hrun; discriminate].
  destruct (bucketsOf job) as [[required optional]|] eqn:Hbuckets;
    [|vm_compute in Hrun; injection Hrun as <- _; discriminate].
  assert (Hrepo : existsb
                    (fun j => match repoSearchMode j with
                              | Some DefaultMode => true
                              | _ => false
                              end)
                    (required ++ optional) = true).
  { vm_compute in Hrun. injection Hrun as <- _.
    vm_compute in Hbuckets. injection Hbuckets as <- <-. reflexivity. }
  apply existsb_exists in Hrepo. destruct Hrepo as (j & Hin & Hmode).
  destruct (repoSearchMode j) as [[]|] eqn:Hj; try discriminate.
  exists job, jargs', required, optional, j.
  split; [reflexivity|]. split; [exact Hbuckets|]. split; [exact Hin|].
  split; [exact Hj|].
  exact (repo_search_mode_matches_slices (env := Sample.env false)
           Sample.fooInRepo (Sample.args SearchTypeLiteral Batch) jargs' job
           required optional j DefaultMode Hrun Hbuckets Hin Hj).
Defined.

(** X7, witness: [type:commit type:diff foo] gets one commit search job,
    a diff search. *)
Lemma at_most_one_commit_search_witness :
  exists job jargs' required optional,
    ToSearchJob (env := Sample.env false)
      [Sample.param "type" "commit"; Sample.param "type" "diff";
       NPattern "foo" false]
      (Sample.args SearchTypeLiteral Batch) = (Ok job, jargs')
    /\ bucketsOf job = Some (required, optional)
    /\ (length (List.filter isCommitSearch (required ++ optional)) <= 1)%nat
    /\ Forall (fun j => forall diff, commitDiff j = Some diff -> diff = true)
         (required ++ optional).
Proof.
  destruct (ToSearchJob (env := Sample.env false)
              [Sample.param "type" "commit"; Sample.param "type" "diff";
               NPattern "foo" false]
              (Sample.args SearchTypeLiteral Batch))
    as [[job|] jargs'] eqn:Hrun; [|vm_compute in Hrun; discriminate].
  destruct (bucketsOf job) as [[required optional]|] eqn:Hbuckets;
    [|vm_compute in Hrun; injection Hrun as <- _; discriminate].
  exists job, jargs', required, optional.
  split; [reflexivity|]. split; [exact Hbuckets|].
  exact (at_most_one_commit_search (env := Sample.env false) _ _ jargs' job
           {| Parameters :=
                [{| Field := "type"; Value := "commit"; Negated := false |};
                 {| Field := "type"; Value := "diff"; Negated := false |}];
              Pattern := Some (NPattern "foo" false) |}
           required optional Hrun Hbuckets eq_refl).
Defined.

(** X10, witness: the pattern [foo(] does not translate for the index. *)
Lemma ToSearchJob_error_origin_witness :
  exists e jargs',
    ToSearchJob (env := Sample.env false) [NPattern "foo(" false]
      (Sample.args SearchTypeRegex Batch) = (Err e, jargs')
    /\ exists b,
         ToBasicQuery (Env := Sample.env false) [NPattern "foo(" false] = Ok b
         /\ result.Has
              (computedResultTypes (env := Sample.env false)
                 (Sample.args SearchTypeRegex Batch) [NPattern "foo(" false] b)
              (Z.lor (Z.lor result.TypeFile result.TypePath)
                 result.TypeSymbol)
            = true.
Proof.
  destruct (ToSearchJob (env := Sample.env false) [NPattern "foo(" false]
              (Sample.args SearchTypeRegex Batch))
    as [[job|e] jargs'] eqn:Hrun; [vm_compute in Hrun; discriminate|].
  exists e, jargs'. split; [reflexivity|].
  destruct (ToSearchJob_error_origin (env := Sample.env false) _ _ _ _ Hrun)
    as [[Hbasic _]|(b & Hbasic & _ & _ & Htypes)].
  - vm_compute in Hbasic. discriminate.
  - exists b. split; [exact Hbasic|].
    destruct Htypes as [Htypes|Hst]; [exact Htypes|].
    vm_compute in Hrun. injection Hrun as _ <-. vm_compute in Hst.
    discriminate.
Defined.

(** X11, witness: the plan of [(repo:a foo) or (repo:b bar()]; the
    failing call is the one on [repo:b bar(]. *)
Lemma FromExpandedPlan_fails_in_ToSearchJob_witness :
  exists e args' jargs,
    FromExpandedPlan (env := Sample.env false)
      [ {| Parameters := [Sample.repoParam "a"];
           Pattern := Some (NPattern "foo" false) |};
        {| Parameters := [Sample.repoParam "b"];
           Pattern := Some (NPattern "bar(" false) |} ]
      (Sample.args SearchTypeRegex Batch) = (Err e, args')
    /\ (jargs = Sample.args SearchTypeRegex Batch
        \/ jargs = setPatternType (Sample.args SearchTypeRegex Batch)
                     SearchTypeLiteral)
    /\ ToSearchJob (env := Sample.env false)
         [NParameter (Sample.repoParam "b"); NPattern "bar(" false] jargs
       = (Err e, args').
Proof.
  destruct (FromExpandedPlan (env := Sample.env false)
              [ {| Parameters := [Sample.repoParam "a"];
                   Pattern := Some (NPattern "foo" false) |};
                {| Parameters := [Sample.repoParam "b"];
                   Pattern := Some (NPattern "bar(" false) |} ]
              (Sample.args SearchTypeRegex Batch))
    as [[job|e] args'] eqn:Hrun; [vm_compute in Hrun; discriminate|].
  destruct (FromExpandedPlan_fails_in_ToSearchJob (env := Sample.env false)
              _ _ _ _ Hrun) as (basic & q & jargs & Hbasic & Hq & Hstore & Hcall).
  exists e, args', jargs. split; [reflexivity|]. split; [exact Hstore|].
  destruct Hbasic as [<-|[<-|[]]]; cbn in Hq; destruct Hq as [<-|[]].
  - exfalso. destruct Hstore as [->| ->]; vm_compute in Hcall; discriminate.
  - exact Hcall.
Defined.

(** X14, witness: the plan of [(repo:a foo) or (repo:b bar)] makes two
    searches. *)
Lemma plan_tree_counts_one_excluded_repos_job_per_search_witness :
  exists job args',
    FromExpandedPlan (env := Sample.env true) Sample.twoRepoPlan
      (Sample.args SearchTypeLiteral Batch) = (Ok job, args')
    /\ countExcludedRepos job = 2%nat.
Proof.
  destruct (FromExpandedPlan (env := Sample.env true) Sample.twoRepoPlan
              (Sample.args SearchTypeLiteral Batch))
    as [[job|] args'] eqn:Hrun; [|vm_compute in Hrun; discriminate].
  exists job, args'. split; [reflexivity|].
  exact (plan_tree_counts_one_excluded_repos_job_per_search
           (env := Sample.env true) Sample.twoRepoPlan
           (Sample.args SearchTypeLiteral Batch) args' job Hrun).
Defined.

(** X16, witness: two files, the first with two matching lines. *)
Lemma sanityCheckSorted_no_duplicates_witness :
  let m :=
    [ {| protocol.Path := "README.md";
         protocol.LineMatches :=
           [ {| protocol.LineNumber := 0; protocol.Preview := "# Hello" |};
             {| protocol.LineNumber := 2; protocol.Preview := "Hello" |} ] |};
      {| protocol.Path := "main.go"; protocol.LineMatches := [] |} ] in
  searchtest.sanityCheckSorted m = Ok tt
  /\ NoDup (map protocol.Path m)
  /\ Forall (fun f =>
               NoDup (map protocol.LineNumber (protocol.LineMatches f))) m.
Proof.
  intros m. split; [reflexivity|].
  apply (sanityCheckSorted_no_duplicates m). reflexivity.
Defined.

(** X19, witness: the jobs of [repo:a foo] carry the options with the
    repository filter [a]; its repo job carries [a] and [foo]. *)
Lemma jobs_share_the_repo_options_witness :
  exists job jargs' required optional,
    ToSearchJob (env := Sample.env false) Sample.fooInRepo
      (Sample.args SearchTypeLiteral Batch) = (Ok job, jargs')
    /\ bucketsOf job = Some (required, optional)
    /\ Forall (fun j =>
                 (forall options, jobRepoOptions j = Some options ->
                    RepoOptions.RepoFilters options = ["a"])
                 /\ (forall options, repoSearchOptions j = Some options ->
                       RepoOptions.RepoFilters options = ["a"; "foo"]))
              (required ++ optional).
Proof.
  destruct (ToSearchJob (env := Sample.env false) Sample.fooInRepo
              (Sample.args SearchTypeLiteral Batch))
    as [[job|] jargs'] eqn:Hrun; [|vm_compute in Hrun; discriminate].
  destruct (bucketsOf job) as [[required optional]|] eqn:Hbuckets;
    [|vm_compute in Hrun; injection Hrun as <- _; discriminate].
  exists job, jargs', required, optional.
  split; [reflexivity|]. split; [exact Hbuckets|].
  pose proof (jobs_share_the_repo_options (env := Sample.env false)
                Sample.fooInRepo (Sample.args SearchTypeLiteral Batch)
                jargs' job
                {| Parameters := [Sample.repoParam "a"];
                   Pattern := Some (NPattern "foo" false) |}
                required optional Hrun Hbuckets eq_refl) as Hall.
  cbv zeta in Hall. eapply Forall_impl; [exact Hall|].
  intros j [Hshared Hrepo]. split.
  - intros options Hj. rewrite (Hshared options Hj). reflexivity.
  - intros options Hj. specialize (Hrepo options Hj).
    vm_compute in Hrepo. injection Hrepo as <-. reflexivity.
Defined.

(** C5, counterexample: [file:README foo(] asks for repository results
    by default and has the field [file], which is off the allow-list; the
    pattern does not translate for the index, and the compilation
    fails. *)
Lemma off_list_compilation_counterexample :
  ~ offListCompilationSucceeds (env := Sample.env false)
      [Sample.param "file" "README"; NPattern "foo(" false]
      (Sample.args SearchTypeRegex Batch).
Proof.
  intros H.
  destruct (H {| Parameters :=
                   [{| Field := "file"; Value := "README";
                       Negated := false |}];
                 Pattern := Some (NPattern "foo(" false) |}
              {| Field := "file"; Value := "README"; Negated := false |})
    as (job & jargs' & required & optional & Hrun & _).
  - reflexivity.
  - reflexivity.
  - vm_compute. tauto.
  - apply (bool_decide_unpack _). vm_compute. exact I.
  - vm_compute in Hrun. discriminate.
Qed.

(** C5, witness: [type:repo file:README foo] has the field [file], which
    is off the allow-list; the compilation returns a tree without
    [RepoSearch] job.  [repo:a foo] gets a [RepoSearch] job, and its
    fields are on the list. *)
Lemma repo_search_only_for_allowlisted_fields_witness :
  (exists p job jargs' required optional,
     In p (parametersOf Sample.repoTypeWithFile)
     /\ (Field p ∉ fieldAllowlist (env := Sample.env false))
     /\ ToSearchJob (env := Sample.env false) Sample.repoTypeWithFile
          (Sample.args SearchTypeLiteral Batch) = (Ok job, jargs')
     /\ bucketsOf job = Some (required, optional)
     /\ Forall (fun j => isRepoSearch j = false) (required ++ optional))
  /\ (exists job jargs' required optional,
        ToSearchJob (env := Sample.env false) Sample.fooInRepo
          (Sample.args SearchTypeLiteral Batch) = (Ok job, jargs')
        /\ bucketsOf job = Some (required, optional)
        /\ existsb isRepoSearch (required ++ optional) = true
        /\ Forall (fun p => Field p ∈ fieldAllowlist (env := Sample.env false))
             (parametersOf Sample.fooInRepo)).
Proof.
  split.
  - destruct (ToBasicQuery (Env := Sample.env false) Sample.repoTypeWithFile)
      as [b|] eqn:Hb; [|vm_compute in Hb; discriminate].
    assert (Hin : In {| Field := "file"; Value := "README"; Negated := false |}
                    (parametersOf Sample.repoTypeWithFile)).
    { vm_compute. tauto. }
    assert (Hoff : "file" ∉ fieldAllowlist (env := Sample.env false)).
    { apply (bool_decide_unpack _). vm_compute. exact I. }
    destruct (proj1 (proj2 (proj2 (repo_search_only_for_allowlisted_fields
                                     (env := Sample.env false)
                                     Sample.repoTypeWithFile
                                     (Sample.args SearchTypeLiteral Batch)))
                       b Hb))
      as [job Hrun].
    + vm_compute. reflexivity.
    + vm_compute in Hb. injection Hb as <-. vm_compute. reflexivity.
    + vm_compute in Hb. injection Hb as <-. vm_compute. reflexivity.
    + destruct (bucketsOf job) as [[required optional]|] eqn:Hbuckets;
        [|vm_compute in Hrun; injection Hrun as <- _; discriminate].
      exists {| Field := "file"; Value := "README"; Negated := false |},
        job. eexists _, required, optional.
      split; [exact Hin|]. split; [exact Hoff|]. split; [exact Hrun|].
      split; [exact Hbuckets|].
      exact (proj1 (proj2 (repo_search_only_for_allowlisted_fields
                             (env := Sample.env false)
                             Sample.repoTypeWithFile
                             (Sample.args SearchTypeLiteral Batch)))
               _ job _ required optional Hin Hoff Hrun Hbuckets).
  - destruct (ToSearchJob (env := Sample.env false) Sample.fooInRepo
                (Sample.args SearchTypeLiteral Batch))
      as [[job|] jargs'] eqn:Hrun; [|vm_compute in Hrun; discriminate].
    destruct (bucketsOf job) as [[required optional]|] eqn:Hbuckets;
      [|vm_compute in Hrun; injection Hrun as <- _; discriminate].
    exists job, jargs', required, optional.
    split; [reflexivity|]. split; [exact Hbuckets|].
    assert (Hrepo : existsb isRepoSearch (required ++ optional) = true).
    { vm_compute in Hrun. injection Hrun as <- _.
      vm_compute in Hbuckets. injection Hbuckets as <- <-. reflexivity. }
    split; [exact Hrepo|].
    apply existsb_exists in Hrepo. destruct Hrepo as (j & Hj & Hrepo).
    exact (proj1 (repo_search_only_for_allowlisted_fields
                    (env := Sample.env false) Sample.fooInRepo
                    (Sample.args SearchTypeLiteral Batch))
             job jargs' required optional j Hrun Hbuckets Hj Hrepo).
Defined.




End FurtherExamples.
